(** * flexmeasures-entsoe: date ranges, completeness checks and resampling

    A shallow embedding of [flexmeasures_entsoe/utils.py]:
    [abort_if_data_empty], [abort_if_data_incomplete],
    [parse_from_and_to_dates] and [resample_if_needed], together with the
    parts of Python's [datetime] and [str], of [pytz] and of [pandas] these
    functions call.

    Conventions.
    - A [pd.Timestamp] is its [value]: nanoseconds since the Unix epoch in
      UTC, with an optional [tzinfo].  A [pd.Timedelta] is a number of
      nanoseconds.  Python's [datetime] and [timedelta] count microseconds.
      All of them are unbounded integers here: the year range of [datetime]
      and the 64-bit range of pandas are not modelled.
    - [Timedelta / Timedelta] is computed by pandas in binary64: each
      operand is converted to the nearest binary64 number and the quotient
      is rounded to the nearest one, halves to even ([round_binary64]);
      [int(...)] then truncates toward zero.
    - Series values are binary64 numbers as the Standard Library's
      [SpecFloat] has them (precision 53, [emax] 1024), with [None] for NaN
      (pandas' missing value); sums and quotients are rounded as
      [SFadd], [SFsub] and [SFdiv] round them.
    - Calls of [current_app.logger] do not change any returned value and
      are left out; the argument of a call is evaluated all the same, and
      the [%]-formatting of line 241 can raise ([format_with_series]).
    - A character of a [str] is a code point below 256. *)

From Stdlib Require Import ZArith List String Ascii QArith Lia Bool DecimalString Sorted SpecFloat.
Import ListNotations.

Open Scope string_scope.
Open Scope list_scope.
Open Scope Z_scope.

(** ** Exceptions and console output *)

Module Py.

(** The exceptions the embedded code and its library calls raise.
    [Unmodelled] marks a library call on arguments for which this
    development does not say what the library does. *)
Inductive exn : Type :=
| ClickAbort
| ValueError (msg : string)
| TypeError (msg : string)
| ZeroDivisionError
| UnknownTimeZoneError (name : string)
| AmbiguousTimeError
| NonExistentTimeError
| Unmodelled (call : string).

(** A call either returns a value or raises. *)
Inductive result (A : Type) : Type :=
| Ok (a : A)
| Raise (e : exn).
Arguments Ok {A} a.
Arguments Raise {A} e.

Definition bind {A B} (r : result A) (k : A -> result B) : result B :=
  match r with
  | Ok a => k a
  | Raise e => Raise e
  end.

(** A command of the CLI: the lines written with [click.echo] or
    [click.secho], in order, and how the call ends. *)
Definition cmd (A : Type) : Type := (list string * result A)%type.

Definition ret {A} (a : A) : cmd A := ([], Ok a).
Definition echo (line : string) : cmd unit := ([line], Ok tt).
Definition raise {A} (e : exn) : cmd A := ([], Raise e).
Definition seq {A B} (c : cmd A) (k : A -> cmd B) : cmd B :=
  match c with
  | (out, Ok a) => let (out', r) := k a in (out ++ out', r)
  | (out, Raise e) => (out, Raise e)
  end.

(** [str(n)] for an [int]. *)
Definition str (n : Z) : string := NilZero.string_of_int (Z.to_int n).

End Py.
Import Py.

Notation "x <- c ;; k" := (Py.bind c (fun x => k))
  (at level 61, c at next level, right associativity).
Notation "c >> k" := (Py.seq c (fun _ => k))
  (at level 61, right associativity).

(** ** binary64 *)

(** [n / d] rounded to the nearest integer, halves to the even one
    ([0 < d]). *)
Definition round_half_even (n d : Z) : Z :=
  let q := n / d in
  let r := n mod d in
  if 2 * r <? d then q
  else if d <? 2 * r then q + 1
  else if Z.even q then q else q + 1.

(** The fraction [n / d * 2 ^ e]. *)
Definition scale2 (n d e : Z) : Z * Z :=
  if 0 <=? e then (n * 2 ^ e, d) else (n, d * 2 ^ (- e)).

(** The [e] with [2 ^ e <= n / d < 2 ^ (e + 1)], for positive [n] and
    [d]. *)
Definition binary_exponent (n d : Z) : Z :=
  let e := Z.log2 n - Z.log2 d in
  let (n', d') := scale2 n d (- e) in
  if d' <=? n' then e else e - 1.

(** The binary64 number nearest to the positive fraction [n / d], halves
    to even: a significand [m] from [2 ^ 52] to [2 ^ 53] and an exponent
    [e], for the value [m * 2 ^ e].  Quotients of 64-bit integers lie between
    [2 ^ (-64)] and [2 ^ 64], where binary64 numbers are normal; the
    exponent is not bounded here. *)
Definition round_binary64 (n d : Z) : Z * Z :=
  let e := binary_exponent n d - 52 in
  let (n', d') := scale2 n d (- e) in
  (round_half_even n' d', e).

(** [int(x)] for [x = m * 2 ^ e], not negative. *)
Definition int_of_binary64 (x : Z * Z) : Z :=
  let (m, e) := x in
  if 0 <=? e then m * 2 ^ e else m / 2 ^ (- e).

(** The conversion of a 64-bit integer to binary64; its value is an
    integer again. *)
Definition float_of_int64 (a : Z) : Z :=
  Z.sgn a * int_of_binary64 (round_binary64 (Z.abs a) 1).

(** A binary64 number other than NaN, with the fields of [spec_float]:
    a finite number is [m * 2 ^ e], negated where [negative]. *)
Inductive float64 : Type :=
| F_zero (negative : bool)
| F_infinity (negative : bool)
| F_finite (negative : bool) (m : positive) (e : Z).

(** ** [%]-formatting *)

(** [fmt % s] where [s] is a [pd.Series]: one argument that is no tuple
    and can be subscripted, so that a key in parentheses looks it up in
    [s].  The scan of [PyUnicode_Format] is followed as far as it decides
    whether the operator returns; the string it builds is not kept. *)

(** Where the scan is: in literal text, just after a [%], in a key (with
    the number of open parentheses), in the flags, in the width, after
    the dot, in the precision, or at the conversion after a length
    modifier. *)
Inductive format_state : Type :=
| Literal
| Percent
| Key (depth : nat)
| Flags
| Width (width : Z)
| Dot
| Precision (prec : Z)
| Conversion.

(** One character read: the scan goes on, with the argument consumed or
    not, or the operator raises. *)
Inductive format_step : Type :=
| Go (st : format_state) (consumed : bool)
| Stop (e : exn).

Definition PY_SSIZE_T_MAX : Z := 2 ^ 63 - 1.
Definition INT_MAX : Z := 2 ^ 31 - 1.

Definition newline : string := String (ascii_of_nat 10) EmptyString.

Definition one_of (chars : string) (c : ascii) : bool :=
  existsb (Ascii.eqb c) (list_ascii_of_string chars).

Definition is_digit (c : ascii) : bool := one_of "0123456789" c.

Definition digit_value (c : ascii) : Z := Z.of_nat (nat_of_ascii c) - 48.

Definition hex_digit (n : nat) : ascii :=
  nth n (list_ascii_of_string "0123456789abcdef") "0"%char.

(** [%x] of a code point below 256. *)
Definition hex_of_ascii (c : ascii) : string :=
  let n := nat_of_ascii c in
  if (n <? 16)%nat then String (hex_digit n) EmptyString
  else String (hex_digit (n / 16))
              (String (hex_digit (n mod 16)) EmptyString).

Definition unsupported_format_message (c : ascii) (pos : Z) : string :=
  let n := nat_of_ascii c in
  ("unsupported format character '"
   ++ String (if (31 <=? n)%nat && (n <=? 126)%nat then c else "?"%char)
             EmptyString
   ++ "' (0x" ++ hex_of_ascii c ++ ") at index " ++ str pos)%string.

(** [unicode_format_getnextarg] for the one argument. *)
Definition not_enough_arguments : exn :=
  TypeError "not enough arguments for format string".

(** The conversion character [c] at index [pos].  [%s], [%r] and [%a]
    consume the argument.  What a numeric conversion makes of a Series,
    and what a [%] after flags, width, precision or length modifier
    does (it differs between versions of Python), is not said here. *)
Definition convert (c : ascii) (consumed : bool) (pos : Z) : format_step :=
  if (c =? "%")%char then Stop (Unmodelled "% as a conversion")
  else if consumed then Stop not_enough_arguments
  else if one_of "sra" c then Go Literal true
  else if one_of "diouxXeEfFgGc" c
  then Stop (Unmodelled "numeric conversion of a Series")
  else Stop (ValueError (unsupported_format_message c pos)).

Definition length_or_later (c : ascii) (consumed : bool) (pos : Z)
    : format_step :=
  if one_of "hlL" c then Go Conversion consumed else convert c consumed pos.

Definition dot_or_later (c : ascii) (consumed : bool) (pos : Z)
    : format_step :=
  if (c =? ".")%char then Go Dot consumed else length_or_later c consumed pos.

(** A [*] takes the argument as width or precision; a Series is no
    [int]. *)
Definition star (consumed : bool) : format_step :=
  if consumed then Stop not_enough_arguments
  else Stop (TypeError "* wants int").

Definition width_or_later (c : ascii) (consumed : bool) (pos : Z)
    : format_step :=
  if (c =? "*")%char then star consumed
  else if is_digit c then Go (Width (digit_value c)) consumed
  else dot_or_later c consumed pos.

Definition flag_or_later (c : ascii) (consumed : bool) (pos : Z)
    : format_step :=
  if one_of "-+ #0" c then Go Flags consumed
  else width_or_later c consumed pos.

Definition format_char (st : format_state) (consumed : bool) (pos : Z)
    (c : ascii) : format_step :=
  match st with
  | Literal => if (c =? "%")%char then Go Percent consumed
               else Go Literal consumed
  | Percent =>
      if (c =? "%")%char then Go Literal consumed
      else if (c =? "(")%char then Go (Key 1) consumed
      else flag_or_later c consumed pos
  | Key depth =>
      if (c =? ")")%char then
        match depth with
        | 1%nat => Stop (Unmodelled "Series.__getitem__")
        | _ => Go (Key (depth - 1)) consumed
        end
      else if (c =? "(")%char then Go (Key (depth + 1)) consumed
      else Go (Key depth) consumed
  | Flags => flag_or_later c consumed pos
  | Width width =>
      if is_digit c then
        if (PY_SSIZE_T_MAX - digit_value c) / 10 <? width
        then Stop (ValueError "width too big")
        else Go (Width (width * 10 + digit_value c)) consumed
      else dot_or_later c consumed pos
  | Dot =>
      if (c =? "*")%char then star consumed
      else if is_digit c then Go (Precision (digit_value c)) consumed
      else length_or_later c consumed pos
  | Precision prec =>
      if is_digit c then
        if (INT_MAX - digit_value c) / 10 <? prec
        then Stop (ValueError "precision too big")
        else Go (Precision (prec * 10 + digit_value c)) consumed
      else length_or_later c consumed pos
  | Conversion => convert c consumed pos
  end.

Fixpoint format_scan (fmt : string) (st : format_state) (consumed : bool)
    (pos : Z) : result unit :=
  match fmt with
  | EmptyString =>
      match st with
      | Literal => Ok tt
      | Key _ => Raise (ValueError "incomplete format key")
      | _ => Raise (ValueError "incomplete format")
      end
  | String c rest =>
      match format_char st consumed pos c with
      | Go st' consumed' => format_scan rest st' consumed' (pos + 1)
      | Stop e => Raise e
      end
  end.

Definition format_with_series (fmt : string) : result unit :=
  format_scan fmt Literal false 0.

(** ** Time *)

Definition us_per_second : Z := 1000000.
Definition us_per_minute : Z := 60 * us_per_second.
Definition us_per_hour : Z := 60 * us_per_minute.
Definition us_per_day : Z := 24 * us_per_hour.
Definition ns_per_us : Z := 1000.
Definition ns_per_hour : Z := ns_per_us * us_per_hour.
Definition ns_per_day : Z := ns_per_us * us_per_day.

(** [date(1970, 1, 1).toordinal()] *)
Definition epoch_ordinal : Z := 719163.

(** What [pytz.timezone(name)] returns: the zone's rules.
    [offset_at u] is the offset in force at the UTC instant [u] ([fromutc]);
    [localize_offset w] is the offset pandas attaches to the naive wall
    time [w] with [tz.localize], which raises where the wall time is
    ambiguous or does not exist.  Instants and offsets are microseconds. *)
Record timezone : Type := {
  tz_zone : string;
  offset_at : Z -> Z;
  localize_offset : Z -> result Z
}.

(** An instance of a pytz [tzinfo]: a zone at one fixed UTC offset
    (microseconds). *)
Record tzinfo : Type := {
  tz_rules : timezone;
  utcoffset : Z
}.

(** [datetime.datetime]; the date is kept as its proleptic Gregorian
    ordinal ([toordinal()]). *)
Record datetime : Type := {
  ordinal : Z;
  hour : Z;
  minute : Z;
  second : Z;
  microsecond : Z;
  dt_tzinfo : option tzinfo
}.

(** [pd.Timestamp]. *)
Record Timestamp : Type := {
  value : Z;
  ts_tzinfo : option tzinfo
}.

(** [pd.Timedelta] and [datetime.timedelta], in nanoseconds resp.
    microseconds. *)
Definition Timedelta : Type := Z.
Definition timedelta : Type := Z.

Definition days (n : Z) : timedelta := n * us_per_day.
Definition Timedelta_hours (n : Z) : Timedelta := n * ns_per_hour.

(** ** pandas containers *)

(** A value of a float column: [None] is NaN. *)
Definition cell : Type := option float64.

Definition spec_of_cell (c : cell) : spec_float :=
  match c with
  | None => S754_nan
  | Some (F_zero s) => S754_zero s
  | Some (F_infinity s) => S754_infinity s
  | Some (F_finite s m e) => S754_finite s m e
  end.

Definition cell_of_spec (x : spec_float) : cell :=
  match x with
  | S754_nan => None
  | S754_zero s => Some (F_zero s)
  | S754_infinity s => Some (F_infinity s)
  | S754_finite s m e => Some (F_finite s m e)
  end.

(** [x + y], [x - y] and [x / y] in binary64. *)
Definition float_add (x y : cell) : cell :=
  cell_of_spec (SFadd 53 1024 (spec_of_cell x) (spec_of_cell y)).
Definition float_sub (x y : cell) : cell :=
  cell_of_spec (SFsub 53 1024 (spec_of_cell x) (spec_of_cell y)).
Definition float_div (x y : cell) : cell :=
  cell_of_spec (SFdiv 53 1024 (spec_of_cell x) (spec_of_cell y)).

(** [float(n)] for an integer, and the binary64 number a decimal literal
    such as [0.1] denotes: the one nearest to the fraction. *)
Definition float_of_Z (n : Z) : cell :=
  cell_of_spec (binary_normalize 53 1024 n 0 false).
Definition float_of_Q (q : Q) : cell :=
  float_div (float_of_Z (Qnum q)) (float_of_Z (Zpos (Qden q))).

(** [pd.Series] over a [DatetimeIndex]: labels (UTC nanoseconds) with
    their values, in index order. *)
Definition Series : Type := list (Z * cell).

(** [pd.DataFrame]: row labels and named columns. *)
Record DataFrame : Type := {
  df_index : list Z;
  df_columns : list (string * list cell)
}.

(** [Union[pd.DataFrame, pd.Series]] *)
Inductive Data : Type :=
| OfSeries (s : Series)
| OfDataFrame (df : DataFrame).

(** [len(data)]: the number of rows. *)
Definition len (data : Data) : Z :=
  match data with
  | OfSeries s => Z.of_nat (List.length s)
  | OfDataFrame df => Z.of_nat (List.length (df_index df))
  end.

(** [data.empty]: some axis has length 0. *)
Definition empty (data : Data) : bool :=
  match data with
  | OfSeries s => (Z.of_nat (List.length s) =? 0)
  | OfDataFrame df =>
      (Z.of_nat (List.length (df_index df)) =? 0)
      || (Z.of_nat (List.length (df_columns df)) =? 0)
  end.

(** ** Completeness checks *)

Definition tz_aware (t : Timestamp) : bool :=
  match ts_tzinfo t with Some _ => true | None => false end.

(** [a - b] on Timestamps: refused between a naive and an aware one. *)
Definition Timestamp_sub (a b : Timestamp) : result Timedelta :=
  if Bool.eqb (tz_aware a) (tz_aware b)
  then Ok (value a - value b)
  else Raise (TypeError
         "Cannot subtract tz-naive and tz-aware datetime-like objects.").

(** [int(a / b)] on Timedeltas: [a / b] is the binary64 quotient of the
    two nanosecond counts, each converted to binary64 first. *)
Definition int_of_quotient (a b : Timedelta) : result Z :=
  if b =? 0 then Raise ZeroDivisionError
  else
    let x := float_of_int64 a in
    let y := float_of_int64 b in
    Ok (Z.sgn x * Z.sgn y
        * int_of_binary64 (round_binary64 (Z.abs x) (Z.abs y))).

(** The same quotient through the Standard Library's [SFdiv]. *)
Definition int_of_quotient_SpecFloat (a b : Timedelta) : result Z :=
  if b =? 0 then Raise ZeroDivisionError
  else
    match SFdiv 53 1024 (binary_normalize 53 1024 a 0 false)
                        (binary_normalize 53 1024 b 0 false) with
    | S754_zero _ => Ok 0
    | S754_finite s m e =>
        Ok (cond_Zopp s (if 0 <=? e then Zpos m * 2 ^ e
                         else Zpos m / 2 ^ (- e)))
    | S754_infinity _ => Raise (Unmodelled "int of an infinity")
    | S754_nan => Raise (Unmodelled "int of NaN")
    end.

Definition empty_message : string :=
  "Result is empty. Probably ENTSO-E does not provide these forecasts yet ...".

Definition incomplete_message (expected_periods observed : Z) : string :=
  ("Result is incomplete. Expected " ++ str expected_periods
   ++ " periods but got " ++ str observed
   ++ ". Probably ENTSO-E does not provide these forecasts yet ...")%string.

Definition abort_if_data_empty (data : Data) : cmd unit :=
  if empty data
  then echo empty_message >> raise ClickAbort
  else ret tt.

(** The number of periods line 166 computes. *)
Definition expected_periods (from_time until_time : Timestamp)
    (resolution : Timedelta) : result Z :=
  span <- Timestamp_sub until_time from_time ;;
  int_of_quotient span resolution.

Definition abort_if_data_incomplete (data : Data)
    (from_time until_time : Timestamp) (resolution : Timedelta) : cmd unit :=
  match expected_periods from_time until_time resolution with
  | Raise e => raise e
  | Ok expected =>
      if len data <? expected
      then echo (incomplete_message expected (len data)) >> raise ClickAbort
      else ret tt
  end.

(** [end > start] on Timestamps; Python refuses to compare a naive with an
    aware one, so the order implies equal awareness. *)
Definition Timestamp_lt (a b : Timestamp) : Prop :=
  tz_aware a = tz_aware b /\ value a < value b.

(** ** Python datetimes *)

(** Microseconds on the wall clock of [d] since 1970-01-01 00:00. *)
Definition wall_us (d : datetime) : Z :=
  (ordinal d - epoch_ordinal) * us_per_day + hour d * us_per_hour
  + minute d * us_per_minute + second d * us_per_second + microsecond d.

(** The datetime whose wall clock reads [w] ([divmod] on days, hours,
    minutes, seconds). *)
Definition datetime_of_wall (w : Z) (tzi : option tzinfo) : datetime :=
  {| ordinal := epoch_ordinal + w / us_per_day;
     hour := (w mod us_per_day) / us_per_hour;
     minute := (w mod us_per_hour) / us_per_minute;
     second := (w mod us_per_minute) / us_per_second;
     microsecond := w mod us_per_second;
     dt_tzinfo := tzi |}.

(** [tz.fromutc]: the tzinfo instance in force at the UTC instant [u]. *)
Definition fromutc (tz : timezone) (u : Z) : tzinfo :=
  {| tz_rules := tz; utcoffset := offset_at tz u |}.

(** [datetime.now(tz)] when the system clock reads the UTC instant
    [clock]. *)
Definition datetime_now (tz : timezone) (clock : Z) : datetime :=
  datetime_of_wall (clock + offset_at tz clock) (Some (fromutc tz clock)).

(** [d.replace(hour=0, minute=0, second=0, microsecond=0)]: the fields are
    overwritten, the tzinfo is kept. *)
Definition replace_midnight (d : datetime) : datetime :=
  {| ordinal := ordinal d;
     hour := 0; minute := 0; second := 0; microsecond := 0;
     dt_tzinfo := dt_tzinfo d |}.

(** [d + delta]: arithmetic on the wall clock, the tzinfo is kept. *)
Definition datetime_add (d : datetime) (delta : timedelta) : datetime :=
  datetime_of_wall (wall_us d + delta) (dt_tzinfo d).

(** ** pandas Timestamps *)

(** [pd.Timestamp(d)]: the instant is the wall clock of [d] minus the
    offset of its own tzinfo. *)
Definition Timestamp_of_datetime (d : datetime) : Timestamp :=
  {| value := ns_per_us * (wall_us d
                - match dt_tzinfo d with Some i => utcoffset i | None => 0 end);
     ts_tzinfo := dt_tzinfo d |}.

(** [pd.Timestamp(d, tzinfo=tz)]: a naive [d] is localized in [tz]; an
    aware one is refused. *)
Definition Timestamp_in_zone (d : datetime) (tz : timezone) : result Timestamp :=
  match dt_tzinfo d with
  | Some _ =>
      Raise (ValueError
        "Cannot pass a datetime or Timestamp with tzinfo with the tz parameter. Use tz_convert instead.")
  | None =>
      off <- localize_offset tz (wall_us d) ;;
      Ok {| value := ns_per_us * (wall_us d - off);
            ts_tzinfo := Some {| tz_rules := tz; utcoffset := off |} |}
  end.

(** [t + delta] for a Timedelta: on the instant; the tzinfo is the one in
    force at the new instant. *)
Definition Timestamp_add (t : Timestamp) (delta : Timedelta) : Timestamp :=
  let v := value t + delta in
  {| value := v;
     ts_tzinfo := option_map (fun i => fromutc (tz_rules i) (v / ns_per_us))
                             (ts_tzinfo t) |}.

(** ** Date ranges *)

(** What the function reads besides its arguments: the timezone database
    behind [pytz.timezone] and the system clock (UTC microseconds). *)
Record Env : Type := {
  tzdb : string -> option timezone;
  clock : Z
}.

Definition pytz_timezone (env : Env) (name : string) : result timezone :=
  match tzdb env name with
  | Some tz => Ok tz
  | None => Raise (UnknownTimeZoneError name)
  end.

Definition invalid_default_to_message (default_to : string) : string :=
  ("Invalid default_to value: " ++ default_to
   ++ ". Expected 'today', 'tomorrow' or 'today-and-tomorrow'.")%string.

(** Lines 190-202: the default start and end of a policy. *)
Definition default_range (today_start : datetime) (default_to : string)
    : result (datetime * datetime) :=
  if (default_to =? "today")%string then
    Ok (today_start, datetime_add today_start (days 1))
  else if (default_to =? "tomorrow")%string then
    let default_start := datetime_add today_start (days 1) in
    Ok (default_start, datetime_add default_start (days 1))
  else if (default_to =? "today-and-tomorrow")%string then
    let default_start := today_start in
    Ok (default_start, datetime_add default_start (days 2))
  else Raise (ValueError (invalid_default_to_message default_to)).

Definition parse_from_and_to_dates (env : Env)
    (from_date until_date : option datetime)
    (country_timezone default_to : string) : result (Timestamp * Timestamp) :=
  tz <- pytz_timezone env country_timezone ;;
  let now := datetime_now tz (clock env) in
  let today_start := replace_midnight now in
  defaults <- default_range today_start default_to ;;
  let (default_start, default_end) := defaults in
  start_date <-
    match from_date with
    | None => Ok (Timestamp_of_datetime default_start)
    | Some d => tz' <- pytz_timezone env country_timezone ;;
                Timestamp_in_zone d tz'
    end ;;
  end_date <-
    match until_date with
    | None => Ok (Timestamp_of_datetime default_end)
    | Some d => tz' <- pytz_timezone env country_timezone ;;
                end_date <- Timestamp_in_zone d tz' ;;
                Ok (Timestamp_add end_date (Timedelta_hours 24))
    end ;;
  Ok (start_date, end_date).

(** The policies the function accepts. *)
Definition valid_policy (default_to : string) : Prop :=
  default_to = "today" \/ default_to = "tomorrow"
  \/ default_to = "today-and-tomorrow".

(** [t] is midnight on the clock of the zone [tz]: the wall clock the
    zone's own rules give at that instant reads 00:00:00. *)
Definition local_midnight (tz : timezone) (t : Timestamp) : Prop :=
  let u := value t / ns_per_us in
  value t mod ns_per_us = 0 /\ (u + offset_at tz u) mod us_per_day = 0.

(** The wall clock a Timestamp shows with the tzinfo attached to it. *)
Definition shown_wall_us (t : Timestamp) : Z :=
  value t / ns_per_us
  + match ts_tzinfo t with Some i => utcoffset i | None => 0 end.

(** *** Two zones of the timezone database

    [UTC], and [Europe/Amsterdam] with its rules for 2025: CET (+1 h)
    until 2025-03-30 01:00 UTC, CEST (+2 h) until 2025-10-26 01:00 UTC, CET
    afterwards. *)
Definition utc : timezone :=
  {| tz_zone := "UTC";
     offset_at := fun _ => 0;
     localize_offset := fun _ => Ok 0 |}.

(** Wall-clock or UTC microseconds of [hh]:00 on the day [day_number] after
    the epoch. *)
Definition at_hour (day_number hh : Z) : Z :=
  day_number * us_per_day + hh * us_per_hour.

Definition europe_amsterdam : timezone :=
  {| tz_zone := "Europe/Amsterdam";
     offset_at := fun u =>
       if u <? at_hour 20177 1 then 1 * us_per_hour
       else if u <? at_hour 20387 1 then 2 * us_per_hour
       else 1 * us_per_hour;
     localize_offset := fun w =>
       if w <? at_hour 20177 2 then Ok (1 * us_per_hour)
       else if w <? at_hour 20177 3 then Raise NonExistentTimeError
       else if w <? at_hour 20387 2 then Ok (2 * us_per_hour)
       else if w <? at_hour 20387 3 then Raise AmbiguousTimeError
       else Ok (1 * us_per_hour) |}.

Definition tzdb_excerpt (name : string) : option timezone :=
  if (name =? "UTC")%string then Some utc
  else if (name =? "Europe/Amsterdam")%string then Some europe_amsterdam
  else None.

(** A naive [datetime(y, m, d)] given by the number of days from
    1970-01-01 to that date. *)
Definition naive_date (day_number : Z) : datetime :=
  {| ordinal := epoch_ordinal + day_number;
     hour := 0; minute := 0; second := 0; microsecond := 0;
     dt_tzinfo := None |}.

(** *** Sample inputs *)

(** A frame of [n] rows and one column, as in the tests. *)
Definition frame_of_rows (n : nat) : Data :=
  OfDataFrame {| df_index := map Z.of_nat (List.seq 0 n);
                 df_columns := [("val", map (fun k => float_of_Z (Z.of_nat k))
                                                (List.seq 0 n))] |}.

Definition naive_timestamp (ns : Z) : Timestamp :=
  {| value := ns; ts_tzinfo := None |}.

(** The clock at 2025-05-01 12:00 UTC, and at 2025-03-30 10:00 UTC (noon in
    Amsterdam on the day summer time begins). *)
Definition env_2025_05_01 : Env :=
  {| tzdb := tzdb_excerpt; clock := at_hour 20209 12 |}.
Definition env_2025_03_30 : Env :=
  {| tzdb := tzdb_excerpt; clock := at_hour 20177 10 |}.

(** [needle] occurs in [hay]. *)
Definition contains (needle hay : string) : Prop :=
  exists pre post, hay = (pre ++ needle ++ post)%string.

(** How many days after today a policy starts, and how many days it
    spans. *)
Definition policy_days (default_to : string) : Z * Z :=
  if (default_to =? "today")%string then (0, 1)
  else if (default_to =? "tomorrow")%string then (1, 1)
  else (0, 2).

(** A naive datetime [d] localized to the zone [tz] at the offset [off] the
    zone gives to its wall clock. *)
Definition localized (tz : timezone) (d : datetime) (off : Z) : Timestamp :=
  {| value := ns_per_us * (wall_us d - off);
     ts_tzinfo := Some {| tz_rules := tz; utcoffset := off |} |}.

(** ** pandas: frequency inference *)

(** A frequency as [to_offset] returns it: a fixed duration ([Tick], in
    nanoseconds) or a calendar rule such as a week, a month or business
    hours, known by its alias. *)
Inductive DateOffset : Type :=
| Tick (nanos : Z)
| NonTick (rule : string).

Definition index (s : Series) : list Z := map fst s.

(** [np.diff] *)
Fixpoint diffs (l : list Z) : list Z :=
  match l with
  | a :: (b :: _) as t => (b - a) :: diffs t
  | _ => []
  end.

Fixpoint insert_unique (x : Z) (l : list Z) : list Z :=
  match l with
  | [] => [x]
  | y :: t => if x <? y then x :: l
              else if x =? y then l
              else y :: insert_unique x t
  end.

(** [unique_deltas]: the distinct first differences, ascending. *)
Definition unique_deltas (l : list Z) : list Z :=
  fold_right insert_unique [] (diffs l).

Fixpoint is_monotonic_increasing (l : list Z) : bool :=
  match l with
  | a :: (b :: _) as t => (a <=? b) && is_monotonic_increasing t
  | _ => true
  end.

Fixpoint is_monotonic_decreasing (l : list Z) : bool :=
  match l with
  | a :: (b :: _) as t => (b <=? a) && is_monotonic_decreasing t
  | _ => true
  end.

Fixpoint is_unique (l : list Z) : bool :=
  match l with
  | [] => true
  | a :: t => negb (existsb (Z.eqb a) t) && is_unique t
  end.

Fixpoint list_eqb (l m : list Z) : bool :=
  match l, m with
  | [], [] => true
  | a :: l', b :: m' => (a =? b) && list_eqb l' m'
  | _, _ => false
  end.

(** [hour_deltas in ([1, 17], [1, 65], [1, 17, 65])] *)
Definition business_hours (deltas : list Z) : bool :=
  list_eqb deltas [ns_per_hour; 17 * ns_per_hour]
  || list_eqb deltas [ns_per_hour; 65 * ns_per_hour]
  || list_eqb deltas [ns_per_hour; 17 * ns_per_hour; 65 * ns_per_hour].

(** [_get_daily_rule]: whole weeks are a weekly rule, other whole days a
    fixed number of days. *)
Definition _get_daily_rule (delta : Z) : DateOffset :=
  let days := delta / ns_per_day in
  if days mod 7 =? 0 then NonTick "W" else Tick (days * ns_per_day).

Section Resampling.

(** The calendar rules of [_infer_daily_rule] read the year, month and
    weekday of every label; they are taken as given: [calendar_rule] for
    the annual, quarterly and monthly rules, [business_rule] for business
    days and weeks of the month.  Each returns the alias of the rule it
    finds. *)
Variable calendar_rule : list Z -> option string.
Variable business_rule : list Z -> option string.

(** The UTC offset of the index's zone, in nanoseconds (0 for a naive
    index).  It is taken as constant over the span of a series. *)
Variable index_utcoffset : Z.

Definition _infer_daily_rule (idx deltas : list Z) : option DateOffset :=
  match calendar_rule idx with
  | Some rule => Some (NonTick rule)
  | None =>
      match deltas with
      | [delta] => Some (_get_daily_rule delta)
      | _ => option_map NonTick (business_rule idx)
      end
  end.

(** [pd.infer_freq(index)], followed by [to_offset]. *)
Definition infer_freq (idx : list Z) : result (option DateOffset) :=
  if (List.length idx <? 3)%nat then
    Raise (ValueError "Need at least 3 dates to infer frequency")
  else if negb ((is_monotonic_increasing idx || is_monotonic_decreasing idx)
                && is_unique idx) then Ok None
  else
    let deltas := unique_deltas idx in
    let delta := hd 0 deltas in
    if negb (delta =? 0) && (delta mod ns_per_day =? 0) then
      Ok (_infer_daily_rule idx deltas)
    else if business_hours deltas then Ok (Some (NonTick "bh"))
    else match deltas with
         | [d] => Ok (Some (Tick d))
         | _ => Ok None
         end.

(** [pd.to_timedelta(offset)]: only a fixed duration converts. *)
Definition to_timedelta (o : DateOffset) : result Timedelta :=
  match o with
  | Tick n => Ok n
  | NonTick _ =>
      Raise (ValueError
        "Value must be Timedelta, string, integer, float, timedelta or convertible")
  end.

(** ** pandas: ranges, reindexing, padding *)

(** [np.arange(start, stop, step)] for a step other than 0. *)
Definition arange (start stop step : Z) : list Z :=
  map (fun k => start + Z.of_nat k * step)
      (List.seq 0 (Z.to_nat (- ((- (stop - start)) / step)))).

(** [generate_regular_range]: the multiples of [stride] from [start] up
    to [end_]. *)
Definition generate_regular_range (start end_ stride : Z) : list Z :=
  arange start (start + (end_ - start) / stride * stride + stride / 2 + 1)
         stride.

Inductive Inclusive : Type := Both | Left.

Definition ends_with (x : Z) (l : list Z) : bool :=
  match rev l with
  | y :: _ => y =? x
  | [] => false
  end.

(** [pd.date_range(start, end, freq=freq, inclusive=...)] for a fixed,
    positive [freq]. *)
Definition date_range (start end_ : Z) (freq : Timedelta)
    (inclusive : Inclusive) : result (list Z) :=
  if freq <=? 0 then Raise (Unmodelled "date_range with freq <= 0")
  else
    let values := generate_regular_range start end_ freq in
    match inclusive with
    | Both => Ok values
    | Left => if start =? end_ then Ok values
              else if ends_with end_ values then Ok (removelast values)
              else Ok values
    end.

(** [s[t]] where the label is present, NaN where it is not. *)
Fixpoint get (t : Z) (s : Series) : cell :=
  match s with
  | [] => None
  | (t', v) :: r => if t =? t' then v else get t r
  end.

(** [s.reindex(idx)] *)
Definition reindex (s : Series) (idx : list Z) : result Series :=
  if is_unique (index s) then Ok (map (fun t => (t, get t s)) idx)
  else Raise (ValueError "cannot reindex on an axis with duplicate labels").

Fixpoint pad_from (prev : cell) (s : Series) : Series :=
  match s with
  | [] => []
  | (t, Some v) :: r => (t, Some v) :: pad_from (Some v) r
  | (t, None) :: r => (t, prev) :: pad_from prev r
  end.

(** [s.pad()]: every NaN takes the last value before it that is not
    NaN. *)
Definition pad (s : Series) : Series := pad_from None s.

(** ** pandas: resampling to means *)

(** [Timestamp.normalize()]: midnight of the label's day on the wall
    clock of the index. *)
Definition normalize (t : Z) : Z :=
  let w := t + index_utcoffset in
  w - w mod ns_per_day - index_utcoffset.

(** [_adjust_dates_anchored] with [closed="left"], [origin="start_day"]:
    the first and last bin edge. *)
Definition _adjust_dates_anchored (first last : Z) (freq : Timedelta)
    : Z * Z :=
  let origin_timestamp := normalize first in
  let foffset := (first - origin_timestamp) mod freq in
  let loffset := (last - origin_timestamp) mod freq in
  (if 0 <? foffset then first - foffset else first,
   if 0 <? loffset then last + (freq - loffset) else last + freq).

(** The inner loop of [generate_bins_dt64]: how far [j] advances over
    the labels below [r_bin]. *)
Fixpoint count_below (r_bin : Z) (values : list Z) : nat :=
  match values with
  | v :: t => if v <? r_bin then S (count_below r_bin t) else O
  | [] => O
  end.

Fixpoint scan_bins (values : list Z) (j : nat) (right_edges : list Z)
    : list nat :=
  match right_edges with
  | [] => []
  | r_bin :: rest =>
      let j' := (j + count_below r_bin (skipn j values))%nat in
      j' :: scan_bins values j' rest
  end.

(** [lib.generate_bins_dt64(values, binner, closed="left")]: for every
    bin the position one past its last label. *)
Definition generate_bins_dt64 (values binner : list Z) : result (list nat) :=
  match values, binner with
  | v0 :: _, b0 :: right_edges =>
      if v0 <? b0 then Raise (ValueError "Values falls before first bin")
      else if List.last binner b0 <? List.last values v0
      then Raise (ValueError "Values falls after last bin")
      else Ok (scan_bins values 0 right_edges)
  | _, _ => Raise (ValueError "Invalid length for values or for binner")
  end.

(** The rows of each bin: positions [bins[i-1]] up to [bins[i]]. *)
Fixpoint slices (bins : list nat) (lo : nat) (s : Series) : list Series :=
  match bins with
  | [] => []
  | hi :: rest => firstn (hi - lo) (skipn lo s) :: slices rest hi s
  end.

Definition known (cells : list cell) : list float64 :=
  flat_map (fun c => match c with Some v => [v] | None => [] end) cells.

(** One step of the compensated sum in [group_mean] of [groupby.pyx],
    on the running sum and its compensation; a compensation that has
    become NaN is set to 0. *)
Definition compensated_step (acc : cell * cell) (val : float64)
    : cell * cell :=
  let (sumx, compensation) := acc in
  let y := float_sub (Some val) compensation in
  let t := float_add sumx y in
  let compensation' := float_sub (float_sub t sumx) y in
  (t, match compensation' with
      | None => Some (F_zero false)
      | Some _ => compensation'
      end).

(** The mean of a group: the compensated sum of the values that are not
    NaN, divided by their number, and NaN where there is none. *)
Definition group_mean (cells : list cell) : cell :=
  match known cells with
  | [] => None
  | vs =>
      let (sumx, _) :=
        fold_left compensated_step vs
                  (Some (F_zero false), Some (F_zero false)) in
      float_div sumx (float_of_Z (Z.of_nat (List.length vs)))
  end.

Fixpoint insert_by_label (p : Z * cell) (s : Series) : Series :=
  match s with
  | [] => [p]
  | q :: r => if fst p <? fst q then p :: s else q :: insert_by_label p r
  end.

(** A stable sort on the labels. *)
Definition sort_by_label (s : Series) : Series :=
  fold_right insert_by_label [] s.

(** [s.resample(freq).mean()] for a fixed, positive [freq]. *)
Definition resample_mean (s : Series) (freq : Timedelta) : result Series :=
  if freq <=? 0 then Raise (Unmodelled "resample with freq <= 0")
  else
    let s := if is_monotonic_increasing (index s) then s
             else sort_by_label s in
    match index s with
    | [] => Ok []
    | first :: _ =>
        let last := List.last (index s) first in
        let (first_edge, last_edge) :=
          _adjust_dates_anchored first last freq in
        binner <- date_range first_edge last_edge freq Both ;;
        bins <- generate_bins_dt64 (index s) binner ;;
        let labels := firstn (List.length bins) binner in
        Ok (combine labels
              (map (fun g => group_mean (map snd g)) (slices bins 0 s)))
    end.

(** ** The function under study *)

(** A sensor, as far as the function reads it; the resolution is in
    nanoseconds. *)
Record Sensor : Type := {
  name : string;
  event_resolution : Timedelta
}.

Definition no_frequency_message : string :=
  "Data has no discernible frequency from which to derive an event resolution.".

(** The format string of line 241, after the f-string has put the name
    in. *)
Definition resampled_message (sensor : Sensor) : string :=
  ("Resampled data for " ++ name sensor ++ ": " ++ newline ++ "%s")%string.

Definition resample_if_needed (s : Series) (sensor : Sensor)
    : result Series :=
  inferred_frequency <- infer_freq (index s) ;;
  match inferred_frequency with
  | None => Raise (ValueError no_frequency_message)
  | Some offset =>
      inferred_resolution <- to_timedelta offset ;;
      let target_resolution := event_resolution sensor in
      if inferred_resolution =? target_resolution then Ok s
      else
        s' <- (if target_resolution <? inferred_resolution then
                 idx <- date_range (hd 0 (index s))
                          (List.last (index s) 0 + inferred_resolution)
                          target_resolution Left ;;
                 s' <- reindex s idx ;;
                 Ok (pad s')
               else resample_mean s target_resolution) ;;
        _ <- format_with_series (resampled_message sensor) ;;
        Ok s'
  end.

End Resampling.

(** *** What the claims speak of *)

(** The samples of [s] at or before [t]. *)
Definition at_or_before (t : Z) (s : Series) : Series :=
  filter (fun p => fst p <=? t) s.

(** The last of [cells] that is not NaN; [prev] where there is none. *)
Definition last_known (prev : cell) (cells : list cell) : cell :=
  fold_left (fun acc c => match c with Some v => Some v | None => acc end)
            cells prev.

(** One step of [last_known]. *)
Definition keep (prev c : cell) : cell :=
  match c with Some v => Some v | None => prev end.

(** The label of [p] is one of [G]. *)
Definition memb (G : list Z) (p : Z * cell) : bool :=
  existsb (Z.eqb (fst p)) G.

(** The most recent known value of [s] at or before [t]. *)
Definition most_recent (s : Series) (t : Z) : cell :=
  last_known None (map snd (at_or_before t s)).

(** The samples of [s] in the window that starts at [t] and lasts
    [width]. *)
Definition in_window (t width : Z) (s : Series) : Series :=
  filter (fun p => (t <=? fst p) && (fst p <? t + width)) s.

(** Labels [start], [start + step], ... ([n] of them). *)
Definition grid (start step : Z) (n : nat) : list Z :=
  map (fun k => start + Z.of_nat k * step) (List.seq 0 n).

(** An hourly, a 15-minute and an irregular series of the day 2025-01-01,
    and the sensors they are adapted to. *)
Definition hourly (values : list Q) : Series :=
  combine (grid (20089 * ns_per_day) ns_per_hour (List.length values))
          (map float_of_Q values).

Definition quarter_hourly (values : list Q) : Series :=
  combine (grid (20089 * ns_per_day) (ns_per_hour / 4) (List.length values))
          (map float_of_Q values).

(** The name holds no [%]. *)
Definition percent_free (s : string) : bool :=
  negb (existsb (Ascii.eqb "%") (list_ascii_of_string s)).

Definition sensor_with (resolution : Timedelta) : Sensor :=
  {| name := "Day-ahead prices"; event_resolution := resolution |}.

Definition no_rule (idx : list Z) : option string := None.


(** ** Further notions for the checks and the date ranges *)

(** The data has a column to speak of: a Series, or a frame with at least
    one column. *)
Definition has_columns (data : Data) : Prop :=
  match data with
  | OfSeries _ => True
  | OfDataFrame df => df_columns df <> []
  end.

(** A zone without transitions: one offset at every instant and for every
    wall time. *)
Definition fixed_offset (tz : timezone) (c : Z) : Prop :=
  (forall u, offset_at tz u = c) /\ (forall w, localize_offset tz w = Ok c).

(** The naive date of today on the clock of the zone: [now] with its time
    of day and its tzinfo dropped. *)
Definition today_date (tz : timezone) (clock : Z) : datetime :=
  {| ordinal := ordinal (datetime_now tz clock);
     hour := 0; minute := 0; second := 0; microsecond := 0;
     dt_tzinfo := None |}.

(** ** Saving a series: belief times *)

(** [timely_beliefs.BeliefsDataFrame(series, source=..., sensor=...,
    belief_time=...)], as far as the constructor is given: the events,
    who states them, for which sensor, and when each became known. *)
Record BeliefsDataFrame (Source : Type) : Type := {
  bdf_series : Series;
  bdf_source : Source;
  bdf_sensor : Sensor;
  bdf_belief_time : list Z
}.
Arguments bdf_series {Source} _.
Arguments bdf_source {Source} _.
Arguments bdf_sensor {Source} _.
Arguments bdf_belief_time {Source} _.

(** [f] on every element in turn, up to the first that raises. *)
Fixpoint traverse {A B} (f : A -> result B) (l : list A) : result (list B) :=
  match l with
  | [] => Ok []
  | a :: rest => b <- f a ;; bs <- traverse f rest ;; Ok (b :: bs)
  end.

(** [index.floor("D")] on one label of an index in the zone [tz]: the
    label is read on the wall clock of the zone, floored to the day there,
    and localized again, which raises where that midnight is ambiguous or
    does not exist.  Labels are UTC nanoseconds; the zone counts
    microseconds. *)
Definition floor_day (tz : timezone) (t : Z) : result Z :=
  let local := t + ns_per_us * offset_at tz (t / ns_per_us) in
  let floored := local - local mod ns_per_day in
  off <- localize_offset tz (floored / ns_per_us) ;;
  Ok (floored - ns_per_us * off).

(** Lines 257-263: every label floored to its day, less six hours, and no
    later than [now] ([clip(upper=now)]). *)
Definition belief_times (index_tz : timezone) (idx : list Z) (now : Z)
    : result (list Z) :=
  floored <- traverse (floor_day index_tz) idx ;;
  Ok (map (fun t => Z.min (t - Timedelta_hours 6) now) floored).

(** [save_entsoe_series]: the frame it hands to [save_to_db].  Without
    [now] the server clock is read and the zone is looked up.  The index
    of the series is timezone-aware, in the zone [index_tz]. *)
Definition save_entsoe_series {Source : Type} (env : Env)
    (index_tz : timezone) (series : Series) (sensor : Sensor)
    (entsoe_source : Source) (country_timezone : string) (now : option Z)
    : result (BeliefsDataFrame Source) :=
  now <- match now with
         | Some t => Ok t
         | None => tz <- pytz_timezone env country_timezone ;;
                   Ok (ns_per_us * clock env)
         end ;;
  belief_time <- belief_times index_tz (index series) now ;;
  Ok {| bdf_series := series;
        bdf_source := entsoe_source;
        bdf_sensor := sensor;
        bdf_belief_time := belief_time |}.

(** ** Configuration and the API client *)

(** The values a Flask configuration holds here. *)
Inductive PyVal : Type :=
| PyNone
| PyBool (b : bool)
| PyInt (n : Z)
| PyStr (s : string).

(** Python's truth value. *)
Definition truthy (v : PyVal) : bool :=
  match v with
  | PyNone => false
  | PyBool b => b
  | PyInt n => negb (n =? 0)
  | PyStr s => negb (s =? "")%string
  end.

(** [current_app.config] *)
Definition Config : Type := string -> option PyVal.

(** [config.get(key, default)] *)
Definition config_get (config : Config) (key : string) (default : PyVal)
    : PyVal :=
  match config key with
  | Some v => v
  | None => default
  end.

Definition test_server_URL : string := "https://iop-transparency.entsoe.eu/api".
Definition production_URL : string := "https://web-api.tp.entsoe.eu/api".

(** The call writes the module variable [entsoe.entsoe.URL] and never reads
    it: the first component is the value it leaves there. *)
Definition get_auth_token_from_config_and_set_server_url (config : Config)
    : string * cmd PyVal :=
  let use_test_server :=
    config_get config "ENTSOE_USE_TEST_SERVER" (PyBool false) in
  let (auth_token, URL) :=
    if truthy use_test_server
    then (config_get config "ENTSOE_AUTH_TOKEN_TEST_SERVER" PyNone,
          test_server_URL)
    else (config_get config "ENTSOE_AUTH_TOKEN" PyNone, production_URL) in
  (URL,
   if negb (truthy auth_token)
   then echo "Setting ENTSOE_AUTH_TOKEN seems empty!" >> raise ClickAbort
   else ret auth_token).

(** [entsoe.EntsoePandasClient(api_key=...)] *)
Record EntsoePandasClient : Type := { api_key : PyVal }.

Definition create_entsoe_client (config : Config)
    : string * cmd EntsoePandasClient :=
  let (URL, got) := get_auth_token_from_config_and_set_server_url config in
  (URL, Py.seq got (fun auth_token => ret {| api_key := auth_token |})).

(** A configuration for the test server that holds a token for the
    production server only. *)
Definition config_without_test_token : Config :=
  fun key =>
    if (key =? "ENTSOE_USE_TEST_SERVER")%string then Some (PyBool true)
    else if (key =? "ENTSOE_AUTH_TOKEN")%string then Some (PyStr "secret")
    else None.

Definition config_production : Config :=
  fun key =>
    if (key =? "ENTSOE_AUTH_TOKEN")%string then Some (PyStr "secret")
    else None.

(** ** Assets and sensors in the database

    The tables the functions query and extend, as lists of rows in
    insertion order.  [visible] is what a query of the session sees,
    rows added to the session and not yet committed included; [committed]
    is what the last [commit] made durable.  Constraints the schema may add
    (such as unique names) are not modelled: adding a row always
    succeeds. *)

Record AssetType : Type := {
  type_id : Z;
  type_name : string;
  type_description : string
}.

Record Asset : Type := {
  asset_id : Z;
  asset_name : string;
  generic_asset_type_id : Z;
  account_id : option Z
}.

(** A row of [Sensor]; the resolution is a [timedelta]. *)
Record SensorRow : Type := {
  sensor_id : Z;
  sensor_name : string;
  unit : string;
  generic_asset_id : Z;
  sensor_timezone : string;
  sensor_event_resolution : timedelta
}.

Record Tables : Type := {
  asset_types : list AssetType;
  assets : list Asset;
  sensors : list SensorRow
}.

Record Session : Type := {
  visible : Tables;
  committed : Tables;
  next_id : Z
}.

(** How a call on the session ends: with a value, or with SQLAlchemy's
    [MultipleResultsFound]; either way the session is left in a state. *)
Inductive outcome (A : Type) : Type :=
| Done (a : A) (after : Session)
| MultipleResultsFound (after : Session).
Arguments Done {A} a after.
Arguments MultipleResultsFound {A} after.

(** What [query.one_or_none()] finds. *)
Inductive found (A : Type) : Type :=
| NoRow
| OneRow (row : A)
| ManyRows.
Arguments NoRow {A}.
Arguments OneRow {A} row.
Arguments ManyRows {A}.

Definition one_or_none {A : Type} (rows : list A) : found A :=
  match rows with
  | [] => NoRow
  | [row] => OneRow row
  | _ => ManyRows
  end.

(** [db.session.add(row)] for each table; the row takes the next id. *)
Definition add_asset_type (t : AssetType) (st : Session) : Session :=
  {| visible := {| asset_types := asset_types (visible st) ++ [t];
                   assets := assets (visible st);
                   sensors := sensors (visible st) |};
     committed := committed st;
     next_id := next_id st + 1 |}.

Definition add_asset (a : Asset) (st : Session) : Session :=
  {| visible := {| asset_types := asset_types (visible st);
                   assets := assets (visible st) ++ [a];
                   sensors := sensors (visible st) |};
     committed := committed st;
     next_id := next_id st + 1 |}.

Definition add_sensor (r : SensorRow) (st : Session) : Session :=
  {| visible := {| asset_types := asset_types (visible st);
                   assets := assets (visible st);
                   sensors := sensors (visible st) ++ [r] |};
     committed := committed st;
     next_id := next_id st + 1 |}.

(** [db.session.commit()] *)
Definition commit (st : Session) : Session :=
  {| visible := visible st; committed := visible st; next_id := next_id st |}.

(** [db.session.flush()]: the rows of the session are sent to the
    database inside the open transaction; what queries see and what is
    committed stay as they are. *)
Definition flush (st : Session) : Session := st.

Definition is_transmission_zone_type (t : AssetType) : bool :=
  (type_name t =? "transmission zone")%string.

Definition has_asset_name (ga_name : string) (a : Asset) : bool :=
  (asset_name a =? ga_name)%string.

Definition zone_name (country_code : string) : string :=
  (country_code ++ " transmission zone")%string.

Definition ensure_transmission_zone_asset (country_code : string)
    (st : Session) : outcome Asset :=
  match one_or_none (filter is_transmission_zone_type
                            (asset_types (visible st))) with
  | ManyRows => MultipleResultsFound st
  | found_type =>
      let (transmission_zone_type, st) :=
        match found_type with
        | OneRow t => (t, st)
        | _ =>
            let t := {| type_id := next_id st;
                        type_name := "transmission zone";
                        type_description :=
                          "A grid regulated & balanced as a whole, usually a national grid." |} in
            (t, add_asset_type t st)
        end in
      let ga_name := zone_name country_code in
      match one_or_none (filter (has_asset_name ga_name)
                                (assets (visible st))) with
      | ManyRows => MultipleResultsFound st
      | OneRow transmission_zone => Done transmission_zone (commit st)
      | NoRow =>
          let transmission_zone :=
            {| asset_id := next_id st;
               asset_name := ga_name;
               generic_asset_type_id := type_id transmission_zone_type;
               account_id := None |} in
          Done transmission_zone (commit (add_asset transmission_zone st))
      end
  end.

(** A sensor specification: name, unit, event resolution, and whether the
    data comes from ENTSO-E directly. *)
Definition SensorSpec : Type := (string * string * timedelta * bool)%type.

(** [flexmeasures_entsoe/prices/__init__.py] *)
Definition pricing_sensors : list SensorSpec :=
  [("Day-ahead prices", "EUR/MWh", 15 * us_per_minute, true)].

(** The dict the call returns: names with the sensor found or made for
    them and its [data_by_entsoe] attribute, in insertion order. *)
Definition SensorDict : Type := list (string * (SensorRow * bool)).

(** [d[key] = v] *)
Fixpoint dict_set (key : string) (v : SensorRow * bool) (d : SensorDict)
    : SensorDict :=
  match d with
  | [] => [(key, v)]
  | (k, w) :: rest => if (k =? key)%string then (k, v) :: rest
                      else (k, w) :: dict_set key v rest
  end.

(** [d.get(key)] *)
Fixpoint dict_get (key : string) (d : SensorDict) : option (SensorRow * bool) :=
  match d with
  | [] => None
  | (k, w) :: rest => if (k =? key)%string then Some w else dict_get key rest
  end.

(** The filter of lines 85-89. *)
Definition matches (zone : Asset) (sensor_name' unit' : string)
    (row : SensorRow) : bool :=
  (sensor_name row =? sensor_name')%string
  && (unit row =? unit')%string
  && (generic_asset_id row =? asset_id zone).

(** The loop of lines 84-106. *)
Fixpoint ensure_sensors_loop (transmission_zone : Asset) (timezone : string)
    (sensor_specifications : list SensorSpec)
    (sensors_so_far : SensorDict) (sensors_created : bool) (st : Session)
    : outcome (SensorDict * bool) :=
  match sensor_specifications with
  | [] => Done (sensors_so_far, sensors_created) st
  | (sensor_name', unit', event_resolution', data_by_entsoe) :: rest =>
      match one_or_none (filter (matches transmission_zone sensor_name' unit')
                                (sensors (visible st))) with
      | ManyRows => MultipleResultsFound st
      | OneRow sensor =>
          ensure_sensors_loop transmission_zone timezone rest
            (dict_set sensor_name' (sensor, data_by_entsoe) sensors_so_far)
            sensors_created st
      | NoRow =>
          let sensor :=
            {| sensor_id := next_id st;
               sensor_name := sensor_name';
               unit := unit';
               generic_asset_id := asset_id transmission_zone;
               sensor_timezone := timezone;
               sensor_event_resolution := event_resolution' |} in
          ensure_sensors_loop transmission_zone timezone rest
            (dict_set sensor_name' (sensor, data_by_entsoe) sensors_so_far)
            true (add_sensor sensor st)
      end
  end.

Definition ensure_sensors (sensor_specifications : list SensorSpec)
    (country_code timezone : string) (st : Session) : outcome SensorDict :=
  match ensure_transmission_zone_asset country_code st with
  | MultipleResultsFound st => MultipleResultsFound st
  | Done transmission_zone st =>
      match ensure_sensors_loop transmission_zone timezone
              sensor_specifications [] false st with
      | MultipleResultsFound st => MultipleResultsFound st
      | Done (sensors_found, sensors_created) st =>
          Done sensors_found (if sensors_created then flush st else st)
      end
  end.

(** The sensor [resample_if_needed] reads from a row. *)
Definition sensor_of_row (row : SensorRow) : Sensor :=
  {| name := sensor_name row;
     event_resolution := ns_per_us * sensor_event_resolution row |}.

(** A session on an empty database. *)
Definition empty_tables : Tables :=
  {| asset_types := []; assets := []; sensors := [] |}.
Definition empty_session : Session :=
  {| visible := empty_tables; committed := empty_tables; next_id := 1 |}.

(** The name and unit a specification asks for. *)
Definition spec_key (spec : SensorSpec) : string * string :=
  let '(sensor_name', unit', _, _) := spec in (sensor_name', unit').

Definition spec_name (spec : SensorSpec) : string := fst (spec_key spec).

(** The row of [rows] a specification finds for the zone, with the
    specification's flag, for every specification in turn. *)
Definition found_sensors (zone : Asset) (rows : list SensorRow)
    (specs : list SensorSpec) (d : SensorDict) : SensorDict :=
  fold_left
    (fun d spec =>
       let '(sensor_name', unit', _, data_by_entsoe) := spec in
       match filter (matches zone sensor_name' unit') rows with
       | row :: _ => dict_set sensor_name' (row, data_by_entsoe) d
       | [] => d
       end)
    specs d.

(** Every entry of the dict is filed under the name of its sensor, which
    belongs to the zone and is a row of the session. *)
Definition well_keyed (zone : Asset) (d : SensorDict) (st : Session) : Prop :=
  forall k row flag,
    dict_get k d = Some (row, flag) ->
    sensor_name row = k
    /\ generic_asset_id row = asset_id zone
    /\ In row (sensors (visible st)).

(** The row was made for the zone from one of the specifications. *)
Definition made_from (zone : Asset) (timezone : string)
    (specs : list SensorSpec) (row : SensorRow) : Prop :=
  exists flag,
    In (sensor_name row, unit row, sensor_event_resolution row, flag) specs
    /\ generic_asset_id row = asset_id zone
    /\ sensor_timezone row = timezone.

(** * Properties *)

(** ** binary64 quotients *)

Lemma round_half_even_spec n d :
  0 < d ->
  let q := round_half_even n d in
  (2 * n - d < 2 * d * q < 2 * n + d)
  \/ (2 * d * q = 2 * n + d /\ Z.even q = true)
  \/ (2 * d * q = 2 * n - d /\ Z.even q = true).
Proof.
  intros Hd. unfold round_half_even.
  pose proof (Z.div_mod n d ltac:(lia)) as D.
  pose proof (Z.mod_pos_bound n d Hd) as B.
  set (q0 := n / d) in *. set (r := n mod d) in *. cbv zeta.
  destruct (Z.ltb_spec (2 * r) d) as [H1|H1]; [left; nia|].
  destruct (Z.ltb_spec d (2 * r)) as [H2|H2]; [left; nia|].
  destruct (Z.even q0) eqn:E.
  - right; right. split; [nia | exact E].
  - right; left. split; [nia|].
    rewrite Z.even_add, E. reflexivity.
Qed.

Lemma round_half_even_ge n d k :
  0 < d -> k * d <= n -> k <= round_half_even n d.
Proof.
  intros Hd Hk. destruct (round_half_even_spec n d Hd) as [H|[[H _]|[H _]]]; nia.
Qed.

Lemma round_half_even_le n d k :
  0 < d -> n <= k * d -> round_half_even n d <= k.
Proof.
  intros Hd Hk. destruct (round_half_even_spec n d Hd) as [H|[[H _]|[H _]]]; nia.
Qed.

Lemma round_half_even_lt n d k :
  0 < d -> 2 * n < (2 * k - 1) * d -> round_half_even n d < k.
Proof.
  intros Hd Hk. destruct (round_half_even_spec n d Hd) as [H|[[H _]|[H _]]]; nia.
Qed.

Lemma even_succ_false q : Z.even q = true -> Z.even (q + 1) = true -> False.
Proof.
  intros H1 H2. rewrite Z.even_add, H1 in H2. discriminate.
Qed.

Lemma round_half_even_mono n1 n2 d :
  0 < d -> n1 <= n2 -> round_half_even n1 d <= round_half_even n2 d.
Proof.
  intros Hd Hn.
  destruct (round_half_even_spec n1 d Hd) as [H1|[[H1 E1]|[H1 E1]]];
  destruct (round_half_even_spec n2 d Hd) as [H2|[[H2 E2]|[H2 E2]]];
    try nia.
  (* n1 tie rounded up, n2 tie rounded down *)
  destruct (Z.le_gt_cases (round_half_even n1 d) (round_half_even n2 d))
    as [|Hgt]; [assumption|].
  assert (round_half_even n1 d = round_half_even n2 d + 1) by nia.
  exfalso. apply (even_succ_false (round_half_even n2 d)); congruence.
Qed.

Lemma round_half_even_1 n : round_half_even n 1 = n.
Proof.
  assert (H : n <= round_half_even n 1 <= n).
  { split; [apply round_half_even_ge | apply round_half_even_le]; lia. }
  lia.
Qed.

Lemma pow2_pos e : 0 <= e -> 0 < 2 ^ e.
Proof. intros. apply Z.pow_pos_nonneg; lia. Qed.

Lemma pow2_ge_2 e : 0 < e -> 2 <= 2 ^ e.
Proof.
  intros. change 2 with (2 ^ 1) at 1. apply Z.pow_le_mono_r; lia.
Qed.

Lemma pow2_split e k : 0 <= k <= e -> 2 ^ e = 2 ^ k * 2 ^ (e - k).
Proof. intros. rewrite <- Z.pow_add_r by lia. f_equal. lia. Qed.

(** [binary_exponent n d] is not above the exponent of [n / d]. *)
Lemma binary_exponent_spec n d :
  0 < n -> 0 < d ->
  let ex := binary_exponent n d in
  (0 <= ex -> d * 2 ^ ex <= n) /\ (ex < 0 -> d <= n * 2 ^ (- ex)).
Proof.
  intros Hn Hd. unfold binary_exponent, scale2.
  pose proof (Z.log2_spec n Hn) as [Ln _].
  pose proof (Z.log2_spec d Hd) as [_ Ld].
  pose proof (Z.log2_nonneg n) as Nn.
  pose proof (Z.log2_nonneg d) as Nd.
  set (ln := Z.log2 n) in *. set (ld := Z.log2 d) in *.
  replace (Z.succ ld) with (ld + 1) in Ld by lia.
  destruct (Z.leb_spec 0 (- (ln - ld))) as [Hneg|Hpos].
  - (* ln <= ld *)
    destruct (Z.leb_spec d (n * 2 ^ (- (ln - ld)))) as [T|T]; cbv zeta.
    + split; intros H.
      * assert (E : ln - ld = 0) by lia. rewrite E in *.
        change (2 ^ (- 0)) with 1 in T. change (2 ^ 0) with 1. lia.
      * exact T.
    + split; intros H; [lia|].
      replace (- (ln - ld - 1)) with (ld + 1 - ln) by lia.
      rewrite (pow2_split (ld + 1) ln) in Ld by lia.
      pose proof (pow2_pos (ld + 1 - ln) ltac:(lia)). nia.
  - (* ld < ln *)
    replace (- - (ln - ld)) with (ln - ld) by lia.
    destruct (Z.leb_spec (d * 2 ^ (ln - ld)) n) as [T|T]; cbv zeta.
    + split; intros H; [exact T | lia].
    + split; intros H; [|lia].
      rewrite (pow2_split ln (ln - ld - 1)) in Ln by lia.
      replace (ln - (ln - ld - 1)) with (ld + 1) in Ln by lia.
      pose proof (pow2_pos (ln - ld - 1) ltac:(lia)). nia.
Qed.

(** The quotient of a positive integer below [2 ^ 53] by a positive
    integer, rounded to binary64 and truncated, is the floor of the exact
    quotient. *)
Lemma round_binary64_floor a b :
  0 < a < 2 ^ 53 -> 0 < b ->
  int_of_binary64 (round_binary64 a b) = a / b.
Proof.
  intros [Ha Hlt] Hb. unfold round_binary64.
  destruct (binary_exponent_spec a b Ha Hb) as [Sp Sn].
  set (ex := binary_exponent a b) in *.
  assert (Hex : ex <= 52).
  { destruct (Z.le_gt_cases ex 52) as [|Hbig]; [assumption|].
    assert (2 ^ 53 <= 2 ^ ex) by (apply Z.pow_le_mono_r; lia).
    specialize (Sp ltac:(lia)). nia. }
  unfold scale2. destruct (Z.leb_spec 0 (- (ex - 52))) as [_|]; [|lia].
  set (s := 2 ^ (- (ex - 52))).
  assert (Hs : 0 < s) by (apply pow2_pos; lia).
  assert (Hs2 : b < 2 * s).
  { replace (2 * s) with (2 ^ (53 - ex)).
    2:{ unfold s. replace (53 - ex) with (1 + - (ex - 52)) by lia.
        rewrite Z.pow_add_r by lia. reflexivity. }
    destruct (Z.le_gt_cases 0 ex) as [Hp|Hn].
    - specialize (Sp Hp). rewrite (pow2_split 53 ex) in Hlt by lia.
      pose proof (pow2_pos ex Hp). nia.
    - specialize (Sn Hn).
      replace (53 - ex) with (53 + - ex) by lia.
      rewrite Z.pow_add_r by lia.
      pose proof (pow2_pos (- ex) ltac:(lia)). nia. }
  pose proof (Z.div_mod a b ltac:(lia)) as D.
  pose proof (Z.mod_pos_bound a b Hb) as B.
  set (q := a / b) in *. set (r := a mod b) in *.
  assert (Hq : 0 <= q) by (apply Z.div_pos; lia).
  set (m := round_half_even (a * s) b).
  assert (Hlo : q * s <= m) by (apply round_half_even_ge; nia).
  assert (Hhi : m < (q + 1) * s) by (apply round_half_even_lt; nia).
  assert (E : m / s = q).
  { symmetry. apply (Z.div_unique m s q (m - s * q)); lia. }
  unfold int_of_binary64.
  destruct (Z.leb_spec 0 (ex - 52)) as [H0|_]; [|exact E].
  assert (Ez : ex - 52 = 0) by lia.
  assert (Es : s = 1) by (unfold s; rewrite Ez; reflexivity).
  rewrite Ez. change (2 ^ 0) with 1. rewrite <- E, Es, Z.div_1_r. lia.
Qed.

Lemma binary_exponent_int a : 0 < a -> binary_exponent a 1 = Z.log2 a.
Proof.
  intros Ha. unfold binary_exponent, scale2.
  change (Z.log2 1) with 0. rewrite Z.sub_0_r.
  pose proof (Z.log2_spec a Ha) as [L _].
  pose proof (Z.log2_nonneg a) as N.
  destruct (Z.leb_spec 0 (- Z.log2 a)).
  - replace (Z.log2 a) with 0 in * by lia. cbn [Z.opp].
    change (2 ^ 0) with 1 in *. now destruct (Z.leb_spec 1 (a * 1)); [|lia].
  - rewrite Z.opp_involutive, Z.mul_1_l.
    now destruct (Z.leb_spec (2 ^ Z.log2 a) a); [|lia].
Qed.

(** Converting a positive integer: exact below [2 ^ 53], rounded to 53
    significant bits from there on. *)
Lemma float_of_int64_pos a :
  0 < a ->
  float_of_int64 a
  = if Z.log2 a <=? 52 then a
    else round_half_even a (2 ^ (Z.log2 a - 52)) * 2 ^ (Z.log2 a - 52).
Proof.
  intros Ha. unfold float_of_int64.
  rewrite Z.sgn_pos, Z.abs_eq, Z.mul_1_l by lia.
  destruct (Z.leb_spec (Z.log2 a) 52) as [Hs|Hb].
  - rewrite round_binary64_floor; [apply Z.div_1_r | | lia].
    split; [lia|]. apply Z.log2_lt_pow2; lia.
  - unfold round_binary64, scale2, int_of_binary64.
    rewrite binary_exponent_int by lia.
    destruct (Z.leb_spec 0 (- (Z.log2 a - 52))); [lia|].
    destruct (Z.leb_spec 0 (Z.log2 a - 52)); [|lia].
    now rewrite Z.opp_involutive, Z.mul_1_l.
Qed.

Lemma float_of_int64_small a : Z.abs a < 2 ^ 53 -> float_of_int64 a = a.
Proof.
  intros H. destruct (Z.lt_trichotomy a 0) as [Hn|[->|Hp]].
  - unfold float_of_int64. rewrite Z.sgn_neg by lia.
    rewrite round_binary64_floor by lia. rewrite Z.div_1_r. lia.
  - reflexivity.
  - unfold float_of_int64. rewrite Z.sgn_pos by lia.
    rewrite round_binary64_floor by lia. rewrite Z.div_1_r. lia.
Qed.

Lemma float_of_int64_opp a : float_of_int64 (- a) = - float_of_int64 a.
Proof.
  unfold float_of_int64. rewrite Z.sgn_opp, Z.abs_opp. lia.
Qed.

(** A large enough integer converts to [2 ^ 53] at least. *)
Lemma float_of_int64_large a :
  2 ^ 53 <= a ->
  let e := Z.log2 a - 52 in
  0 < e /\ float_of_int64 a = round_half_even a (2 ^ e) * 2 ^ e
  /\ 2 ^ 52 * 2 ^ e <= float_of_int64 a <= 2 ^ 53 * 2 ^ e.
Proof.
  intros Ha. cbv zeta.
  assert (Hpos : 0 < a) by (pose proof (pow2_pos 53); lia).
  assert (Hl : 53 <= Z.log2 a) by (apply Z.log2_le_pow2; lia).
  pose proof (Z.log2_spec a Hpos) as [L1 L2].
  rewrite float_of_int64_pos by lia.
  destruct (Z.leb_spec (Z.log2 a) 52); [lia|].
  set (e := Z.log2 a - 52) in *.
  assert (He : 0 < 2 ^ e) by (apply pow2_pos; lia).
  replace (Z.log2 a) with (52 + e) in L1 by lia.
  replace (Z.succ (Z.log2 a)) with (53 + e) in L2 by lia.
  rewrite Z.pow_add_r in L1, L2 by lia.
  split; [lia|]. split; [reflexivity|].
  assert (2 ^ 52 <= round_half_even a (2 ^ e))
    by (apply round_half_even_ge; lia).
  assert (round_half_even a (2 ^ e) <= 2 ^ 53)
    by (apply round_half_even_le; lia).
  nia.
Qed.

Lemma float_of_int64_mono a b :
  0 < a <= b -> float_of_int64 a <= float_of_int64 b.
Proof.
  intros [Ha Hab].
  destruct (Z.lt_ge_cases a (2 ^ 53)) as [Sa|La].
  - rewrite (float_of_int64_small a) by lia.
    destruct (Z.lt_ge_cases b (2 ^ 53)) as [Sb|Lb].
    + rewrite (float_of_int64_small b) by lia. exact Hab.
    + destruct (float_of_int64_large b Lb) as (He & _ & Hlo & _).
      pose proof (pow2_ge_2 (Z.log2 b - 52) He).
      change (2 ^ 53) with (2 ^ 52 * 2) in Sa.
      change (2 ^ 52) with 4503599627370496 in *. nia.
  - destruct (float_of_int64_large a La) as (Hea & Ea & _ & Hhi).
    destruct (float_of_int64_large b ltac:(lia)) as (Heb & Eb & Hlo & _).
    assert (Hl : Z.log2 a <= Z.log2 b) by (apply Z.log2_le_mono; lia).
    destruct (Z.eq_dec (Z.log2 a) (Z.log2 b)) as [E|NE].
    + rewrite Ea, Eb, E.
      apply Z.mul_le_mono_nonneg_r;
        [apply Z.lt_le_incl, pow2_pos; lia|].
      apply round_half_even_mono; [apply pow2_pos; lia | exact Hab].
    + assert (Hp : 2 ^ (Z.log2 b - 52)
                   = 2 ^ (Z.log2 a - 52) * 2 ^ (Z.log2 b - Z.log2 a)).
      { rewrite <- Z.pow_add_r by lia. f_equal. lia. }
      pose proof (pow2_ge_2 (Z.log2 b - Z.log2 a) ltac:(lia)).
      pose proof (pow2_pos (Z.log2 a - 52) ltac:(lia)).
      rewrite Hp in Hlo. change (2 ^ 53) with (2 ^ 52 * 2) in Hhi.
      change (2 ^ 52) with 4503599627370496 in *. nia.
Qed.

Lemma float_of_int64_ge_1 b : 0 < b -> 1 <= float_of_int64 b.
Proof.
  intros Hb. change 1 with (float_of_int64 1) at 1.
  apply float_of_int64_mono. lia.
Qed.

Lemma int_of_binary64_nonneg n d :
  0 <= n -> 0 < d -> 0 <= int_of_binary64 (round_binary64 n d).
Proof.
  intros Hn Hd. unfold round_binary64, scale2, int_of_binary64.
  set (e := binary_exponent n d - 52).
  destruct (Z.leb_spec 0 (- e)).
  - assert (0 <= round_half_even (n * 2 ^ (- e)) d).
    { apply round_half_even_ge; [lia|].
      pose proof (pow2_pos (- e) ltac:(lia)). nia. }
    destruct (Z.leb_spec 0 e).
    + pose proof (pow2_pos e ltac:(lia)). nia.
    + apply Z.div_pos; [lia | apply pow2_pos; lia].
  - pose proof (pow2_pos (- - e) ltac:(lia)).
    assert (0 <= round_half_even n (d * 2 ^ (- - e)))
      by (apply round_half_even_ge; nia).
    destruct (Z.leb_spec 0 e); [|lia].
    pose proof (pow2_pos e ltac:(lia)). nia.
Qed.

Lemma int_of_binary64_ge_1 x y :
  0 < y <= x -> 1 <= int_of_binary64 (round_binary64 x y).
Proof.
  intros [Hy Hxy]. unfold round_binary64.
  destruct (binary_exponent_spec x y ltac:(lia) Hy) as [Sp Sn].
  set (ex := binary_exponent x y) in *.
  unfold scale2, int_of_binary64.
  destruct (Z.leb_spec 0 (- (ex - 52))) as [Hle|Hgt].
  - set (s := 2 ^ (- (ex - 52))).
    assert (Hs : 0 < s) by (apply pow2_pos; lia).
    assert (s <= round_half_even (x * s) y)
      by (apply round_half_even_ge; nia).
    destruct (Z.leb_spec 0 (ex - 52)).
    + pose proof (pow2_pos (ex - 52) ltac:(lia)). nia.
    + apply Z.div_le_lower_bound; lia.
  - rewrite Z.opp_involutive.
    destruct (Z.leb_spec 0 (ex - 52)); [|lia].
    pose proof (pow2_pos (ex - 52) ltac:(lia)) as He.
    specialize (Sp ltac:(lia)).
    assert (Hp : 2 ^ ex = 2 ^ (ex - 52) * 2 ^ 52).
    { rewrite <- Z.pow_add_r by lia. f_equal. lia. }
    assert (1 <= round_half_even x (y * 2 ^ (ex - 52))).
    { apply round_half_even_ge; [nia|].
      rewrite Hp in Sp. change (2 ^ 52) with 4503599627370496 in Sp. nia. }
    nia.
Qed.

Lemma int_of_quotient_exact a b :
  0 <= a < 2 ^ 53 -> 0 < b -> int_of_quotient a b = Ok (a / b).
Proof.
  intros [Ha Hlt] Hb. unfold int_of_quotient.
  destruct (Z.eqb_spec b 0); [lia|].
  rewrite (float_of_int64_small a) by lia.
  pose proof (float_of_int64_ge_1 b Hb) as Hy.
  f_equal. rewrite (Z.sgn_pos (float_of_int64 b)), (Z.abs_eq (float_of_int64 b)),
    Z.mul_1_r by lia.
  destruct (Z.eq_dec a 0) as [->|Hnz]; [reflexivity|].
  rewrite Z.sgn_pos, Z.abs_eq, Z.mul_1_l by lia.
  rewrite round_binary64_floor by lia.
  destruct (Z.lt_ge_cases b (2 ^ 53)) as [Sb|Lb].
  - now rewrite (float_of_int64_small b) by lia.
  - destruct (float_of_int64_large b Lb) as (He & _ & Hlo & _).
    pose proof (pow2_ge_2 (Z.log2 b - 52) He).
    change (2 ^ 53) with (2 ^ 52 * 2) in Hlt, Lb.
    change (2 ^ 52) with 4503599627370496 in *.
    rewrite !Z.div_small; [reflexivity | lia | nia].
Qed.

Lemma int_of_quotient_ge_1 a b :
  0 < b <= a -> exists n, int_of_quotient a b = Ok n /\ 1 <= n.
Proof.
  intros [Hb Hab]. unfold int_of_quotient.
  destruct (Z.eqb_spec b 0); [lia|].
  pose proof (float_of_int64_ge_1 b Hb) as Hy.
  pose proof (float_of_int64_mono b a ltac:(lia)) as Hxy.
  eexists. split; [reflexivity|].
  rewrite !Z.sgn_pos, !Z.abs_eq by lia.
  pose proof (int_of_binary64_ge_1 (float_of_int64 a) (float_of_int64 b)
                ltac:(lia)).
  lia.
Qed.

Lemma int_of_quotient_nonpos a b :
  a <= 0 -> 0 < b -> exists n, int_of_quotient a b = Ok n /\ n <= 0.
Proof.
  intros Ha Hb. unfold int_of_quotient.
  destruct (Z.eqb_spec b 0); [lia|].
  pose proof (float_of_int64_ge_1 b Hb) as Hy.
  eexists. split; [reflexivity|].
  rewrite (Z.sgn_pos (float_of_int64 b)), (Z.abs_eq (float_of_int64 b)) by lia.
  destruct (Z.eq_dec a 0) as [->|Hnz]; [cbn; lia|].
  assert (Hx : float_of_int64 a <= -1).
  { replace a with (- - a) by lia. rewrite float_of_int64_opp.
    pose proof (float_of_int64_ge_1 (- a) ltac:(lia)). lia. }
  rewrite Z.sgn_neg by lia.
  pose proof (int_of_binary64_nonneg (Z.abs (float_of_int64 a)) (float_of_int64 b)
                ltac:(lia) ltac:(lia)).
  lia.
Qed.

(** The quotients of the model are those of [SFdiv]: on a day by an hour,
    and on three quotients that binary64 does not round to their floor. *)
Example int_of_quotient_as_SFdiv :
  Forall (fun p => int_of_quotient (fst p) (snd p)
                   = int_of_quotient_SpecFloat (fst p) (snd p))
         [(ns_per_day, ns_per_hour); (- ns_per_day, 7); (1, 3);
          (2 ^ 53 + 1, 1);
          (151 * ns_per_day - 1, ns_per_hour / 4);
          (2 ^ 60 - 1, 2 ^ 60)].
Proof. repeat constructor. Qed.

(** Beyond [2 ^ 53] nanoseconds (104 days) the count is not always the
    floor: 151 days less a nanosecond hold 14495 whole quarters of an
    hour, and the quotient is 14496; a year less a nanosecond is a year
    once it is converted. *)
Example int_of_quotient_beyond_2_53 :
  int_of_quotient (151 * ns_per_day - 1) (ns_per_hour / 4) = Ok 14496
  /\ (151 * ns_per_day - 1) / (ns_per_hour / 4) = 14495
  /\ float_of_int64 (365 * ns_per_day - 1) = 365 * ns_per_day
  /\ int_of_quotient (365 * ns_per_day - 1) (365 * ns_per_day) = Ok 1
  /\ int_of_quotient (2 ^ 60 - 1) (2 ^ 60) = Ok 1.
Proof. repeat split. Qed.

(** ** Completeness checks *)

Section Completeness.

Variables (data : Data) (from_time until_time : Timestamp).
Variable resolution : Timedelta.

Lemma expected_periods_quotient :
  tz_aware from_time = tz_aware until_time ->
  expected_periods from_time until_time resolution
  = int_of_quotient (value until_time - value from_time) resolution.
Proof.
  intros Haware. unfold expected_periods, Timestamp_sub.
  now rewrite Haware, Bool.eqb_reflx.
Qed.

Lemma expected_periods_floor :
  tz_aware from_time = tz_aware until_time ->
  0 <= value until_time - value from_time < 2 ^ 53 -> 0 < resolution ->
  expected_periods from_time until_time resolution
  = Ok ((value until_time - value from_time) / resolution).
Proof.
  intros Haware Hspan Hres.
  rewrite expected_periods_quotient by assumption.
  now apply int_of_quotient_exact.
Qed.

Lemma abort_if_data_incomplete_cases expected :
  expected_periods from_time until_time resolution = Ok expected ->
  abort_if_data_incomplete data from_time until_time resolution
  = if len data <? expected
    then ([incomplete_message expected (len data)], Raise ClickAbort)
    else ([], Ok tt).
Proof.
  intros E. unfold abort_if_data_incomplete. rewrite E.
  destruct (len data <? expected); reflexivity.
Qed.

End Completeness.

(** C1, where it fails: from 2025-01-01 to a nanosecond before
    2025-06-01, 151 days later, a quarter of an hour fits 14495 times.
    With 14495 rows the check aborts all the same: the binary64 quotient of
    line 166 is 14496. *)
Lemma floor_count_of_rows_aborts :
  let start := naive_timestamp (20089 * ns_per_day) in
  let end_ := naive_timestamp (20240 * ns_per_day - 1) in
  let resolution := ns_per_hour / 4 in
  let data := frame_of_rows (Z.to_nat 14495) in
  Timestamp_lt start end_
  /\ 0 < resolution
  /\ (value end_ - value start) / resolution = 14495
  /\ len data = 14495
  /\ abort_if_data_incomplete data start end_ resolution
     = (["Result is incomplete. Expected 14496 periods but got 14495. Probably ENTSO-E does not provide these forecasts yet ..."],
        Raise ClickAbort).
Proof.
  cbv zeta. split; [split; [reflexivity | vm_compute; reflexivity] |].
  split; [reflexivity|].
  split; [vm_compute; reflexivity|].
  split; vm_compute; reflexivity.
Qed.

(** C1, amended.  Over a range with [end > start] that is shorter than
    [2 ^ 53] nanoseconds (104 days), and with a positive resolution, the
    check returns exactly when the observed count reaches
    [floor((end - start) / resolution)]; below it, the call writes a line
    holding the expected and the observed count and raises [click.Abort];
    from it on, it returns and writes nothing. *)
Theorem abort_if_data_incomplete_iff
    (data : Data) (from_time until_time : Timestamp) (resolution : Timedelta) :
  Timestamp_lt from_time until_time -> 0 < resolution ->
  value until_time - value from_time < 2 ^ 53 ->
  let expected_count := (value until_time - value from_time) / resolution in
  let observed_count := len data in
  (abort_if_data_incomplete data from_time until_time resolution = ([], Ok tt)
   <-> expected_count <= observed_count)
  /\ (observed_count < expected_count ->
      abort_if_data_incomplete data from_time until_time resolution
      = ([("Result is incomplete. Expected " ++ str expected_count
           ++ " periods but got " ++ str observed_count
           ++ ". Probably ENTSO-E does not provide these forecasts yet ...")%string],
         Raise ClickAbort))
  /\ (expected_count <= observed_count ->
      abort_if_data_incomplete data from_time until_time resolution
      = ([], Ok tt)).
Proof.
  intros [Haware Hlt] Hres Hbound expected_count observed_count.
  pose proof (expected_periods_floor from_time until_time resolution Haware
                ltac:(lia) Hres) as E.
  rewrite (abort_if_data_incomplete_cases data _ _ _ _ E).
  fold expected_count observed_count.
  destruct (Z.ltb_spec observed_count expected_count) as [Hsmall|Hlarge].
  - split; [split; [discriminate | lia] |].
    split; [reflexivity | lia].
  - split; [split; [lia | reflexivity] |].
    split; [lia | reflexivity].
Qed.

Lemma abort_if_data_incomplete_iff_witness :
  let start := naive_timestamp (20089 * ns_per_day) in
  let end_ := naive_timestamp (20090 * ns_per_day) in
  (abort_if_data_incomplete (frame_of_rows 24) start end_ (Timedelta_hours 1)
   = ([], Ok tt) <-> 24 <= 24)
  /\ abort_if_data_incomplete (frame_of_rows 20) start end_ (Timedelta_hours 1)
     = (["Result is incomplete. Expected 24 periods but got 20. Probably ENTSO-E does not provide these forecasts yet ..."],
        Raise ClickAbort).
Proof.
  intros start end_.
  assert (Hlt : Timestamp_lt start end_) by (split; [reflexivity | vm_compute; reflexivity]).
  assert (Hres : 0 < Timedelta_hours 1) by reflexivity.
  assert (Hbound : value end_ - value start < 2 ^ 53) by reflexivity.
  split.
  - exact (proj1 (abort_if_data_incomplete_iff (frame_of_rows 24) start end_
                    (Timedelta_hours 1) Hlt Hres Hbound)).
  - apply (proj1 (proj2 (abort_if_data_incomplete_iff (frame_of_rows 20) start end_
                    (Timedelta_hours 1) Hlt Hres Hbound))).
    vm_compute. reflexivity.
Defined.

(** C10, where it fails: with a resolution of 365 days, over a range of
    365 days less a nanosecond.  The range is shorter than one period, yet
    both nanosecond counts are the same binary64 number, the expected count
    is 1, and the completeness check aborts on empty data. *)
Lemma short_range_aborts_completeness :
  let resolution := 365 * ns_per_day in
  let start := naive_timestamp (20089 * ns_per_day) in
  let end_ := naive_timestamp (20089 * ns_per_day + resolution - 1) in
  0 <= value end_ - value start < resolution
  /\ (value end_ - value start) / resolution = 0
  /\ expected_periods start end_ resolution = Ok 1
  /\ abort_if_data_incomplete (OfSeries []) start end_ resolution
     = (["Result is incomplete. Expected 1 periods but got 0. Probably ENTSO-E does not provide these forecasts yet ..."],
        Raise ClickAbort).
Proof.
  cbv zeta. split; [vm_compute; split; [discriminate | reflexivity] |].
  repeat split; vm_compute; reflexivity.
Qed.

(** C10, amended.  Over a range shorter than one resolution period, and
    shorter than [2 ^ 53] nanoseconds (104 days), the expected count is 0,
    so the completeness check returns for every observed count, 0 included;
    empty data is aborted by [abort_if_data_empty] alone. *)
Theorem short_range_passes_completeness
    (data : Data) (from_time until_time : Timestamp) (resolution : Timedelta) :
  tz_aware from_time = tz_aware until_time ->
  0 <= value until_time - value from_time < resolution ->
  value until_time - value from_time < 2 ^ 53 ->
  expected_periods from_time until_time resolution = Ok 0
  /\ abort_if_data_incomplete data from_time until_time resolution = ([], Ok tt)
  /\ (empty data = true ->
      abort_if_data_empty data = ([empty_message], Raise ClickAbort)).
Proof.
  intros Haware Hspan Hbound.
  assert (E : expected_periods from_time until_time resolution = Ok 0).
  { rewrite (expected_periods_floor from_time until_time resolution Haware)
      by lia.
    f_equal. apply Z.div_small. lia. }
  split; [exact E|]. split.
  - rewrite (abort_if_data_incomplete_cases data _ _ _ _ E).
    destruct (Z.ltb_spec (len data) 0) as [Hneg|_]; [|reflexivity].
    exfalso. destruct data; cbn [len] in Hneg; lia.
  - intros Hempty. unfold abort_if_data_empty. rewrite Hempty. reflexivity.
Qed.

Lemma short_range_passes_completeness_witness :
  let start := naive_timestamp (20089 * ns_per_day) in
  let end_ := naive_timestamp (20089 * ns_per_day + Timedelta_hours 1 / 2) in
  expected_periods start end_ (Timedelta_hours 1) = Ok 0
  /\ abort_if_data_incomplete (OfSeries []) start end_ (Timedelta_hours 1)
     = ([], Ok tt)
  /\ abort_if_data_empty (OfSeries []) = ([empty_message], Raise ClickAbort).
Proof.
  intros start end_.
  destruct (short_range_passes_completeness (OfSeries []) start end_
              (Timedelta_hours 1)) as (H1 & H2 & H3).
  - reflexivity.
  - vm_compute. split; [discriminate | reflexivity].
  - reflexivity.
  - split; [exact H1|]. split; [exact H2|]. apply H3. reflexivity.
Defined.

(** ** Date ranges *)

Lemma split_wall w :
  w / us_per_day * us_per_day + (w mod us_per_day) / us_per_hour * us_per_hour
  + (w mod us_per_hour) / us_per_minute * us_per_minute
  + (w mod us_per_minute) / us_per_second * us_per_second
  + w mod us_per_second = w.
Proof.
  assert (E1 : w mod us_per_minute mod us_per_second = w mod us_per_second).
  { apply Z.mod_mod_divide. now exists 60. }
  assert (E2 : w mod us_per_hour mod us_per_minute = w mod us_per_minute).
  { apply Z.mod_mod_divide. now exists 60. }
  assert (E3 : w mod us_per_day mod us_per_hour = w mod us_per_hour).
  { apply Z.mod_mod_divide. now exists 24. }
  assert (Hs : us_per_second <> 0) by discriminate.
  assert (Hm : us_per_minute <> 0) by discriminate.
  assert (Hh : us_per_hour <> 0) by discriminate.
  assert (Hd : us_per_day <> 0) by discriminate.
  pose proof (Z.div_mod w us_per_day Hd) as D0.
  pose proof (Z.div_mod (w mod us_per_day) us_per_hour Hh) as D1.
  pose proof (Z.div_mod (w mod us_per_hour) us_per_minute Hm) as D2.
  pose proof (Z.div_mod (w mod us_per_minute) us_per_second Hs) as D3.
  rewrite E1 in D3. rewrite E2 in D2. rewrite E3 in D1.
  generalize dependent (w / us_per_day).
  generalize dependent ((w mod us_per_day) / us_per_hour).
  generalize dependent ((w mod us_per_hour) / us_per_minute).
  generalize dependent ((w mod us_per_minute) / us_per_second).
  generalize dependent (w mod us_per_day).
  generalize dependent (w mod us_per_hour).
  generalize dependent (w mod us_per_minute).
  generalize dependent (w mod us_per_second).
  intros. clear E1 E2 E3. lia.
Qed.

Lemma wall_us_datetime_of_wall w tzi : wall_us (datetime_of_wall w tzi) = w.
Proof.
  unfold wall_us, datetime_of_wall.
  cbn [ordinal hour minute second microsecond].
  rewrite <- (split_wall w) at 6.
  generalize (w / us_per_day); intros. lia.
Qed.

Lemma wall_us_replace_midnight d :
  wall_us (replace_midnight d) = (ordinal d - epoch_ordinal) * us_per_day.
Proof.
  unfold wall_us, replace_midnight.
  cbn [ordinal hour minute second microsecond]. lia.
Qed.

Lemma wall_us_datetime_add d delta :
  wall_us (datetime_add d delta) = wall_us d + delta.
Proof. apply wall_us_datetime_of_wall. Qed.

(** The wall clock of [today_start]: the local time of [now], cut to a whole
    number of days. *)
Lemma wall_us_today_start tz clk :
  wall_us (replace_midnight (datetime_now tz clk))
  = (clk + offset_at tz clk) / us_per_day * us_per_day.
Proof.
  rewrite wall_us_replace_midnight. unfold datetime_now, datetime_of_wall.
  cbn [ordinal]. lia.
Qed.

Lemma valid_policy_cases (P : string -> Prop) p :
  valid_policy p ->
  P "today" -> P "tomorrow" -> P "today-and-tomorrow" -> P p.
Proof. intros [->|[->| ->]]; auto. Qed.

(** For a valid policy the defaults lie a whole number of days after
    [today_start] on its wall clock, and carry its tzinfo. *)
Lemma default_range_valid today_start p :
  valid_policy p ->
  exists default_start default_end,
    default_range today_start p = Ok (default_start, default_end)
    /\ wall_us default_start
       = wall_us today_start + fst (policy_days p) * us_per_day
    /\ wall_us default_end
       = wall_us default_start + snd (policy_days p) * us_per_day
    /\ dt_tzinfo default_start = dt_tzinfo today_start
    /\ dt_tzinfo default_end = dt_tzinfo today_start.
Proof.
  intros Hp. pattern p. apply valid_policy_cases; [exact Hp | | |].
  - exists today_start, (datetime_add today_start (days 1)).
    split; [reflexivity|]. rewrite wall_us_datetime_add.
    change (policy_days "today") with (0, 1); cbn [fst snd]; unfold days.
    repeat split; lia.
  - exists (datetime_add today_start (days 1)),
           (datetime_add (datetime_add today_start (days 1)) (days 1)).
    split; [reflexivity|]. rewrite !wall_us_datetime_add.
    change (policy_days "tomorrow") with (1, 1); cbn [fst snd]; unfold days.
    repeat split; lia.
  - exists today_start, (datetime_add today_start (days 2)).
    split; [reflexivity|]. rewrite wall_us_datetime_add.
    change (policy_days "today-and-tomorrow") with (0, 2); cbn [fst snd];
      unfold days.
    repeat split; lia.
Qed.

Lemma default_range_invalid today_start p :
  ~ valid_policy p ->
  default_range today_start p
  = Raise (ValueError (invalid_default_to_message p)).
Proof.
  intros Hp. unfold default_range.
  destruct (String.eqb_spec p "today") as [E|_];
    [exfalso; apply Hp; left; exact E|].
  destruct (String.eqb_spec p "tomorrow") as [E|_];
    [exfalso; apply Hp; right; left; exact E|].
  destruct (String.eqb_spec p "today-and-tomorrow") as [E|_];
    [exfalso; apply Hp; right; right; exact E|].
  reflexivity.
Qed.

Section Defaults.

Variables (env : Env) (country_timezone default_to : string).
Variable tz : timezone.
Hypothesis Hzone : tzdb env country_timezone = Some tz.
Hypothesis Hpolicy : valid_policy default_to.

Let off := offset_at tz (clock env).
Let midnight := (clock env + off) / us_per_day * us_per_day.

(** With both bounds omitted the call returns; start and end carry the
    UTC offset in force at [now]; on that offset's wall clock the start
    reads midnight of today or tomorrow, and the end lies one or two days
    of 24 hours later. *)
Lemma parse_defaults :
  exists start_date end_date,
    parse_from_and_to_dates env None None country_timezone default_to
    = Ok (start_date, end_date)
    /\ value start_date
       = ns_per_us * (midnight + fst (policy_days default_to) * us_per_day - off)
    /\ value end_date
       = value start_date + snd (policy_days default_to) * ns_per_day
    /\ ts_tzinfo start_date = Some (fromutc tz (clock env))
    /\ ts_tzinfo end_date = Some (fromutc tz (clock env)).
Proof.
  destruct (default_range_valid
              (replace_midnight (datetime_now tz (clock env))) default_to Hpolicy)
    as (ds & de & Hr & Hds & Hde & Tds & Tde).
  exists (Timestamp_of_datetime ds), (Timestamp_of_datetime de).
  split.
  { unfold parse_from_and_to_dates, pytz_timezone. rewrite Hzone.
    cbn [bind]. rewrite Hr. reflexivity. }
  unfold Timestamp_of_datetime; cbn [value ts_tzinfo].
  rewrite Tds, Tde, Hde, Hds, wall_us_today_start.
  unfold datetime_now, datetime_of_wall, replace_midnight, fromutc;
    cbn [dt_tzinfo utcoffset].
  fold off. fold midnight. unfold ns_per_day.
  repeat split; lia.
Qed.

(** The span of the default range is exactly one day, or two for
    "today-and-tomorrow". *)
Lemma parse_defaults_span :
  exists start_date end_date,
    parse_from_and_to_dates env None None country_timezone default_to
    = Ok (start_date, end_date)
    /\ Timestamp_sub end_date start_date
       = Ok (snd (policy_days default_to) * ns_per_day).
Proof.
  destruct parse_defaults as (s & e & Hp & Hs & He & Ts & Te).
  exists s, e. split; [exact Hp|].
  unfold Timestamp_sub, tz_aware. rewrite Ts, Te. cbn [Bool.eqb].
  f_equal. lia.
Qed.

(** The start shows 00:00 on the wall clock of the tzinfo attached to
    it. *)
Lemma parse_defaults_shown_midnight :
  exists start_date end_date,
    parse_from_and_to_dates env None None country_timezone default_to
    = Ok (start_date, end_date)
    /\ shown_wall_us start_date mod us_per_day = 0
    /\ shown_wall_us end_date mod us_per_day = 0.
Proof.
  destruct parse_defaults as (s & e & Hp & Hs & He & Ts & Te).
  exists s, e. split; [exact Hp|].
  unfold shown_wall_us. rewrite Ts, Te, He, Hs. cbn [fromutc utcoffset].
  fold off. unfold ns_per_day.
  replace (ns_per_us * (midnight + fst (policy_days default_to) * us_per_day - off)
           + snd (policy_days default_to) * (ns_per_us * us_per_day))
    with ((midnight + fst (policy_days default_to) * us_per_day - off
           + snd (policy_days default_to) * us_per_day) * ns_per_us) by lia.
  rewrite (Z.mul_comm ns_per_us), !Z.div_mul by discriminate.
  unfold midnight. split.
  - replace (_ - off + off)
      with (((clock env + off) / us_per_day + fst (policy_days default_to))
            * us_per_day) by lia.
    apply Z.mod_mul. discriminate.
  - replace (_ + off)
      with (((clock env + off) / us_per_day + fst (policy_days default_to)
             + snd (policy_days default_to)) * us_per_day) by lia.
    apply Z.mod_mul. discriminate.
Qed.

(** It is midnight on the zone's own clock whenever the zone's offset at
    the start is the one in force at [now]. *)
Lemma parse_defaults_local_midnight :
  exists start_date end_date,
    parse_from_and_to_dates env None None country_timezone default_to
    = Ok (start_date, end_date)
    /\ (offset_at tz (value start_date / ns_per_us) = off ->
        local_midnight tz start_date).
Proof.
  destruct parse_defaults as (s & e & Hp & Hs & He & Ts & Te).
  exists s, e. split; [exact Hp|].
  unfold local_midnight. rewrite Hs.
  rewrite (Z.mul_comm ns_per_us), Z.div_mul, Z.mod_mul by discriminate.
  intros ->. split; [reflexivity|].
  unfold midnight.
  replace (_ - off + off)
    with (((clock env + off) / us_per_day + fst (policy_days default_to))
          * us_per_day) by lia.
  apply Z.mod_mul. discriminate.
Qed.

End Defaults.

(** C4.  On the day summer time begins in Amsterdam, at noon, the policy
    "today" returns a start one hour before local midnight: 2025-03-29
    22:00 UTC, which is 23:00 on the zone's clock, since [today_start] keeps
    the offset of [now].  The same day given as [from_date] starts at local
    midnight, 2025-03-29 23:00 UTC. *)
Theorem default_today_on_dst_day :
  exists start_date end_date,
    parse_from_and_to_dates env_2025_03_30 None None "Europe/Amsterdam" "today"
    = Ok (start_date, end_date)
    /\ value start_date = ns_per_us * at_hour 20176 22
    /\ value end_date - value start_date = ns_per_day
    /\ ~ local_midnight europe_amsterdam start_date
    /\ exists start_date' end_date',
         parse_from_and_to_dates env_2025_03_30 (Some (naive_date 20177)) None
           "Europe/Amsterdam" "today"
         = Ok (start_date', end_date')
         /\ value start_date' = ns_per_us * at_hour 20176 23
         /\ local_midnight europe_amsterdam start_date'.
Proof.
  eexists. eexists. split; [reflexivity|].
  split; [vm_compute; reflexivity|].
  split; [vm_compute; reflexivity|].
  split.
  - intros [_ H]. vm_compute in H. discriminate H.
  - eexists. eexists. split; [reflexivity|].
    split; [vm_compute; reflexivity|].
    split; vm_compute; reflexivity.
Qed.



Lemma append_assoc (a b c : string) :
  ((a ++ b) ++ c = a ++ (b ++ c))%string.
Proof. induction a as [|x a IH]; cbn; [reflexivity | now rewrite IH]. Qed.

Lemma message_names_allowed_values p :
  contains "'today'" (invalid_default_to_message p)
  /\ contains "'tomorrow'" (invalid_default_to_message p)
  /\ contains "'today-and-tomorrow'" (invalid_default_to_message p).
Proof.
  unfold contains, invalid_default_to_message. repeat split.
  - exists ("Invalid default_to value: " ++ p ++ ". Expected ")%string,
           ", 'tomorrow' or 'today-and-tomorrow'."%string.
    rewrite !append_assoc. reflexivity.
  - exists ("Invalid default_to value: " ++ p ++ ". Expected 'today', ")%string,
           " or 'today-and-tomorrow'."%string.
    rewrite !append_assoc. reflexivity.
  - exists ("Invalid default_to value: " ++ p
            ++ ". Expected 'today', 'tomorrow' or ")%string,
           "."%string.
    rewrite !append_assoc. reflexivity.
Qed.

(** C8.  In a known timezone, a policy other than "today", "tomorrow" and
    "today-and-tomorrow" makes the call raise [ValueError], whatever the
    bounds and before either is looked at; the message quotes the policy and
    names the three allowed values. *)
Theorem invalid_policy_raises
    (env : Env) (from_date until_date : option datetime)
    (country_timezone default_to : string) (tz : timezone) :
  tzdb env country_timezone = Some tz ->
  ~ valid_policy default_to ->
  parse_from_and_to_dates env from_date until_date country_timezone default_to
  = Raise (ValueError
      ("Invalid default_to value: " ++ default_to
       ++ ". Expected 'today', 'tomorrow' or 'today-and-tomorrow'.")%string)
  /\ contains "'today'" (invalid_default_to_message default_to)
  /\ contains "'tomorrow'" (invalid_default_to_message default_to)
  /\ contains "'today-and-tomorrow'" (invalid_default_to_message default_to).
Proof.
  intros Hzone Hpolicy. split; [|apply message_names_allowed_values].
  unfold parse_from_and_to_dates, pytz_timezone. rewrite Hzone. cbn [bind].
  rewrite (default_range_invalid _ _ Hpolicy). reflexivity.
Qed.

Lemma invalid_policy_raises_witness :
  parse_from_and_to_dates env_2025_05_01 None (Some (naive_date 20210))
    "Europe/Amsterdam" "next-week"
  = Raise (ValueError
      "Invalid default_to value: next-week. Expected 'today', 'tomorrow' or 'today-and-tomorrow'.").
Proof.
  refine (proj1 (invalid_policy_raises env_2025_05_01 None
                   (Some (naive_date 20210)) "Europe/Amsterdam" "next-week"
                   europe_amsterdam _ _)).
  - reflexivity.
  - intros [H|[H|H]]; discriminate H.
Defined.

(** C9, where it fails: a [from_date] two days after the [until_date] gives
    a range that ends one day before it starts. *)
Lemma explicit_bounds_reversed :
  exists start_date end_date,
    parse_from_and_to_dates env_2025_05_01
      (Some (naive_date 20211)) (Some (naive_date 20209)) "UTC"
      "today-and-tomorrow"
    = Ok (start_date, end_date)
    /\ value start_date = 20211 * ns_per_day
    /\ value end_date = 20210 * ns_per_day
    /\ ~ Timestamp_lt start_date end_date.
Proof.
  eexists. eexists. split; [reflexivity|].
  split; [vm_compute; reflexivity|].
  split; [vm_compute; reflexivity|].
  intros [_ H]. vm_compute in H. discriminate H.
Qed.

Lemma Timestamp_in_zone_aware D tz t :
  Timestamp_in_zone D tz = Ok t -> tz_aware t = true.
Proof.
  unfold Timestamp_in_zone. destruct (dt_tzinfo D); [discriminate|].
  destruct (localize_offset tz (wall_us D)); [|discriminate].
  intros [= <-]. reflexivity.
Qed.

Lemma tz_aware_Timestamp_add t delta :
  tz_aware (Timestamp_add t delta) = tz_aware t.
Proof.
  unfold tz_aware, Timestamp_add. cbn [ts_tzinfo].
  now destruct (ts_tzinfo t).
Qed.

(** C9, amended.  In a known timezone and with a valid policy, the default
    range ends after it starts.  A given [from_date] becomes the start as
    it is localized, a given [until_date] becomes the end 24 hours after
    it is localized, and the other bound stays the default one; the range
    then ends after it starts exactly when the start so resolved is an
    earlier instant than the end so resolved.  The call does not compare
    them. *)
Theorem parse_range_ordered
    (env : Env) (country_timezone default_to : string) (tz : timezone) :
  tzdb env country_timezone = Some tz ->
  valid_policy default_to ->
  exists default_start default_end,
    parse_from_and_to_dates env None None country_timezone default_to
    = Ok (default_start, default_end)
    /\ Timestamp_lt default_start default_end
    /\ (forall D1 s1,
          Timestamp_in_zone D1 tz = Ok s1 ->
          parse_from_and_to_dates env (Some D1) None
            country_timezone default_to
          = Ok (s1, default_end)
          /\ (Timestamp_lt s1 default_end
              <-> value s1 < value default_end))
    /\ (forall D2 s2,
          Timestamp_in_zone D2 tz = Ok s2 ->
          parse_from_and_to_dates env None (Some D2)
            country_timezone default_to
          = Ok (default_start, Timestamp_add s2 (Timedelta_hours 24))
          /\ (Timestamp_lt default_start
                (Timestamp_add s2 (Timedelta_hours 24))
              <-> value default_start < value s2 + Timedelta_hours 24))
    /\ (forall D1 D2 s1 s2,
          Timestamp_in_zone D1 tz = Ok s1 ->
          Timestamp_in_zone D2 tz = Ok s2 ->
          parse_from_and_to_dates env (Some D1) (Some D2)
            country_timezone default_to
          = Ok (s1, Timestamp_add s2 (Timedelta_hours 24))
          /\ (Timestamp_lt s1 (Timestamp_add s2 (Timedelta_hours 24))
              <-> value s1 < value s2 + Timedelta_hours 24)).
Proof.
  intros Hzone Hpolicy.
  destruct (parse_defaults env country_timezone default_to tz Hzone Hpolicy)
    as (s & e & Hp & Hs & He & Ts & Te).
  destruct (default_range_valid
              (replace_midnight (datetime_now tz (clock env))) default_to Hpolicy)
    as (ds & de & Hr & _).
  assert (Hunfold : forall from_date until_date,
    parse_from_and_to_dates env from_date until_date country_timezone
      default_to
    = (start_date <-
         match from_date with
         | None => Ok (Timestamp_of_datetime ds)
         | Some d => Timestamp_in_zone d tz
         end ;;
       end_date <-
         match until_date with
         | None => Ok (Timestamp_of_datetime de)
         | Some d => end_date <- Timestamp_in_zone d tz ;;
                     Ok (Timestamp_add end_date (Timedelta_hours 24))
         end ;;
       Ok (start_date, end_date))).
  { intros from_date until_date.
    unfold parse_from_and_to_dates, pytz_timezone. rewrite Hzone.
    cbn [bind]. rewrite Hr. cbn [bind].
    destruct from_date, until_date; reflexivity. }
  assert (Es : Timestamp_of_datetime ds = s /\ Timestamp_of_datetime de = e).
  { rewrite Hunfold in Hp. cbn [bind] in Hp.
    injection Hp as E1 E2. now split. }
  destruct Es as [Es Ee].
  assert (As : tz_aware s = true) by (unfold tz_aware; now rewrite Ts).
  assert (Ae : tz_aware e = true) by (unfold tz_aware; now rewrite Te).
  exists s, e. split; [exact Hp|]. split.
  { split; [congruence|].
    assert (0 < snd (policy_days default_to) * ns_per_day)
      by (pattern default_to;
          apply valid_policy_cases; [exact Hpolicy | | |]; reflexivity).
    lia. }
  split; [|split].
  - intros D1 s1 H1. rewrite Hunfold, H1. cbn [bind]. rewrite Ee.
    split; [reflexivity|]. unfold Timestamp_lt.
    rewrite (Timestamp_in_zone_aware _ _ _ H1), Ae. tauto.
  - intros D2 s2 H2. rewrite Hunfold, H2. cbn [bind]. rewrite Es.
    split; [reflexivity|]. unfold Timestamp_lt.
    rewrite tz_aware_Timestamp_add, (Timestamp_in_zone_aware _ _ _ H2), As.
    unfold Timestamp_add; cbn [value]. tauto.
  - intros D1 D2 s1 s2 H1 H2. rewrite Hunfold, H1. cbn [bind].
    rewrite H2. cbn [bind].
    split; [reflexivity|]. unfold Timestamp_lt.
    rewrite tz_aware_Timestamp_add, (Timestamp_in_zone_aware _ _ _ H1),
      (Timestamp_in_zone_aware _ _ _ H2).
    unfold Timestamp_add; cbn [value]. tauto.
Qed.

Lemma parse_range_ordered_witness :
  exists default_start default_end,
    parse_from_and_to_dates env_2025_03_30 None None "Europe/Amsterdam"
      "tomorrow"
    = Ok (default_start, default_end)
    /\ Timestamp_lt default_start default_end
    /\ parse_from_and_to_dates env_2025_03_30 None (Some (naive_date 20178))
         "Europe/Amsterdam" "tomorrow"
       = Ok (default_start,
             Timestamp_add
               (localized europe_amsterdam (naive_date 20178)
                  (2 * us_per_hour))
               (Timedelta_hours 24)).
Proof.
  destruct (parse_range_ordered env_2025_03_30 "Europe/Amsterdam" "tomorrow"
              europe_amsterdam eq_refl (or_intror (or_introl eq_refl)))
    as (s & e & Hp & Hlt & _ & Huntil & _).
  exists s, e. split; [exact Hp|]. split; [exact Hlt|].
  apply (Huntil (naive_date 20178)
           (localized europe_amsterdam (naive_date 20178) (2 * us_per_hour))).
  reflexivity.
Defined.

(** ** Frequency inference *)

Lemma In_insert_unique x y l : In x (insert_unique y l) <-> x = y \/ In x l.
Proof.
  induction l as [|z l IH]; cbn.
  - intuition.
  - destruct (Z.ltb_spec y z).
    + cbn. intuition.
    + destruct (Z.eqb_spec y z) as [->|Hne].
      * cbn. intuition.
      * cbn. rewrite IH. intuition.
Qed.

Lemma In_unique_deltas x l : In x (unique_deltas l) <-> In x (diffs l).
Proof.
  unfold unique_deltas. induction (diffs l) as [|y m IH]; cbn.
  - reflexivity.
  - rewrite In_insert_unique, IH. intuition.
Qed.

Lemma grid_S start step n :
  grid start step (S n) = start :: grid (start + step) step n.
Proof.
  unfold grid. cbn [List.seq map]. f_equal.
  - cbn. lia.
  - rewrite <- seq_shift, map_map. apply map_ext. intros k. lia.
Qed.

Lemma grid_length start step n : List.length (grid start step n) = n.
Proof. unfold grid. now rewrite length_map, length_seq. Qed.

Lemma In_grid x start step n :
  In x (grid start step n)
  <-> exists k, (k < n)%nat /\ x = start + Z.of_nat k * step.
Proof.
  unfold grid. rewrite in_map_iff. split.
  - intros (k & <- & Hk). apply in_seq in Hk. exists k. split; [lia | reflexivity].
  - intros (k & Hk & ->). exists k. split; [reflexivity | apply in_seq; lia].
Qed.

Lemma nth_error_grid start step n j :
  (j < n)%nat ->
  nth_error (grid start step n) j = Some (start + Z.of_nat j * step).
Proof.
  intros Hj. unfold grid. rewrite nth_error_map, nth_error_seq.
  destruct (Nat.ltb_spec j n); [reflexivity | lia].
Qed.

Lemma firstn_grid start step n j :
  (j <= n)%nat -> firstn j (grid start step n) = grid start step j.
Proof.
  revert start n. induction j as [|j IH]; intros start n Hj.
  - reflexivity.
  - destruct n as [|n]; [lia|].
    rewrite !grid_S. cbn [firstn]. f_equal. apply IH. lia.
Qed.

(** A list whose first differences all equal [d] is a grid of step [d]. *)
Lemma evenly_spaced_grid d l :
  Forall (fun x => x = d) (diffs l) ->
  l = grid (hd 0 l) d (List.length l).
Proof.
  induction l as [|a [|b l] IH]; intros H.
  - reflexivity.
  - cbn. f_equal. lia.
  - cbn [diffs] in H. inversion H as [|? ? Hd Hrest]; subst.
    specialize (IH Hrest). cbn [hd] in IH.
    change (List.length (a :: b :: l)) with (S (List.length (b :: l))).
    rewrite grid_S. cbn [hd]. f_equal.
    replace (a + (b - a)) with b by lia. exact IH.
Qed.

Section Inference.

Variables calendar_rule business_rule : list Z -> option string.

(** Inference raises on fewer than three labels, and only then. *)
Lemma infer_freq_raise idx e :
  infer_freq calendar_rule business_rule idx = Raise e ->
  (List.length idx < 3)%nat
  /\ e = ValueError "Need at least 3 dates to infer frequency".
Proof.
  unfold infer_freq.
  destruct (Nat.ltb_spec (List.length idx) 3) as [Hlen|_].
  - intros [= <-]. split; [exact Hlen | reflexivity].
  - destruct (negb _); [discriminate|].
    destruct (negb _ && _); [discriminate|].
    destruct (business_hours _); [discriminate|].
    destruct (unique_deltas idx) as [|? [|? ?]]; discriminate.
Qed.

Lemma infer_freq_short idx :
  (List.length idx < 3)%nat ->
  infer_freq calendar_rule business_rule idx
  = Raise (ValueError "Need at least 3 dates to infer frequency").
Proof.
  intros Hlen. unfold infer_freq.
  destruct (Nat.ltb_spec (List.length idx) 3); [reflexivity | lia].
Qed.

(** A fixed duration is inferred only from labels that are evenly
    spaced by it. *)
Lemma infer_freq_tick idx d :
  infer_freq calendar_rule business_rule idx = Ok (Some (Tick d)) ->
  (3 <= List.length idx)%nat /\ d <> 0
  /\ is_unique idx = true
  /\ idx = grid (hd 0 idx) d (List.length idx).
Proof.
  unfold infer_freq.
  destruct (Nat.ltb_spec (List.length idx) 3) as [|Hlen]; [discriminate|].
  destruct (_ && is_unique idx) eqn:Hmu; cbn [negb]; [|discriminate].
  apply andb_prop in Hmu as [_ Huniq].
  intros H.
  assert (Hd : unique_deltas idx = [d]).
  { destruct (negb _ && _) eqn:Hday.
    - apply andb_prop in Hday as [_ Hmult]. apply Z.eqb_eq in Hmult.
      unfold _infer_daily_rule in H.
      destruct (calendar_rule idx); [discriminate|].
      destruct (unique_deltas idx) as [|delta [|? ?]].
      + destruct (business_rule idx); discriminate.
      + cbn [hd] in Hmult. unfold _get_daily_rule in H.
        destruct (_ =? 0); [discriminate|].
        injection H as <-. f_equal.
        pose proof (Z.div_mod delta ns_per_day ltac:(discriminate)). lia.
      + destruct (business_rule idx); discriminate.
    - destruct (business_hours _); [discriminate|].
      destruct (unique_deltas idx) as [|? [|? ?]]; try discriminate.
      now injection H as <-. }
  assert (Hall : Forall (fun x => x = d) (diffs idx)).
  { apply Forall_forall. intros x Hx. apply In_unique_deltas in Hx.
    rewrite Hd in Hx. destruct Hx as [<-|[]]. reflexivity. }
  split; [exact Hlen|]. split; [|split; [exact Huniq|now apply evenly_spaced_grid]].
  destruct idx as [|a [|b idx]]; cbn in Hlen; try lia.
  cbn [diffs] in Hall. inversion Hall as [|? ? Hab _]; subst.
  cbn [is_unique existsb] in Huniq.
  destruct (Z.eqb_spec a b) as [->|Hne]; [discriminate | lia].
Qed.

End Inference.

(** ** Grids and ranges *)

Lemma grid_snoc start step n :
  grid start step (S n) = grid start step n ++ [start + Z.of_nat n * step].
Proof.
  unfold grid. rewrite seq_S, map_app. reflexivity.
Qed.

Lemma last_grid start step n dflt :
  List.last (grid start step (S n)) dflt = start + Z.of_nat n * step.
Proof. rewrite grid_snoc. apply last_last. Qed.

Lemma hd_grid start step n dflt : hd dflt (grid start step (S n)) = start.
Proof. rewrite grid_S. reflexivity. Qed.

Lemma grid_sorted start step n :
  0 < step -> StronglySorted Z.lt (grid start step n).
Proof.
  intros Hstep. revert start. induction n as [|n IH]; intros start.
  - constructor.
  - rewrite grid_S. constructor; [apply IH|].
    apply Forall_forall. intros x Hx. apply In_grid in Hx as (k & _ & ->). nia.
Qed.

Lemma is_monotonic_increasing_cons a b l :
  is_monotonic_increasing (a :: b :: l)
  = (a <=? b) && is_monotonic_increasing (b :: l).
Proof. reflexivity. Qed.

Lemma grid_increasing start step n :
  0 < step -> is_monotonic_increasing (grid start step n) = true.
Proof.
  intros Hstep. revert start. induction n as [|n IH]; intros start.
  - reflexivity.
  - rewrite grid_S. specialize (IH (start + step)).
    destruct n as [|n]; [reflexivity|].
    rewrite grid_S in IH |- *. rewrite is_monotonic_increasing_cons, IH.
    destruct (Z.leb_spec start (start + step)); [reflexivity | lia].
Qed.

(** The range over a whole number [m] of steps: [m + 1] labels. *)
Lemma generate_regular_range_exact start step m :
  0 < step ->
  generate_regular_range start (start + Z.of_nat m * step) step
  = grid start step (S m).
Proof.
  intros Hstep. unfold generate_regular_range, arange.
  replace (start + Z.of_nat m * step - start) with (Z.of_nat m * step) by lia.
  rewrite Z.div_mul by lia.
  assert (Hhalf : 0 <= step / 2 < step).
  { split; [apply Z.div_pos; lia | apply Z.div_lt_upper_bound; lia]. }
  assert (E : - (Z.of_nat m * step + step / 2 + 1) / step = - (Z.of_nat m + 1)).
  { symmetry. apply (Z.div_unique _ _ _ (step - step / 2 - 1)); lia. }
  replace (- (start + Z.of_nat m * step + step / 2 + 1 - start))
    with (- (Z.of_nat m * step + step / 2 + 1)) by lia.
  rewrite E.
  replace (Z.to_nat (- - (Z.of_nat m + 1))) with (S m) by lia.
  reflexivity.
Qed.

Lemma date_range_both_exact start step m :
  0 < step ->
  date_range start (start + Z.of_nat m * step) step Both
  = Ok (grid start step (S m)).
Proof.
  intros Hstep. unfold date_range.
  destruct (Z.leb_spec step 0); [lia|].
  now rewrite generate_regular_range_exact.
Qed.

(** Closed on the left only, the range over [m > 0] whole steps drops its
    end: [m] labels. *)
Lemma date_range_left_exact start step m :
  0 < step -> (0 < m)%nat ->
  date_range start (start + Z.of_nat m * step) step Left
  = Ok (grid start step m).
Proof.
  intros Hstep Hm. unfold date_range.
  destruct (Z.leb_spec step 0); [lia|].
  rewrite generate_regular_range_exact by assumption.
  destruct (Z.eqb_spec start (start + Z.of_nat m * step)); [nia|].
  unfold ends_with. rewrite grid_snoc, rev_app_distr. cbn [rev app].
  rewrite Z.eqb_refl. now rewrite removelast_last.
Qed.

(** ** Reindexing and padding *)

Lemma last_known_cons prev c cells :
  last_known prev (c :: cells) = last_known (keep prev c) cells.
Proof. reflexivity. Qed.

Lemma get_below t s :
  Forall (fun p => t < fst p) s -> get t s = None.
Proof.
  induction s as [|[t' v] s IH]; intros H; [reflexivity|].
  inversion H as [|? ? Hlt Hrest]; subst. cbn [fst] in Hlt. cbn [get].
  destruct (Z.eqb_spec t t'); [lia | now apply IH].
Qed.

Lemma sorted_index_cons t v s :
  StronglySorted Z.lt (index ((t, v) :: s)) ->
  StronglySorted Z.lt (index s) /\ Forall (fun p => t < fst p) s.
Proof.
  intros H. inversion H as [|? ? Hs Hall]; subst. split; [exact Hs|].
  unfold index in Hall. rewrite Forall_map in Hall. exact Hall.
Qed.

Lemma last_known_lookup_nil G prev :
  last_known prev (map (fun t => get t []) G) = prev.
Proof. induction G as [|g G IH]; [reflexivity | exact IH]. Qed.

(** Looking the labels of a sorted list [G] up in a sorted series meets
    the samples whose label is in [G], in their order, with NaN in
    between. *)
Lemma last_known_lookup G :
  StronglySorted Z.lt G ->
  forall s prev,
    StronglySorted Z.lt (index s) ->
    last_known prev (map (fun t => get t s) G)
    = last_known prev (map snd (filter (memb G) s)).
Proof.
  induction G as [|g G IH]; intros HG.
  - intros s prev _. cbn [map]. unfold memb. cbn [existsb].
    now rewrite filter_false.
  - inversion HG as [|? ? HG' Hall]; subst.
    rewrite Forall_forall in Hall.
    induction s as [|[t v] s IHs]; intros prev Hs.
    + cbn [filter map]. apply last_known_lookup_nil.
    + apply sorted_index_cons in Hs as [Hs Hgt].
      destruct (Z.compare_spec g t) as [Heq|Hlt|Hgt'].
      * subst t. cbn [map get filter]. rewrite Z.eqb_refl.
        unfold memb at 1. cbn [existsb fst]. rewrite Z.eqb_refl. cbn [orb].
        cbn [map snd]. rewrite !last_known_cons.
        rewrite (map_ext_in (fun t => get t ((g, v) :: s)) (fun t => get t s)).
        2:{ intros t' Ht'. apply Hall in Ht'. cbn [get].
            destruct (Z.eqb_spec t' g); [lia | reflexivity]. }
        rewrite (filter_ext_in (memb (g :: G)) (memb G)).
        2:{ intros p Hp. rewrite Forall_forall in Hgt. apply Hgt in Hp.
            unfold memb. cbn [existsb].
            destruct (Z.eqb_spec (fst p) g); [lia | reflexivity]. }
        apply IH; assumption.
      * cbn [map]. rewrite last_known_cons.
        rewrite (get_below g ((t, v) :: s)).
        2:{ constructor; [exact Hlt|].
            eapply Forall_impl; [|exact Hgt]. cbn. intros; lia. }
        cbn [keep].
        rewrite (filter_ext_in (memb (g :: G)) (memb G)).
        2:{ intros p Hp.
            assert (g < fst p).
            { destruct Hp as [<-|Hp]; [exact Hlt|].
              rewrite Forall_forall in Hgt. apply Hgt in Hp. lia. }
            unfold memb. cbn [existsb].
            destruct (Z.eqb_spec (fst p) g); [lia | reflexivity]. }
        apply IH; [assumption|].
        unfold index. cbn [map fst]. constructor; [exact Hs|].
        unfold index. rewrite Forall_map. exact Hgt.
      * rewrite (map_ext_in (fun t' => get t' ((t, v) :: s))
                   (fun t' => get t' s)).
        2:{ intros t' Ht'. cbn [get].
            destruct (Z.eqb_spec t' t) as [->|]; [|reflexivity].
            destruct Ht' as [<-|Ht']; [lia|]. apply Hall in Ht'. lia. }
        cbn [filter]. replace (memb (g :: G) (t, v)) with false.
        2:{ symmetry. unfold memb. cbn [fst].
            destruct (existsb (Z.eqb t) (g :: G)) eqn:E; [|reflexivity].
            apply existsb_exists in E as (x & Hx & Ex).
            apply Z.eqb_eq in Ex. subst x.
            destruct Hx as [->|Hx]; [lia|]. apply Hall in Hx. lia. }
        apply IHs. exact Hs.
Qed.

Lemma nth_error_pad_from l :
  forall prev j t c,
    nth_error l j = Some (t, c) ->
    nth_error (pad_from prev l) j
    = Some (t, last_known prev (map snd (firstn (S j) l))).
Proof.
  induction l as [|[t' c'] l IH]; intros prev j t c H.
  - destruct j; discriminate.
  - destruct j as [|j].
    + injection H as -> ->. destruct c; reflexivity.
    + cbn [nth_error] in H.
      change (firstn (S (S j)) ((t', c') :: l))
        with ((t', c') :: firstn (S j) l).
      cbn [map snd]. rewrite last_known_cons.
      destruct c' as [v|]; cbn [pad_from nth_error keep]; now apply (IH _ _ _ c).
Qed.

Lemma pad_from_length prev l :
  List.length (pad_from prev l) = List.length l.
Proof.
  revert prev. induction l as [|[t [v|]] l IH]; intros prev; cbn;
    [reflexivity | now rewrite IH | now rewrite IH].
Qed.

(** On a grid that holds every label of a sorted series, reindexing and
    padding give each grid label the most recent known value at or before
    it. *)
Lemma pad_reindex_grid s start step m :
  0 < step ->
  StronglySorted Z.lt (index s) ->
  (forall p, In p s -> exists i : nat, fst p = start + Z.of_nat i * step) ->
  pad (map (fun t => (t, get t s)) (grid start step m))
  = map (fun t => (t, most_recent s t)) (grid start step m).
Proof.
  intros Hstep Hs Hon. apply nth_error_ext. intros j.
  destruct (Nat.ltb_spec j m) as [Hj|Hj].
  - unfold pad.
    rewrite (nth_error_pad_from _ None j (start + Z.of_nat j * step)
               (get (start + Z.of_nat j * step) s)).
    2:{ rewrite nth_error_map, nth_error_grid by assumption. reflexivity. }
    rewrite nth_error_map, nth_error_grid by assumption. cbn [option_map].
    do 2 f_equal.
    rewrite firstn_map, map_map. cbn [snd].
    rewrite firstn_grid by lia.
    rewrite last_known_lookup; [|now apply grid_sorted | exact Hs].
    unfold most_recent, at_or_before. do 2 f_equal.
    apply filter_ext_in. intros p Hp. destruct (Hon p Hp) as (i & Hi).
    unfold memb. rewrite Hi.
    destruct (Z.leb_spec (start + Z.of_nat i * step)
                (start + Z.of_nat j * step)) as [Hle|Hgt].
    + apply existsb_exists. exists (start + Z.of_nat i * step).
      split; [|apply Z.eqb_refl].
      apply In_grid. exists i. split; [nia | reflexivity].
    + destruct (existsb _ _) eqn:E; [|reflexivity].
      apply existsb_exists in E as (x & Hx & Ex). apply Z.eqb_eq in Ex.
      apply In_grid in Hx as (k & Hk & ->). nia.
  - transitivity (@None (Z * cell)).
    + apply nth_error_None. unfold pad.
      now rewrite pad_from_length, length_map, grid_length.
    + symmetry. apply nth_error_None. now rewrite length_map, grid_length.
Qed.

(** ** The debug line *)

Lemma percent_free_cons c a :
  percent_free (String c a) = true ->
  (c =? "%")%char = false /\ percent_free a = true.
Proof.
  unfold percent_free. cbn [list_ascii_of_string existsb].
  rewrite negb_orb, (Ascii.eqb_sym "%" c). intros H.
  apply andb_prop in H as [H1 H2]. apply negb_true_iff in H1. now split.
Qed.

(** Text without [%] is copied. *)
Lemma format_scan_percent_free (a rest : string) :
  percent_free a = true ->
  forall consumed pos,
    format_scan (a ++ rest) Literal consumed pos
    = format_scan rest Literal consumed (pos + Z.of_nat (String.length a)).
Proof.
  induction a as [|c a IH]; intros Hfree consumed pos.
  - cbn. f_equal. lia.
  - apply percent_free_cons in Hfree as [Hc Hfree].
    cbn [append format_scan format_char]. rewrite Hc.
    rewrite IH by assumption. f_equal. cbn [String.length]. lia.
Qed.

(** Line 241 returns for a sensor whose name holds no [%]. *)
Lemma format_resampled_message sensor :
  percent_free (name sensor) = true ->
  format_with_series (resampled_message sensor) = Ok tt.
Proof.
  intros Hfree. unfold format_with_series, resampled_message.
  rewrite (format_scan_percent_free "Resampled data for ") by reflexivity.
  rewrite (format_scan_percent_free (name sensor)) by assumption.
  reflexivity.
Qed.

(** With a [%] in the name it can raise: the [%] of "50% quantile price"
    opens a conversion with the flag " " and the character "q". *)
Example format_resampled_message_percent :
  format_with_series
    (resampled_message {| name := "50% quantile price";
                          event_resolution := ns_per_hour |})
  = Raise (ValueError
             "unsupported format character 'q' (0x71) at index 23").
Proof. reflexivity. Qed.

(** ** Adapting a series to the sensor's resolution *)

(** C6.  When no frequency is inferred from the labels of a series, whether
    inference returns nothing (as on unevenly spaced labels) or refuses
    fewer than three labels (as on a single point), the call raises
    [ValueError]: with the message that no event resolution can be derived
    in the first case, with pandas' own message in the second. *)
Theorem no_frequency_raises
    (calendar_rule business_rule : list Z -> option string)
    (index_utcoffset : Z) (s : Series) (sensor : Sensor) :
  (forall offset,
     infer_freq calendar_rule business_rule (index s) <> Ok (Some offset)) ->
  exists msg,
    resample_if_needed calendar_rule business_rule index_utcoffset s sensor
    = Raise (ValueError msg)
    /\ (infer_freq calendar_rule business_rule (index s) = Ok None ->
        msg = "Data has no discernible frequency from which to derive an event resolution.")
    /\ ((List.length s < 3)%nat ->
        msg = "Need at least 3 dates to infer frequency").
Proof.
  intros Hnone. unfold resample_if_needed.
  destruct (infer_freq calendar_rule business_rule (index s))
    as [[offset|]|e] eqn:E.
  - exfalso. now apply (Hnone offset).
  - exists no_frequency_message. cbn [bind]. split; [reflexivity|].
    split; [reflexivity|].
    intros Hlen. rewrite infer_freq_short in E; [discriminate|].
    unfold index. now rewrite length_map.
  - destruct (infer_freq_raise _ _ _ _ E) as [Hlen ->].
    eexists. cbn [bind]. split; [reflexivity|].
    split; [discriminate | reflexivity].
Qed.

(** A series of at least three strictly increasing labels with two
    different gaps, the smallest of them not a whole number of days and
    the gaps not those of business hours, has no frequency. *)
Lemma irregular_no_frequency
    (calendar_rule business_rule : list Z -> option string) (idx : list Z) :
  (3 <= List.length idx)%nat ->
  is_monotonic_increasing idx = true -> is_unique idx = true ->
  hd 0 (unique_deltas idx) mod ns_per_day <> 0 ->
  business_hours (unique_deltas idx) = false ->
  (forall d, unique_deltas idx <> [d]) ->
  infer_freq calendar_rule business_rule idx = Ok None.
Proof.
  intros Hlen Hmono Huniq Hday Hbh Hgaps. unfold infer_freq.
  destruct (Nat.ltb_spec (List.length idx) 3); [lia|].
  rewrite Hmono, Huniq. cbn [orb andb negb].
  destruct (Z.eqb_spec (hd 0 (unique_deltas idx) mod ns_per_day) 0);
    [contradiction|].
  rewrite andb_false_r, Hbh.
  destruct (unique_deltas idx) as [|d [|? ?]]; try reflexivity.
  now destruct (Hgaps d).
Qed.

Lemma no_frequency_raises_witness :
  let irregular : Series :=
    [(0, float_of_Z 1); (10, float_of_Z 1); (30, float_of_Z 2)] in
  let single : Series := [(0, float_of_Z 1)] in
  resample_if_needed no_rule no_rule 0 irregular (sensor_with (ns_per_hour / 4))
  = Raise (ValueError "Data has no discernible frequency from which to derive an event resolution.")
  /\ resample_if_needed no_rule no_rule 0 single (sensor_with (ns_per_hour / 4))
     = Raise (ValueError "Need at least 3 dates to infer frequency").
Proof.
  intros irregular single. split.
  - destruct (no_frequency_raises no_rule no_rule 0 irregular
                (sensor_with (ns_per_hour / 4))) as (msg & E & Hmsg & _).
    + intros offset. vm_compute. discriminate.
    + rewrite E. rewrite Hmsg; reflexivity.
  - destruct (no_frequency_raises no_rule no_rule 0 single
                (sensor_with (ns_per_hour / 4))) as (msg & E & _ & Hmsg).
    + intros offset. vm_compute. discriminate.
    + rewrite E. rewrite Hmsg; [reflexivity | cbn; lia].
Defined.

(** C7.  When the inferred frequency is a fixed duration equal to the
    sensor's resolution, the call returns the series it was given. *)
Theorem same_resolution_unchanged
    (calendar_rule business_rule : list Z -> option string)
    (index_utcoffset : Z) (s : Series) (sensor : Sensor) (offset : DateOffset) :
  infer_freq calendar_rule business_rule (index s) = Ok (Some offset) ->
  to_timedelta offset = Ok (event_resolution sensor) ->
  resample_if_needed calendar_rule business_rule index_utcoffset s sensor
  = Ok s.
Proof.
  intros Hfreq Hres. unfold resample_if_needed.
  rewrite Hfreq. cbn [bind]. rewrite Hres. cbn [bind].
  now rewrite Z.eqb_refl.
Qed.

Lemma same_resolution_unchanged_witness :
  let s := quarter_hourly [1; 2; 3; 4; 5]%Q in
  resample_if_needed no_rule no_rule 0 s (sensor_with (ns_per_hour / 4)) = Ok s.
Proof.
  intros s.
  apply (same_resolution_unchanged no_rule no_rule 0 s
           (sensor_with (ns_per_hour / 4)) (Tick (ns_per_hour / 4))).
  - vm_compute. reflexivity.
  - reflexivity.
Defined.

(** C2, where it fails: four hourly values adapted to 45 minutes.  The
    grid has 6 labels although the span of 4 hours is not 6 times 45
    minutes, and the slot at 01:30 holds the value of 00:00, since the
    sample of 01:00 is not on the grid. *)
Lemma upsample_off_grid :
  let s := hourly [10; 20; 30; 40]%Q in
  let sensor := sensor_with (3 * ns_per_hour / 4) in
  let first := 20089 * ns_per_day in
  infer_freq no_rule no_rule (index s) = Ok (Some (Tick ns_per_hour))
  /\ event_resolution sensor < ns_per_hour
  /\ exists out,
       resample_if_needed no_rule no_rule 0 s sensor = Ok out
       /\ List.length out = 6%nat
       /\ 6 * event_resolution sensor
          <> List.last (index s) 0 + ns_per_hour - first
       /\ In (first + 2 * event_resolution sensor, float_of_Q 10) out
       /\ most_recent s (first + 2 * event_resolution sensor)
          = float_of_Q 20.
Proof.
  intros s sensor first.
  split; [vm_compute; reflexivity|].
  split; [vm_compute; reflexivity|].
  eexists. split; [vm_compute; reflexivity|].
  split; [reflexivity|].
  split; [vm_compute; discriminate|].
  split; [vm_compute; tauto | vm_compute; reflexivity].
Qed.

(** C2, amended.  When the inferred resolution is a multiple of the sensor's
    resolution and more than it, and the sensor's name holds no [%], the
    result is defined on the grid of the sensor's resolution from the first
    label up to, and without, the last label plus the inferred resolution;
    every slot holds the most recent known value at or before its label;
    and the number of slots is the span divided by the sensor's
    resolution. *)
Theorem upsample_forward_fills
    (calendar_rule business_rule : list Z -> option string)
    (index_utcoffset : Z) (s : Series) (sensor : Sensor) (d : Timedelta) :
  infer_freq calendar_rule business_rule (index s) = Ok (Some (Tick d)) ->
  0 < event_resolution sensor ->
  event_resolution sensor < d ->
  (event_resolution sensor | d) ->
  percent_free (name sensor) = true ->
  let target := event_resolution sensor in
  let first := hd 0 (index s) in
  let span := List.last (index s) 0 + d - first in
  exists out,
    resample_if_needed calendar_rule business_rule index_utcoffset s sensor
    = Ok out
    /\ index out = grid first target (List.length out)
    /\ Z.of_nat (List.length out) * target = span
    /\ Z.of_nat (List.length out) = span / target
    /\ out = map (fun t => (t, most_recent s t)) (index out).
Proof.
  intros Hfreq Hpos Hlt [k Hk] Hname target first span.
  destruct (infer_freq_tick _ _ _ _ Hfreq) as (Hlen & Hd0 & Huniq & Hidx).
  subst target first span.
  remember (hd 0 (index s)) as t0 eqn:Ht0.
  remember (List.length (index s)) as n eqn:Hn.
  remember (event_resolution sensor) as f eqn:Hf.
  assert (Hkpos : 0 < k) by nia.
  destruct n as [|n']; [lia|].
  assert (Hlast : List.last (index s) 0 + d
                  = t0 + Z.of_nat (S n' * Z.to_nat k) * f).
  { rewrite Hidx, last_grid. nia. }
  assert (Hsorted : StronglySorted Z.lt (index s)).
  { rewrite Hidx. apply grid_sorted. lia. }
  assert (Hon : forall p, In p s ->
                  exists i : nat, fst p = t0 + Z.of_nat i * f).
  { intros p Hp. apply (in_map fst) in Hp. fold (index s) in Hp.
    rewrite Hidx in Hp. apply In_grid in Hp as (i & _ & Hi).
    exists (i * Z.to_nat k)%nat. rewrite Hi. nia. }
  exists (map (fun t => (t, most_recent s t))
              (grid t0 f (S n' * Z.to_nat k))).
  assert (Hindex : index (map (fun t => (t, most_recent s t))
                            (grid t0 f (S n' * Z.to_nat k)))
                   = grid t0 f (S n' * Z.to_nat k)).
  { unfold index. rewrite map_map. cbn [fst]. apply map_id. }
  rewrite Hindex, length_map, grid_length.
  split.
  { unfold resample_if_needed. rewrite Hfreq. cbn [bind to_timedelta].
    rewrite <- Hf, <- Ht0.
    destruct (Z.eqb_spec d f); [lia|].
    destruct (Z.ltb_spec f d); [|lia].
    rewrite Hlast, date_range_left_exact by nia. cbn [bind].
    unfold reindex. rewrite Huniq. cbn [bind].
    rewrite Hf, (format_resampled_message sensor Hname). cbn [bind].
    f_equal. rewrite <- Hf. now apply pad_reindex_grid. }
  split; [reflexivity|].
  rewrite Hlast.
  replace (t0 + Z.of_nat (S n' * Z.to_nat k) * f - t0)
    with (Z.of_nat (S n' * Z.to_nat k) * f) by lia.
  split; [reflexivity|]. split; [|reflexivity].
  now rewrite Z.div_mul by lia.
Qed.

Lemma upsample_forward_fills_witness :
  let s := hourly [10; 20; 30]%Q in
  exists out,
    resample_if_needed no_rule no_rule 0 s (sensor_with (ns_per_hour / 4))
    = Ok out
    /\ index out = grid (hd 0 (index s)) (ns_per_hour / 4) (List.length out)
    /\ Z.of_nat (List.length out) * (ns_per_hour / 4)
       = List.last (index s) 0 + ns_per_hour - hd 0 (index s)
    /\ Z.of_nat (List.length out)
       = (List.last (index s) 0 + ns_per_hour - hd 0 (index s))
         / (ns_per_hour / 4)
    /\ out = map (fun t => (t, most_recent s t)) (index out).
Proof.
  intros s.
  apply (upsample_forward_fills no_rule no_rule 0 s
           (sensor_with (ns_per_hour / 4)) ns_per_hour).
  - vm_compute. reflexivity.
  - reflexivity.
  - reflexivity.
  - exists 4. reflexivity.
  - reflexivity.
Defined.

Lemma last_known_snoc prev cells c :
  last_known prev (cells ++ [c]) = keep (last_known prev cells) c.
Proof. unfold last_known. now rewrite fold_left_app. Qed.

(** Where the last sample at or before [t] has a value, that value is the
    most recent known one. *)
Lemma most_recent_last s t earlier t' v :
  at_or_before t s = earlier ++ [(t', Some v)] ->
  most_recent s t = Some v.
Proof.
  intros H. unfold most_recent. rewrite H, map_app. cbn [map snd].
  now rewrite last_known_snoc.
Qed.

(** The scenario of the spec: 24 hourly values adapted to 15 minutes give 96
    values, each hourly value four times in a row. *)
Example upsample_24_hours :
  let values := map (fun k => inject_Z (Z.of_nat k)) (List.seq 0 24) in
  resample_if_needed no_rule no_rule 0 (hourly values)
    (sensor_with (ns_per_hour / 4))
  = Ok (combine (grid (20089 * ns_per_day) (ns_per_hour / 4) 96)
          (flat_map (fun v => let c := float_of_Q v in [c; c; c; c])
                    values)).
Proof. vm_compute. reflexivity. Qed.

(** ** Binning a sorted series *)

Lemma below_sorted_prefix (s : Series) r :
  StronglySorted Z.lt (index s) ->
  count_below r (index s)
  = List.length (filter (fun p => fst p <? r) s)
  /\ firstn (count_below r (index s)) s = filter (fun p => fst p <? r) s.
Proof.
  induction s as [|[t v] s' IH]; intros Hs.
  - split; reflexivity.
  - apply sorted_index_cons in Hs as [Hs Hgt].
    cbn [index map fst count_below filter].
    destruct (Z.ltb_spec t r) as [Hlt|Hge].
    + destruct (IH Hs) as [IH1 IH2]. fold (index s').
      cbn [List.length firstn]. now rewrite IH2, IH1.
    + assert (E : filter (fun p => fst p <? r) s' = []).
      { rewrite (filter_ext_in _ (fun _ => false)); [apply filter_false|].
        intros p Hp. rewrite Forall_forall in Hgt. apply Hgt in Hp.
        apply Z.ltb_ge. lia. }
      rewrite E. split; reflexivity.
Qed.

(** Past the labels below [a], the labels below [r] are those of the
    window from [a] to [r]. *)
Lemma count_below_window (s : Series) a r :
  StronglySorted Z.lt (index s) -> a <= r ->
  let lo := count_below a (index s) in
  let n := count_below r (skipn lo (index s)) in
  (lo + n)%nat = count_below r (index s)
  /\ firstn n (skipn lo s) = in_window a (r - a) s.
Proof.
  intros Hs Har. cbn zeta.
  induction s as [|[t v] s' IH].
  - split; reflexivity.
  - pose proof Hs as Hs0.
    apply sorted_index_cons in Hs as [Hs Hgt].
    unfold in_window.
    cbn [index map fst count_below filter]. fold (index s').
    destruct (Z.ltb_spec t a) as [Hlt|Hge].
    + destruct (IH Hs) as [IH1 IH2].
      cbn [skipn]. destruct (Z.ltb_spec t r); [|lia].
      destruct (Z.leb_spec a t); [lia|]. cbn [andb].
      split; [now rewrite <- IH1 | exact IH2].
    + cbn [skipn].
      destruct (below_sorted_prefix _ r Hs0) as [B1 B2].
      cbn [index map fst] in B1, B2. fold (index s') in B1, B2.
      split; [reflexivity|].
      change (firstn (count_below r (t :: index s')) ((t, v) :: s')
              = filter (fun p => (a <=? fst p) && (fst p <? a + (r - a)))
                       ((t, v) :: s')).
      rewrite B2. apply filter_ext_in. intros p Hp.
      assert (a <= fst p).
      { destruct Hp as [<-|Hp]; [exact Hge|].
        rewrite Forall_forall in Hgt. apply Hgt in Hp. lia. }
      replace (a + (r - a)) with r by lia.
      destruct (Z.leb_spec a (fst p)); [reflexivity | lia].
Qed.

Lemma scan_bins_length values j right_edges :
  List.length (scan_bins values j right_edges) = List.length right_edges.
Proof.
  revert j. induction right_edges as [|r rest IH]; intros j; cbn;
    [reflexivity | now rewrite IH].
Qed.

(** The rows between consecutive bin positions are the samples of the
    consecutive windows. *)
Lemma slices_scan_bins (s : Series) width :
  StronglySorted Z.lt (index s) -> 0 < width ->
  forall m e0,
    slices (scan_bins (index s) (count_below e0 (index s))
              (grid (e0 + width) width m))
           (count_below e0 (index s)) s
    = map (fun t => in_window t width s) (grid e0 width m).
Proof.
  intros Hs Hw. induction m as [|m IH]; intros e0.
  - reflexivity.
  - rewrite !grid_S. cbn [scan_bins slices map].
    destruct (count_below_window s e0 (e0 + width) Hs ltac:(lia)) as [C1 C2].
    cbn zeta in C1, C2.
    replace (e0 + width - e0) with width in C2 by lia.
    f_equal.
    + rewrite <- C2. f_equal. lia.
    + rewrite C1. apply IH.
Qed.


Lemma combine_map_self {A B} (g : A -> B) (l : list A) :
  combine l (map g l) = map (fun x => (x, g x)) l.
Proof. induction l as [|x l IH]; cbn; [reflexivity | now rewrite IH]. Qed.

(** ** Resampling to means *)

(** The first bin edge lies on the grid of the origin, at or before the
    first label and less than one bin before it; the last edge is the end
    of the bin of the last label. *)
Lemma adjust_edges off first last freq :
  0 < freq -> first <= last ->
  let first_edge := first - (first - normalize off first) mod freq in
  let bins := Z.to_nat ((last - first_edge) / freq + 1) in
  _adjust_dates_anchored off first last freq
  = (first_edge, first_edge + Z.of_nat bins * freq)
  /\ first_edge <= first < first_edge + freq
  /\ last < first_edge + Z.of_nat bins * freq
  /\ (first_edge - normalize off first) mod freq = 0.
Proof.
  intros Hf Hle first_edge bins. subst first_edge bins.
  unfold _adjust_dates_anchored.
  set (origin := normalize off first).
  pose proof (Z.mod_pos_bound (first - origin) freq Hf) as Bf.
  pose proof (Z.mod_pos_bound (last - origin) freq Hf) as Bl.
  pose proof (Z.div_mod (first - origin) freq ltac:(lia)) as Df.
  set (foffset := (first - origin) mod freq) in *.
  set (q0 := (first - origin) / freq) in *.
  assert (El : (last - (first - foffset)) mod freq = (last - origin) mod freq).
  { replace (last - (first - foffset))
      with (last - origin + (- q0) * freq) by lia.
    apply Z.mod_add. lia. }
  pose proof (Z.div_mod (last - (first - foffset)) freq ltac:(lia)) as Dl.
  rewrite El in Dl.
  assert (Hq : 0 <= (last - (first - foffset)) / freq)
    by (apply Z.div_pos; lia).
  set (loffset := (last - origin) mod freq) in *.
  set (q := (last - (first - foffset)) / freq) in *.
  replace (Z.of_nat (Z.to_nat (q + 1))) with (q + 1) by lia.
  split.
  { f_equal.
    - destruct (Z.ltb_spec 0 foffset); lia.
    - destruct (Z.ltb_spec 0 loffset); lia. }
  split; [lia|]. split; [lia|].
  replace (first - foffset - origin) with (q0 * freq) by lia.
  apply Z.mod_mul. lia.
Qed.

Lemma sorted_increasing l :
  StronglySorted Z.lt l -> is_monotonic_increasing l = true.
Proof.
  induction l as [|a [|b l] IH]; intros H; try reflexivity.
  inversion H as [|? ? Hs Hall]; subst.
  rewrite is_monotonic_increasing_cons, (IH Hs).
  inversion Hall as [|? ? Hab _]; subst.
  destruct (Z.leb_spec a b); [reflexivity | lia].
Qed.

Lemma sorted_first_le_last first rest :
  StronglySorted Z.lt (first :: rest) ->
  first <= List.last (first :: rest) first.
Proof.
  intros H. inversion H as [|? ? _ Hall]; subst.
  destruct rest as [|b rest]; [cbn; lia|].
  rewrite Forall_forall in Hall.
  assert (In (List.last (b :: rest) first) (b :: rest)).
  { destruct (exists_last (l := b :: rest) ltac:(discriminate))
      as (l' & x & E).
    rewrite E, last_last. apply in_or_app. right. now left. }
  change (List.last (first :: b :: rest) first)
    with (List.last (b :: rest) first).
  apply Hall in H0. lia.
Qed.




Lemma generate_bins_grid first rest first_edge freq bins :
  first_edge <= first ->
  List.last (first :: rest) first <= first_edge + Z.of_nat bins * freq ->
  generate_bins_dt64 (first :: rest) (grid first_edge freq (S bins))
  = Ok (scan_bins (first :: rest) 0 (grid (first_edge + freq) freq bins)).
Proof.
  intros Hfirst Hlast. rewrite grid_S. unfold generate_bins_dt64.
  destruct (Z.ltb_spec first first_edge); [lia|].
  rewrite <- grid_S, last_grid.
  destruct (Z.ltb_spec (first_edge + Z.of_nat bins * freq)
              (List.last (first :: rest) first)); [lia | reflexivity].
Qed.

(** The means of a sorted series over bins of a positive width: one row per
    bin from the bin of the first label to the bin of the last, labelled
    with the bin's left edge and holding the mean of the samples in the
    bin. *)
Lemma resample_mean_sorted off (s : Series) freq first rest :
  index s = first :: rest ->
  StronglySorted Z.lt (index s) -> 0 < freq ->
  let last := List.last (index s) first in
  let first_edge := first - (first - normalize off first) mod freq in
  let bins := Z.to_nat ((last - first_edge) / freq + 1) in
  resample_mean off s freq
  = Ok (map (fun t => (t, group_mean (map snd (in_window t freq s))))
            (grid first_edge freq bins)).
Proof.
  intros Hshape Hs Hf last first_edge bins.
  assert (Hle : first <= last).
  { subst last. rewrite Hshape in Hs |- *. now apply sorted_first_le_last. }
  destruct (adjust_edges off first last freq Hf Hle) as (Ha & Hfe & Hla & _).
  fold first_edge in Ha, Hfe, Hla. fold bins in Ha, Hla.
  assert (Hz : count_below first_edge (index s) = 0%nat).
  { rewrite Hshape. cbn [count_below].
    destruct (Z.ltb_spec first first_edge); [lia | reflexivity]. }
  pose proof (slices_scan_bins s freq Hs Hf bins first_edge) as Hslices.
  rewrite Hz in Hslices.
  unfold resample_mean.
  destruct (Z.leb_spec freq 0); [lia|].
  rewrite (sorted_increasing _ Hs).
  destruct (index s) as [|first' rest'] eqn:Hidx; [discriminate|].
  injection Hshape as -> ->.
  fold last. rewrite Ha.
  rewrite date_range_both_exact by assumption. cbn [bind].
  rewrite generate_bins_grid; [|lia|fold last; lia]. cbn [bind].
  rewrite scan_bins_length, grid_length, firstn_grid by lia.
  rewrite Hslices, map_map. rewrite combine_map_self. reflexivity.
Qed.






(** * Further properties *)

(** ** Completeness checks, continued *)

(** X1.  Over a range of at least one resolution period, data that has a
    column and passes the completeness check has at least one row, so it
    passes the emptiness check as well. *)
Theorem complete_data_is_not_empty
    (data : Data) (from_time until_time : Timestamp) (resolution : Timedelta) :
  Timestamp_lt from_time until_time -> 0 < resolution ->
  resolution <= value until_time - value from_time ->
  has_columns data ->
  abort_if_data_incomplete data from_time until_time resolution = ([], Ok tt) ->
  abort_if_data_empty data = ([], Ok tt).
Proof.
  intros [Haware Hlt] Hres Hspan Hcols Hpass.
  destruct (int_of_quotient_ge_1 (value until_time - value from_time)
              resolution ltac:(lia)) as (expected & E & Hone).
  rewrite <- (expected_periods_quotient _ _ _ Haware) in E.
  rewrite (abort_if_data_incomplete_cases data _ _ _ _ E) in Hpass.
  destruct (Z.ltb_spec (len data) expected) as [|Hlen]; [discriminate|].
  unfold abort_if_data_empty.
  destruct data as [s|df]; cbn [empty len has_columns] in *.
  - destruct (Z.eqb_spec (Z.of_nat (List.length s)) 0); [lia | reflexivity].
  - destruct (Z.eqb_spec (Z.of_nat (List.length (df_index df))) 0); [lia|].
    destruct (df_columns df); [contradiction | reflexivity].
Qed.

Lemma complete_data_is_not_empty_witness :
  abort_if_data_empty (frame_of_rows 24) = ([], Ok tt).
Proof.
  apply (complete_data_is_not_empty (frame_of_rows 24)
           (naive_timestamp (20089 * ns_per_day))
           (naive_timestamp (20090 * ns_per_day)) (Timedelta_hours 1)).
  - split; [reflexivity | vm_compute; reflexivity].
  - reflexivity.
  - vm_compute. discriminate.
  - cbn. discriminate.
  - vm_compute. reflexivity.
Defined.

(** X2.  A range that ends at or before its start is never reported
    incomplete: the expected count is zero or negative, and the check
    returns for every data, empty data included. *)
Theorem reversed_range_always_complete
    (data : Data) (from_time until_time : Timestamp) (resolution : Timedelta) :
  tz_aware from_time = tz_aware until_time ->
  value until_time <= value from_time -> 0 < resolution ->
  abort_if_data_incomplete data from_time until_time resolution = ([], Ok tt).
Proof.
  intros Haware Hrev Hres.
  destruct (int_of_quotient_nonpos (value until_time - value from_time)
              resolution ltac:(lia) Hres) as (expected & E & Hq).
  rewrite <- (expected_periods_quotient _ _ _ Haware) in E.
  rewrite (abort_if_data_incomplete_cases data _ _ _ _ E).
  destruct (Z.ltb_spec (len data) expected); [|reflexivity].
  exfalso. destruct data; cbn [len] in *; lia.
Qed.

Lemma reversed_range_always_complete_witness :
  abort_if_data_incomplete (OfSeries [])
    (naive_timestamp (20211 * ns_per_day))
    (naive_timestamp (20210 * ns_per_day)) (Timedelta_hours 1)
  = ([], Ok tt).
Proof.
  apply reversed_range_always_complete.
  - reflexivity.
  - vm_compute. discriminate.
  - reflexivity.
Defined.

(** ** Date ranges, continued *)

(** X3.  A timezone name that pytz does not know makes the call raise
    [UnknownTimeZoneError] for that name, whatever the bounds and the
    policy: the zone is looked up before the policy is checked. *)
Theorem unknown_timezone_raises
    (env : Env) (from_date until_date : option datetime)
    (country_timezone default_to : string) :
  tzdb env country_timezone = None ->
  parse_from_and_to_dates env from_date until_date country_timezone default_to
  = Raise (UnknownTimeZoneError country_timezone).
Proof.
  intros Hzone. unfold parse_from_and_to_dates, pytz_timezone.
  now rewrite Hzone.
Qed.

Lemma unknown_timezone_raises_witness :
  parse_from_and_to_dates env_2025_05_01 None (Some (naive_date 20210))
    "Mars/Olympus" "yesterday"
  = Raise (UnknownTimeZoneError "Mars/Olympus").
Proof. apply unknown_timezone_raises. reflexivity. Defined.

Lemma parse_unfold env from_date until_date country_timezone default_to tz
    default_start default_end :
  tzdb env country_timezone = Some tz ->
  default_range (replace_midnight (datetime_now tz (clock env))) default_to
  = Ok (default_start, default_end) ->
  parse_from_and_to_dates env from_date until_date country_timezone default_to
  = (start_date <-
       match from_date with
       | None => Ok (Timestamp_of_datetime default_start)
       | Some d => Timestamp_in_zone d tz
       end ;;
     end_date <-
       match until_date with
       | None => Ok (Timestamp_of_datetime default_end)
       | Some d => end_date <- Timestamp_in_zone d tz ;;
                   Ok (Timestamp_add end_date (Timedelta_hours 24))
       end ;;
     Ok (start_date, end_date)).
Proof.
  intros Hzone Hr. unfold parse_from_and_to_dates, pytz_timezone.
  rewrite Hzone. cbn [bind]. rewrite Hr. cbn [bind].
  destruct from_date, until_date; reflexivity.
Qed.

(** X4.  With the same day given as [from_date] and as [until_date], the
    range is exactly 24 hours long: "00:00 and 24:00 of that day". *)
Theorem same_day_spans_24_hours
    (env : Env) (D : datetime) (country_timezone default_to : string)
    (tz : timezone) (start_of_day : Timestamp) :
  tzdb env country_timezone = Some tz ->
  valid_policy default_to ->
  Timestamp_in_zone D tz = Ok start_of_day ->
  exists end_date,
    parse_from_and_to_dates env (Some D) (Some D) country_timezone default_to
    = Ok (start_of_day, end_date)
    /\ Timestamp_sub end_date start_of_day = Ok (Timedelta_hours 24).
Proof.
  intros Hzone Hpolicy HD.
  destruct (default_range_valid
              (replace_midnight (datetime_now tz (clock env))) default_to Hpolicy)
    as (ds & de & Hr & _).
  exists (Timestamp_add start_of_day (Timedelta_hours 24)). split.
  - rewrite (parse_unfold _ _ _ _ _ _ _ _ Hzone Hr), HD. reflexivity.
  - unfold Timestamp_sub, tz_aware, Timestamp_add. cbn [value ts_tzinfo].
    destruct (ts_tzinfo start_of_day); cbn [option_map Bool.eqb];
      now rewrite Z.add_simpl_l.
Qed.

Lemma same_day_spans_24_hours_witness :
  exists end_date,
    parse_from_and_to_dates env_2025_05_01
      (Some (naive_date 20209)) (Some (naive_date 20209))
      "Europe/Amsterdam" "today"
    = Ok (localized europe_amsterdam (naive_date 20209) (2 * us_per_hour),
          end_date)
    /\ Timestamp_sub end_date
         (localized europe_amsterdam (naive_date 20209) (2 * us_per_hour))
       = Ok (Timedelta_hours 24).
Proof.
  apply (same_day_spans_24_hours env_2025_05_01 (naive_date 20209)
           "Europe/Amsterdam" "today" europe_amsterdam).
  - reflexivity.
  - left; reflexivity.
  - reflexivity.
Defined.

(** X5.  A bound that is omitted takes the value it has in the default
    range, whatever the other bound is: with only [until_date] given the
    start is the default start, with only [from_date] given the end is the
    default end. *)
Theorem omitted_bound_is_default
    (env : Env) (D : datetime) (country_timezone default_to : string)
    (tz : timezone) (given : Timestamp) :
  tzdb env country_timezone = Some tz ->
  valid_policy default_to ->
  Timestamp_in_zone D tz = Ok given ->
  exists default_start default_end,
    parse_from_and_to_dates env None None country_timezone default_to
    = Ok (default_start, default_end)
    /\ parse_from_and_to_dates env None (Some D) country_timezone default_to
       = Ok (default_start, Timestamp_add given (Timedelta_hours 24))
    /\ parse_from_and_to_dates env (Some D) None country_timezone default_to
       = Ok (given, default_end).
Proof.
  intros Hzone Hpolicy HD.
  destruct (default_range_valid
              (replace_midnight (datetime_now tz (clock env))) default_to Hpolicy)
    as (ds & de & Hr & _).
  exists (Timestamp_of_datetime ds), (Timestamp_of_datetime de).
  rewrite !(parse_unfold _ _ _ _ _ _ _ _ Hzone Hr), HD.
  repeat split; reflexivity.
Qed.

Lemma omitted_bound_is_default_witness :
  exists default_start default_end,
    parse_from_and_to_dates env_2025_05_01 None None "UTC" "today-and-tomorrow"
    = Ok (default_start, default_end)
    /\ parse_from_and_to_dates env_2025_05_01 None (Some (naive_date 20210))
         "UTC" "today-and-tomorrow"
       = Ok (default_start,
             Timestamp_add (localized utc (naive_date 20210) 0)
               (Timedelta_hours 24))
    /\ parse_from_and_to_dates env_2025_05_01 (Some (naive_date 20210)) None
         "UTC" "today-and-tomorrow"
       = Ok (localized utc (naive_date 20210) 0, default_end).
Proof.
  apply (omitted_bound_is_default env_2025_05_01 (naive_date 20210) "UTC"
           "today-and-tomorrow" utc).
  - reflexivity.
  - right; right; reflexivity.
  - reflexivity.
Defined.

Lemma datetime_add_add d a b :
  datetime_add (datetime_add d a) b = datetime_add d (a + b).
Proof.
  unfold datetime_add at 1. rewrite wall_us_datetime_add.
  unfold datetime_add, datetime_of_wall. cbn [dt_tzinfo].
  now rewrite Z.add_assoc.
Qed.

(** X6.  The default range of "today-and-tomorrow" is the range of "today"
    followed by the range of "tomorrow": it starts where "today" starts,
    "tomorrow" starts where "today" ends, and it ends where "tomorrow"
    ends. *)
Theorem today_and_tomorrow_is_both
    (env : Env) (country_timezone : string) (tz : timezone) :
  tzdb env country_timezone = Some tz ->
  exists t0 t1 t2,
    parse_from_and_to_dates env None None country_timezone "today"
    = Ok (t0, t1)
    /\ parse_from_and_to_dates env None None country_timezone "tomorrow"
       = Ok (t1, t2)
    /\ parse_from_and_to_dates env None None country_timezone
         "today-and-tomorrow"
       = Ok (t0, t2).
Proof.
  intros Hzone.
  set (today_start := replace_midnight (datetime_now tz (clock env))).
  exists (Timestamp_of_datetime today_start),
         (Timestamp_of_datetime (datetime_add today_start (days 1))),
         (Timestamp_of_datetime (datetime_add today_start (days 2))).
  unfold parse_from_and_to_dates, pytz_timezone. rewrite Hzone. cbn [bind].
  fold today_start. repeat split.
  change (default_range today_start "tomorrow")
    with (Ok (datetime_add today_start (days 1),
              datetime_add (datetime_add today_start (days 1)) (days 1))).
  cbn [bind]. rewrite datetime_add_add. reflexivity.
Qed.

Lemma today_and_tomorrow_is_both_witness :
  exists t0 t1 t2,
    parse_from_and_to_dates env_2025_03_30 None None "Europe/Amsterdam" "today"
    = Ok (t0, t1)
    /\ parse_from_and_to_dates env_2025_03_30 None None "Europe/Amsterdam"
         "tomorrow"
       = Ok (t1, t2)
    /\ parse_from_and_to_dates env_2025_03_30 None None "Europe/Amsterdam"
         "today-and-tomorrow"
       = Ok (t0, t2).
Proof.
  apply (today_and_tomorrow_is_both env_2025_03_30 "Europe/Amsterdam"
           europe_amsterdam).
  reflexivity.
Defined.

(** X7.  In a zone without transitions, such as UTC, the default range
    starts and ends at midnight on the zone's clock. *)
Theorem fixed_offset_defaults_at_midnight
    (env : Env) (country_timezone default_to : string) (tz : timezone) (c : Z) :
  tzdb env country_timezone = Some tz ->
  valid_policy default_to ->
  fixed_offset tz c ->
  exists start_date end_date,
    parse_from_and_to_dates env None None country_timezone default_to
    = Ok (start_date, end_date)
    /\ local_midnight tz start_date
    /\ local_midnight tz end_date.
Proof.
  intros Hzone Hpolicy [Hc _].
  destruct (parse_defaults env country_timezone default_to tz Hzone Hpolicy)
    as (s & e & Hp & Hs & He & _).
  exists s, e. split; [exact Hp|].
  rewrite Hs in He. clear Hp. rewrite Hc in Hs, He.
  set (m := (clock env + c) / us_per_day) in *.
  set (k := fst (policy_days default_to)) in *.
  set (n := snd (policy_days default_to)) in *.
  assert (Es : value s = (m * us_per_day + k * us_per_day - c) * ns_per_us)
    by lia.
  assert (Ee : value e
               = (m * us_per_day + (k + n) * us_per_day - c) * ns_per_us)
    by (unfold ns_per_day in He; lia).
  unfold local_midnight. rewrite Es, Ee.
  rewrite !Z.div_mul, !Z.mod_mul, !Hc by discriminate.
  split; (split; [reflexivity|]).
  - replace (m * us_per_day + k * us_per_day - c + c)
      with ((m + k) * us_per_day) by lia.
    apply Z.mod_mul. discriminate.
  - replace (m * us_per_day + (k + n) * us_per_day - c + c)
      with ((m + k + n) * us_per_day) by lia.
    apply Z.mod_mul. discriminate.
Qed.

Lemma utc_fixed_offset : fixed_offset utc 0.
Proof. split; reflexivity. Qed.

Lemma fixed_offset_defaults_at_midnight_witness :
  exists start_date end_date,
    parse_from_and_to_dates env_2025_05_01 None None "UTC" "tomorrow"
    = Ok (start_date, end_date)
    /\ local_midnight utc start_date
    /\ local_midnight utc end_date.
Proof.
  apply (fixed_offset_defaults_at_midnight env_2025_05_01 "UTC" "tomorrow"
           utc 0).
  - reflexivity.
  - right; left; reflexivity.
  - exact utc_fixed_offset.
Defined.

(** X8.  In a zone without transitions, the default range of "today" is the
    range the call returns when today's date is given as both bounds. *)
Theorem default_today_is_explicit_today
    (env : Env) (country_timezone default_to : string) (tz : timezone) (c : Z) :
  tzdb env country_timezone = Some tz ->
  valid_policy default_to ->
  fixed_offset tz c ->
  parse_from_and_to_dates env
    (Some (today_date tz (clock env))) (Some (today_date tz (clock env)))
    country_timezone default_to
  = parse_from_and_to_dates env None None country_timezone "today".
Proof.
  intros Hzone Hpolicy [Hc Hl].
  destruct (default_range_valid
              (replace_midnight (datetime_now tz (clock env))) default_to Hpolicy)
    as (ds & de & Hr & _).
  set (ts := replace_midnight (datetime_now tz (clock env))) in *.
  rewrite (parse_unfold _ _ _ _ _ _ _ _ Hzone Hr).
  rewrite (parse_unfold env None None country_timezone "today" tz ts
             (datetime_add ts (days 1)) Hzone eq_refl).
  assert (Hi : fromutc tz (clock env) = {| tz_rules := tz; utcoffset := c |})
    by (unfold fromutc; now rewrite Hc).
  assert (E0 : Timestamp_in_zone (today_date tz (clock env)) tz
               = Ok {| value := ns_per_us * (wall_us ts - c);
                       ts_tzinfo := Some {| tz_rules := tz; utcoffset := c |} |}).
  { unfold Timestamp_in_zone. cbn [today_date dt_tzinfo]. rewrite Hl.
    reflexivity. }
  assert (E1 : Timestamp_of_datetime ts
               = {| value := ns_per_us * (wall_us ts - c);
                    ts_tzinfo := Some {| tz_rules := tz; utcoffset := c |} |}).
  { unfold Timestamp_of_datetime.
    change (dt_tzinfo ts) with (Some (fromutc tz (clock env))).
    rewrite Hi. reflexivity. }
  assert (E2 : Timestamp_of_datetime (datetime_add ts (days 1))
               = {| value := ns_per_us * (wall_us ts + days 1 - c);
                    ts_tzinfo := Some {| tz_rules := tz; utcoffset := c |} |}).
  { unfold Timestamp_of_datetime. rewrite wall_us_datetime_add.
    change (dt_tzinfo (datetime_add ts (days 1)))
      with (Some (fromutc tz (clock env))).
    rewrite Hi. reflexivity. }
  rewrite E0, E1, E2. cbn [bind]. unfold Timestamp_add.
  cbn [value ts_tzinfo option_map tz_rules]. unfold fromutc. rewrite Hc.
  replace (ns_per_us * (wall_us ts - c) + Timedelta_hours 24)
    with (ns_per_us * (wall_us ts + days 1 - c)); [reflexivity|].
  change (Timedelta_hours 24) with (ns_per_us * days 1). lia.
Qed.

Lemma default_today_is_explicit_today_witness :
  parse_from_and_to_dates env_2025_05_01
    (Some (today_date utc (clock env_2025_05_01)))
    (Some (today_date utc (clock env_2025_05_01))) "UTC" "tomorrow"
  = parse_from_and_to_dates env_2025_05_01 None None "UTC" "today".
Proof.
  apply (default_today_is_explicit_today env_2025_05_01 "UTC" "tomorrow"
           utc 0).
  - reflexivity.
  - right; left; reflexivity.
  - exact utc_fixed_offset.
Defined.

Lemma default_range_tzinfo today_start p default_start default_end :
  default_range today_start p = Ok (default_start, default_end) ->
  dt_tzinfo default_start = dt_tzinfo today_start
  /\ dt_tzinfo default_end = dt_tzinfo today_start.
Proof.
  unfold default_range.
  destruct (p =? "today")%string; [intros [= <- <-]; split; reflexivity|].
  destruct (p =? "tomorrow")%string; [intros [= <- <-]; split; reflexivity|].
  destruct (p =? "today-and-tomorrow")%string;
    [intros [= <- <-]; split; reflexivity | discriminate].
Qed.

(** X9.  Every range the call returns has a timezone on both ends, whatever
    the bounds, so the completeness check can subtract them: with a
    resolution other than zero the check computes an expected number of
    periods and raises neither [TypeError] nor [ZeroDivisionError]. *)
Theorem resolved_range_is_aware
    (env : Env) (from_date until_date : option datetime)
    (country_timezone default_to : string) (start_date end_date : Timestamp)
    (resolution : Timedelta) :
  parse_from_and_to_dates env from_date until_date country_timezone default_to
  = Ok (start_date, end_date) ->
  resolution <> 0 ->
  tz_aware start_date = true /\ tz_aware end_date = true
  /\ exists expected,
       expected_periods start_date end_date resolution = Ok expected.
Proof.
  intros Hparse Hres.
  assert (Haware : tz_aware start_date = true /\ tz_aware end_date = true).
  { unfold parse_from_and_to_dates, pytz_timezone in Hparse.
    destruct (tzdb env country_timezone) as [tz|]; [|discriminate].
    cbn [bind] in Hparse.
    destruct (default_range _ default_to) as [[ds de]|] eqn:Hr;
      [|discriminate].
    apply default_range_tzinfo in Hr as [Tds Tde].
    cbn [bind] in Hparse.
    assert (Hds : tz_aware (Timestamp_of_datetime ds) = true)
      by (unfold tz_aware, Timestamp_of_datetime; cbn [ts_tzinfo];
          now rewrite Tds).
    assert (Hde : tz_aware (Timestamp_of_datetime de) = true)
      by (unfold tz_aware, Timestamp_of_datetime; cbn [ts_tzinfo];
          now rewrite Tde).
    destruct from_date as [d1|], until_date as [d2|]; cbn [bind] in Hparse.
    - destruct (Timestamp_in_zone d1 tz) as [s1|] eqn:E1; [|discriminate].
      destruct (Timestamp_in_zone d2 tz) as [s2|] eqn:E2; [|discriminate].
      cbn [bind] in Hparse. injection Hparse as <- <-.
      apply Timestamp_in_zone_aware in E1, E2. split; [exact E1|].
      unfold tz_aware, Timestamp_add in *. cbn [ts_tzinfo].
      destruct (ts_tzinfo s2); [reflexivity | discriminate].
    - destruct (Timestamp_in_zone d1 tz) as [s1|] eqn:E1; [|discriminate].
      cbn [bind] in Hparse. injection Hparse as <- <-.
      apply Timestamp_in_zone_aware in E1. split; assumption.
    - destruct (Timestamp_in_zone d2 tz) as [s2|] eqn:E2; [|discriminate].
      cbn [bind] in Hparse. injection Hparse as <- <-.
      apply Timestamp_in_zone_aware in E2. split; [assumption|].
      unfold tz_aware, Timestamp_add in *. cbn [ts_tzinfo].
      destruct (ts_tzinfo s2); [reflexivity | discriminate].
    - injection Hparse as <- <-. split; assumption. }
  destruct Haware as [Hs He]. split; [exact Hs|]. split; [exact He|].
  rewrite expected_periods_quotient by congruence.
  unfold int_of_quotient.
  destruct (Z.eqb_spec resolution 0); [contradiction|].
  eexists. reflexivity.
Qed.

Lemma resolved_range_is_aware_witness :
  exists start_date end_date,
    parse_from_and_to_dates env_2025_05_01 (Some (naive_date 20209)) None
      "UTC" "today"
    = Ok (start_date, end_date)
    /\ tz_aware start_date = true /\ tz_aware end_date = true
    /\ exists expected,
         expected_periods start_date end_date (Timedelta_hours 1)
         = Ok expected.
Proof.
  eexists. eexists. split; [reflexivity|].
  refine (resolved_range_is_aware env_2025_05_01
            (Some (naive_date 20209)) None "UTC" "today"
            _ _ (Timedelta_hours 1) eq_refl _).
  discriminate.
Defined.

(** X10.  For the default range the completeness check expects the periods
    of one or two days of 24 hours, whatever the zone and the date: data
    passes exactly when it has that many rows. *)
Theorem default_range_expected_periods
    (env : Env) (country_timezone default_to : string) (tz : timezone)
    (data : Data) (resolution : Timedelta) :
  tzdb env country_timezone = Some tz ->
  valid_policy default_to ->
  0 < resolution ->
  exists start_date end_date,
    parse_from_and_to_dates env None None country_timezone default_to
    = Ok (start_date, end_date)
    /\ expected_periods start_date end_date resolution
       = Ok (snd (policy_days default_to) * ns_per_day / resolution)
    /\ (abort_if_data_incomplete data start_date end_date resolution
        = ([], Ok tt)
        <-> snd (policy_days default_to) * ns_per_day / resolution
            <= len data).
Proof.
  intros Hzone Hpolicy Hres.
  destruct (parse_defaults env country_timezone default_to tz Hzone Hpolicy)
    as (s & e & Hp & _ & He & Ts & Te).
  exists s, e. split; [exact Hp|].
  assert (Hpos : 0 < snd (policy_days default_to) * ns_per_day)
    by (pattern default_to;
        apply valid_policy_cases; [exact Hpolicy | | |]; reflexivity).
  assert (Haware : tz_aware s = tz_aware e)
    by (unfold tz_aware; now rewrite Ts, Te).
  assert (Hbound : snd (policy_days default_to) * ns_per_day < 2 ^ 53)
    by (pattern default_to;
        apply valid_policy_cases; [exact Hpolicy | | |]; reflexivity).
  pose proof (expected_periods_floor s e resolution Haware ltac:(lia) Hres)
    as E.
  replace (value e - value s)
    with (snd (policy_days default_to) * ns_per_day) in E by lia.
  split; [exact E|].
  rewrite (abort_if_data_incomplete_cases data _ _ _ _ E).
  destruct (Z.ltb_spec (len data)
              (snd (policy_days default_to) * ns_per_day / resolution)).
  - split; [discriminate | lia].
  - split; [lia | reflexivity].
Qed.

Lemma default_range_expected_periods_witness :
  exists start_date end_date,
    parse_from_and_to_dates env_2025_03_30 None None "Europe/Amsterdam"
      "today-and-tomorrow"
    = Ok (start_date, end_date)
    /\ expected_periods start_date end_date (Timedelta_hours 1 / 4) = Ok 192.
Proof.
  destruct (default_range_expected_periods env_2025_03_30 "Europe/Amsterdam"
              "today-and-tomorrow" europe_amsterdam (OfSeries [])
              (Timedelta_hours 1 / 4))
    as (s & e & Hp & He & _).
  - reflexivity.
  - right; right; reflexivity.
  - reflexivity.
  - exists s, e. split; [exact Hp | exact He].
Defined.

(** ** Frequency inference on evenly spaced labels *)

Lemma is_unique_grid start step n :
  0 < step -> is_unique (grid start step n) = true.
Proof.
  intros Hstep. revert start. induction n as [|n IH]; intros start.
  - reflexivity.
  - rewrite grid_S. cbn [is_unique]. rewrite IH, andb_true_r.
    destruct (existsb (Z.eqb start) (grid (start + step) step n)) eqn:E;
      [|reflexivity].
    apply existsb_exists in E as (x & Hx & Ex). apply Z.eqb_eq in Ex.
    apply In_grid in Hx as (k & _ & Hk). nia.
Qed.

Lemma diffs_grid start step n :
  diffs (grid start step (S n)) = repeat step n.
Proof.
  revert start. induction n as [|n IH]; intros start.
  - reflexivity.
  - rewrite grid_S. specialize (IH (start + step)).
    rewrite grid_S in IH |- *. cbn [diffs repeat]. rewrite <- IH.
    f_equal. lia.
Qed.

Lemma unique_deltas_grid start step n :
  unique_deltas (grid start step (S (S n))) = [step].
Proof.
  unfold unique_deltas. rewrite diffs_grid.
  induction n as [|n IH]; cbn [repeat fold_right] in *.
  - reflexivity.
  - rewrite IH. cbn [insert_unique].
    now rewrite Z.ltb_irrefl, Z.eqb_refl.
Qed.

Lemma business_hours_single step : business_hours [step] = false.
Proof.
  unfold business_hours. cbn [list_eqb]. now rewrite !andb_false_r.
Qed.

Section InferenceOnGrids.

Variables calendar_rule business_rule : list Z -> option string.
Variables (start step : Z) (n : nat).
Hypothesis Hstep : 0 < step.
Hypothesis Hn : (3 <= n)%nat.

Lemma infer_freq_grid_unfold :
  infer_freq calendar_rule business_rule (grid start step n)
  = if step mod ns_per_day =? 0
    then Ok (_infer_daily_rule calendar_rule business_rule
               (grid start step n) [step])
    else Ok (Some (Tick step)).
Proof.
  unfold infer_freq. rewrite grid_length.
  destruct (Nat.ltb_spec n 3); [lia|].
  rewrite grid_increasing, is_unique_grid by assumption.
  cbn [orb andb negb].
  destruct n as [|[|m]]; try lia.
  rewrite unique_deltas_grid. cbn [hd].
  destruct (Z.eqb_spec step 0); [lia|]. cbn [negb andb].
  destruct (step mod ns_per_day =? 0); [reflexivity|].
  now rewrite business_hours_single.
Qed.

(** Labels evenly spaced by a positive step that is not a whole number of
    days have that step as their frequency. *)
Lemma infer_freq_grid_intraday :
  step mod ns_per_day <> 0 ->
  infer_freq calendar_rule business_rule (grid start step n)
  = Ok (Some (Tick step)).
Proof.
  intros Hday. rewrite infer_freq_grid_unfold.
  destruct (Z.eqb_spec (step mod ns_per_day) 0); [contradiction|reflexivity].
Qed.

(** Labels evenly spaced by whole weeks have a calendar rule as their
    frequency, not a fixed duration. *)
Lemma infer_freq_grid_weeks :
  step mod (7 * ns_per_day) = 0 ->
  exists rule,
    infer_freq calendar_rule business_rule (grid start step n)
    = Ok (Some (NonTick rule)).
Proof.
  intros Hweek. rewrite infer_freq_grid_unfold.
  apply Z.mod_divide in Hweek; [|discriminate].
  destruct Hweek as [w Hw].
  assert (Hd : step mod ns_per_day = 0).
  { rewrite Hw. replace (w * (7 * ns_per_day)) with (w * 7 * ns_per_day) by lia.
    apply Z.mod_mul. discriminate. }
  rewrite Hd. cbn [Z.eqb]. unfold _infer_daily_rule.
  destruct (calendar_rule (grid start step n)) as [rule|];
    [now exists rule|].
  unfold _get_daily_rule.
  replace (step / ns_per_day) with (w * 7).
  2:{ rewrite Hw. replace (w * (7 * ns_per_day)) with (w * 7 * ns_per_day)
        by lia. now rewrite Z.div_mul by discriminate. }
  rewrite Z.mod_mul by discriminate. cbn [Z.eqb]. now exists "W".
Qed.

End InferenceOnGrids.

(** ** Adapting a series, continued *)

(** X11.  A series sampled every whole number of weeks cannot be adapted:
    its frequency is a calendar rule, which has no fixed duration, and the
    call raises [ValueError] whatever the sensor's resolution. *)
Theorem weekly_series_raises
    (calendar_rule business_rule : list Z -> option string)
    (index_utcoffset : Z) (s : Series) (sensor : Sensor)
    (first weeks : Z) (n : nat) :
  index s = grid first (weeks * (7 * ns_per_day)) n ->
  0 < weeks -> (3 <= n)%nat ->
  exists msg,
    resample_if_needed calendar_rule business_rule index_utcoffset s sensor
    = Raise (ValueError msg).
Proof.
  intros Hidx Hweeks Hn.
  destruct (infer_freq_grid_weeks calendar_rule business_rule first
              (weeks * (7 * ns_per_day)) n) as [rule Hrule].
  - assert (0 < ns_per_day) by reflexivity. nia.
  - exact Hn.
  - apply Z.mod_mul. discriminate.
  - unfold resample_if_needed. rewrite Hidx, Hrule. cbn [bind to_timedelta].
    eexists. reflexivity.
Qed.

Lemma weekly_series_raises_witness :
  exists msg,
    resample_if_needed no_rule no_rule 0
      (combine (grid (20089 * ns_per_day) (7 * ns_per_day) 4)
               (map float_of_Q [1; 2; 3; 4]%Q))
      (sensor_with ns_per_day)
    = Raise (ValueError msg).
Proof.
  apply (weekly_series_raises no_rule no_rule 0 _ _ (20089 * ns_per_day) 1 4).
  - reflexivity.
  - reflexivity.
  - lia.
Defined.

Lemma index_map_pairs (g : Z -> cell) (l : list Z) :
  index (map (fun t => (t, g t)) l) = l.
Proof. unfold index. rewrite map_map. apply map_id. Qed.

(** What upsampling returns when the inferred resolution is [k] times the
    sensor's. *)
Lemma upsample_closed_form
    (calendar_rule business_rule : list Z -> option string)
    (index_utcoffset : Z) (s : Series) (sensor : Sensor) (d k : Z) :
  infer_freq calendar_rule business_rule (index s) = Ok (Some (Tick d)) ->
  0 < event_resolution sensor ->
  event_resolution sensor < d ->
  d = k * event_resolution sensor ->
  percent_free (name sensor) = true ->
  (3 <= List.length s)%nat
  /\ 1 < k
  /\ index s = grid (hd 0 (index s)) d (List.length s)
  /\ resample_if_needed calendar_rule business_rule index_utcoffset s sensor
     = Ok (map (fun t => (t, most_recent s t))
               (grid (hd 0 (index s)) (event_resolution sensor)
                     (List.length s * Z.to_nat k))).
Proof.
  intros Hfreq Hpos Hlt Hk Hname.
  destruct (infer_freq_tick _ _ _ _ Hfreq) as (Hlen & Hd0 & Huniq & Hidx).
  assert (Hls : List.length (index s) = List.length s)
    by (unfold index; apply length_map).
  rewrite Hls in Hlen, Hidx.
  remember (hd 0 (index s)) as t0 eqn:Ht0.
  remember (List.length s) as n eqn:Hn.
  remember (event_resolution sensor) as f eqn:Hf.
  assert (Hk1 : 1 < k) by nia.
  split; [exact Hlen|]. split; [exact Hk1|]. split; [exact Hidx|].
  destruct n as [|n']; [lia|].
  assert (Hlast : List.last (index s) 0 + d
                  = t0 + Z.of_nat (S n' * Z.to_nat k) * f).
  { rewrite Hidx, last_grid. nia. }
  assert (Hsorted : StronglySorted Z.lt (index s)).
  { rewrite Hidx. apply grid_sorted. lia. }
  assert (Hon : forall p, In p s ->
                  exists i : nat, fst p = t0 + Z.of_nat i * f).
  { intros p Hp. apply (in_map fst) in Hp. fold (index s) in Hp.
    rewrite Hidx in Hp. apply In_grid in Hp as (i & _ & Hi).
    exists (i * Z.to_nat k)%nat. rewrite Hi. nia. }
  unfold resample_if_needed. rewrite Hfreq. cbn [bind to_timedelta].
  rewrite <- Hf, <- Ht0.
  destruct (Z.eqb_spec d f); [lia|].
  destruct (Z.ltb_spec f d); [|lia].
  rewrite Hlast, date_range_left_exact by nia. cbn [bind].
  unfold reindex. rewrite Huniq. cbn [bind].
  rewrite Hf, (format_resampled_message sensor Hname). cbn [bind].
  f_equal. rewrite <- Hf. now apply pad_reindex_grid.
Qed.

(** X12.  Upsampling is stable: when the inferred resolution is a multiple
    of the sensor's resolution, the sensor's resolution is not a whole
    number of days and the sensor's name holds no [%], adapting the result
    again returns it unchanged. *)
Theorem upsample_twice
    (calendar_rule business_rule : list Z -> option string)
    (index_utcoffset : Z) (s : Series) (sensor : Sensor) (d : Timedelta) :
  infer_freq calendar_rule business_rule (index s) = Ok (Some (Tick d)) ->
  0 < event_resolution sensor ->
  event_resolution sensor < d ->
  (event_resolution sensor | d) ->
  event_resolution sensor mod ns_per_day <> 0 ->
  percent_free (name sensor) = true ->
  exists out,
    resample_if_needed calendar_rule business_rule index_utcoffset s sensor
    = Ok out
    /\ resample_if_needed calendar_rule business_rule index_utcoffset
         out sensor
       = Ok out.
Proof.
  intros Hfreq Hpos Hlt [k Hk] Hday Hname.
  destruct (upsample_closed_form _ _ index_utcoffset s sensor d k
              Hfreq Hpos Hlt Hk Hname) as (Hlen & Hk1 & _ & Hout).
  eexists. split; [exact Hout|].
  unfold resample_if_needed. rewrite index_map_pairs.
  rewrite infer_freq_grid_intraday; [|exact Hpos|nia|exact Hday].
  cbn [bind to_timedelta]. now rewrite Z.eqb_refl.
Qed.

Lemma upsample_twice_witness :
  exists out,
    resample_if_needed no_rule no_rule 0 (hourly [10; 20; 30]%Q)
      (sensor_with (ns_per_hour / 4))
    = Ok out
    /\ resample_if_needed no_rule no_rule 0 out
         (sensor_with (ns_per_hour / 4))
       = Ok out.
Proof.
  apply (upsample_twice no_rule no_rule 0 (hourly [10; 20; 30]%Q)
           (sensor_with (ns_per_hour / 4)) ns_per_hour).
  - vm_compute. reflexivity.
  - reflexivity.
  - reflexivity.
  - exists 4. reflexivity.
  - vm_compute. discriminate.
  - reflexivity.
Defined.

Lemma at_or_before_none t (s : Series) :
  Forall (fun p => t < fst p) s -> at_or_before t s = [].
Proof.
  intros H. unfold at_or_before.
  rewrite (filter_ext_in _ (fun _ => false)); [apply filter_false|].
  intros p Hp. rewrite Forall_forall in H. apply H in Hp.
  apply Z.leb_gt. exact Hp.
Qed.

(** On evenly spaced labels, the samples at or before a time in the
    [i]-th interval are the first [i + 1]. *)
Lemma at_or_before_grid (s : Series) :
  forall start step i x,
    0 < step ->
    index s = grid start step (List.length s) ->
    (i < List.length s)%nat -> 0 <= x < step ->
    at_or_before (start + Z.of_nat i * step + x) s = firstn (S i) s.
Proof.
  induction s as [|[a c] s IH]; intros start step i x Hstep Hidx Hi Hx.
  - cbn in Hi. lia.
  - cbn [List.length] in Hidx. rewrite grid_S in Hidx.
    cbn [index map fst] in Hidx. injection Hidx as Ha Hidx'.
    fold (index s) in Hidx'. subst a.
    unfold at_or_before. cbn [filter fst firstn].
    destruct (Z.leb_spec start (start + Z.of_nat i * step + x)); [|nia].
    f_equal. fold (at_or_before (start + Z.of_nat i * step + x) s).
    destruct i as [|i].
    + cbn [firstn]. apply at_or_before_none.
      apply Forall_forall. intros p Hp.
      apply (in_map fst) in Hp. fold (index s) in Hp. rewrite Hidx' in Hp.
      apply In_grid in Hp as (j & _ & Hj). nia.
    + replace (start + Z.of_nat (S i) * step + x)
        with (start + step + Z.of_nat i * step + x) by lia.
      apply IH; try assumption. cbn [List.length] in Hi. lia.
Qed.

Lemma firstn_S_nth_error {A} (l : list A) i x :
  nth_error l i = Some x -> firstn (S i) l = firstn i l ++ [x].
Proof.
  revert i. induction l as [|a l IH]; intros [|i] H; try discriminate.
  - now injection H as ->.
  - cbn [firstn app]. f_equal. now apply IH.
Qed.

(** X13.  When the inferred resolution is [k] times the sensor's
    resolution, and the sensor's name holds no [%], every input value that
    is not NaN is repeated [k] times: the [i]-th sample fills the slots
    [i * k] to [i * k + k - 1]. *)
Theorem upsample_repeats_each_value
    (calendar_rule business_rule : list Z -> option string)
    (index_utcoffset : Z) (s : Series) (sensor : Sensor) (d k : Z) :
  infer_freq calendar_rule business_rule (index s) = Ok (Some (Tick d)) ->
  0 < event_resolution sensor ->
  event_resolution sensor < d ->
  d = k * event_resolution sensor ->
  percent_free (name sensor) = true ->
  exists out,
    resample_if_needed calendar_rule business_rule index_utcoffset s sensor
    = Ok out
    /\ List.length out = (List.length s * Z.to_nat k)%nat
    /\ forall (i : nat) t v (r : nat),
         nth_error s i = Some (t, Some v) -> Z.of_nat r < k ->
         nth_error out (i * Z.to_nat k + r)
         = Some (t + Z.of_nat r * event_resolution sensor, Some v).
Proof.
  intros Hfreq Hpos Hlt Hk Hname.
  destruct (upsample_closed_form _ _ index_utcoffset s sensor d k
              Hfreq Hpos Hlt Hk Hname) as (Hlen & Hk1 & Hidx & Hout).
  eexists. split; [exact Hout|].
  rewrite length_map, grid_length. split; [reflexivity|].
  intros i t v r Hi Hr.
  assert (Hin : (i < List.length s)%nat)
    by (apply nth_error_Some; rewrite Hi; discriminate).
  assert (Ht : t = hd 0 (index s) + Z.of_nat i * d).
  { assert (E : nth_error (index s) i = Some t).
    { unfold index. rewrite nth_error_map, Hi. reflexivity. }
    rewrite Hidx, nth_error_grid in E by assumption. now injection E. }
  rewrite nth_error_map, nth_error_grid by nia. cbn [option_map].
  replace (hd 0 (index s)
           + Z.of_nat (i * Z.to_nat k + r) * event_resolution sensor)
    with (t + Z.of_nat r * event_resolution sensor) by nia.
  do 2 f_equal.
  rewrite Ht.
  apply (most_recent_last s _ (firstn i s) t v).
  rewrite (at_or_before_grid s (hd 0 (index s)) d i
             (Z.of_nat r * event_resolution sensor)); try assumption;
    [|nia|nia].
  now apply firstn_S_nth_error.
Qed.

Lemma upsample_repeats_each_value_witness :
  exists out v,
    resample_if_needed no_rule no_rule 0 (hourly [10; 20; 30]%Q)
      (sensor_with (ns_per_hour / 4))
    = Ok out
    /\ float_of_Q 20 = Some v
    /\ nth_error out 6
       = Some (20089 * ns_per_day + ns_per_hour + 2 * (ns_per_hour / 4),
               Some v).
Proof.
  destruct (upsample_repeats_each_value no_rule no_rule 0
              (hourly [10; 20; 30]%Q) (sensor_with (ns_per_hour / 4))
              ns_per_hour 4) as (out & Hout & _ & Hslots).
  - vm_compute. reflexivity.
  - reflexivity.
  - reflexivity.
  - reflexivity.
  - reflexivity.
  - exists out. eexists. split; [exact Hout|].
    split; [vm_compute; reflexivity|].
    apply (Hslots 1%nat (20089 * ns_per_day + ns_per_hour) _ 2%nat).
    + vm_compute. reflexivity.
    + reflexivity.
Defined.

Lemma last_known_In prev cells v :
  last_known prev cells = Some v ->
  prev = Some v \/ In (Some v) cells.
Proof.
  revert prev. induction cells as [|c cells IH]; intros prev H.
  - now left.
  - rewrite last_known_cons in H. apply IH in H as [H|H].
    + destruct c as [w|]; cbn [keep] in H.
      * right. left. exact H.
      * now left.
    + right. now right.
Qed.

(** X14.  Upsampling invents no value: when the inferred resolution is a
    multiple of the sensor's resolution, and the sensor's name holds no
    [%], every value of the result that is not NaN is the value of an input
    sample at or before its label. *)
Theorem upsample_values_come_from_input
    (calendar_rule business_rule : list Z -> option string)
    (index_utcoffset : Z) (s : Series) (sensor : Sensor) (d : Timedelta) :
  infer_freq calendar_rule business_rule (index s) = Ok (Some (Tick d)) ->
  0 < event_resolution sensor ->
  event_resolution sensor < d ->
  (event_resolution sensor | d) ->
  percent_free (name sensor) = true ->
  exists out,
    resample_if_needed calendar_rule business_rule index_utcoffset s sensor
    = Ok out
    /\ forall t v, In (t, Some v) out ->
         exists t', t' <= t /\ In (t', Some v) s.
Proof.
  intros Hfreq Hpos Hlt [k Hk] Hname.
  destruct (upsample_closed_form _ _ index_utcoffset s sensor d k
              Hfreq Hpos Hlt Hk Hname) as (_ & _ & _ & Hout).
  eexists. split; [exact Hout|].
  intros t v Hin. apply in_map_iff in Hin as (t1 & E & _).
  injection E as -> Hv. unfold most_recent in Hv.
  apply last_known_In in Hv as [Hv|Hv]; [discriminate|].
  apply in_map_iff in Hv as ([t' c] & Hc & Hp). cbn [snd] in Hc. subst c.
  unfold at_or_before in Hp. apply filter_In in Hp as [Hp Hle].
  cbn [fst] in Hle. apply Z.leb_le in Hle. now exists t'.
Qed.

Lemma upsample_values_come_from_input_witness :
  exists out,
    resample_if_needed no_rule no_rule 0 (hourly [10; 20; 30]%Q)
      (sensor_with (ns_per_hour / 4))
    = Ok out
    /\ forall t v, In (t, Some v) out ->
         exists t', t' <= t /\ In (t', Some v) (hourly [10; 20; 30]%Q).
Proof.
  apply (upsample_values_come_from_input no_rule no_rule 0
           (hourly [10; 20; 30]%Q) (sensor_with (ns_per_hour / 4))
           ns_per_hour).
  - vm_compute. reflexivity.
  - reflexivity.
  - reflexivity.
  - exists 4. reflexivity.
  - reflexivity.
Defined.

(** What downsampling returns on increasing, evenly spaced labels. *)
Lemma downsample_closed_form
    (calendar_rule business_rule : list Z -> option string)
    (index_utcoffset : Z) (s : Series) (sensor : Sensor) (d : Timedelta) :
  infer_freq calendar_rule business_rule (index s) = Ok (Some (Tick d)) ->
  0 < d ->
  d < event_resolution sensor ->
  percent_free (name sensor) = true ->
  let target := event_resolution sensor in
  let first := hd 0 (index s) in
  let last := first + Z.of_nat (List.length s - 1) * d in
  let first_edge :=
    first - (first - normalize index_utcoffset first) mod target in
  let windows := Z.to_nat ((last - first_edge) / target + 1) in
  index s = grid first d (List.length s)
  /\ (3 <= List.length s)%nat
  /\ first_edge <= first < first_edge + target
  /\ (0 < windows)%nat
  /\ Z.of_nat windows = (last - first_edge) / target + 1
  /\ resample_if_needed calendar_rule business_rule index_utcoffset s sensor
     = Ok (map (fun t => (t, group_mean (map snd (in_window t target s))))
               (grid first_edge target windows)).
Proof.
  intros Hfreq Hd Hlt Hname target first last first_edge windows.
  destruct (infer_freq_tick _ _ _ _ Hfreq) as (Hlen & _ & _ & Hidx).
  assert (Hls : List.length (index s) = List.length s)
    by (unfold index; apply length_map).
  rewrite Hls in Hlen, Hidx. fold first in Hidx.
  assert (Hf : 0 < target) by (subst target; lia).
  assert (Hs : StronglySorted Z.lt (index s)).
  { rewrite Hidx. now apply grid_sorted. }
  destruct (List.length s) as [|n'] eqn:Hn; [lia|].
  assert (Hshape : index s = first :: grid (first + d) d n')
    by (rewrite Hidx at 1; apply grid_S).
  assert (Hlast : List.last (index s) first = last).
  { rewrite Hidx, last_grid. subst last. f_equal. f_equal. lia. }
  assert (Hle : first <= last) by (subst last; nia).
  destruct (adjust_edges index_utcoffset first last target Hf Hle)
    as (_ & Hfe & Hla & _).
  fold first_edge in Hfe, Hla. fold windows in Hla.
  assert (Hq : 0 <= (last - first_edge) / target)
    by (apply Z.div_pos; lia).
  split; [exact Hidx|]. split; [exact Hlen|]. split; [exact Hfe|].
  split; [subst windows; lia|]. split; [subst windows; lia|].
  unfold resample_if_needed. rewrite Hfreq. cbn [bind to_timedelta].
  fold target.
  destruct (Z.eqb_spec d target); [lia|].
  destruct (Z.ltb_spec target d); [lia|].
  rewrite (resample_mean_sorted index_utcoffset s target first _ Hshape Hs Hf).
  cbn [bind]. rewrite (format_resampled_message sensor Hname). cbn [bind].
  rewrite Hlast. reflexivity.
Qed.

(** X15.  For a sensor whose name holds no [%]: adapting a downsampled
    result again returns it unchanged when it has at least three rows (and
    the sensor's resolution is not a whole number of days); a result of one
    or two rows cannot be adapted again: the call raises [ValueError], as
    frequency inference needs three labels. *)
Theorem downsample_twice
    (calendar_rule business_rule : list Z -> option string)
    (index_utcoffset : Z) (s : Series) (sensor : Sensor) (d : Timedelta) :
  infer_freq calendar_rule business_rule (index s) = Ok (Some (Tick d)) ->
  0 < d ->
  d < event_resolution sensor ->
  event_resolution sensor mod ns_per_day <> 0 ->
  percent_free (name sensor) = true ->
  exists out,
    resample_if_needed calendar_rule business_rule index_utcoffset s sensor
    = Ok out
    /\ ((3 <= List.length out)%nat ->
        resample_if_needed calendar_rule business_rule index_utcoffset
          out sensor
        = Ok out)
    /\ ((List.length out < 3)%nat ->
        resample_if_needed calendar_rule business_rule index_utcoffset
          out sensor
        = Raise (ValueError "Need at least 3 dates to infer frequency")).
Proof.
  intros Hfreq Hd Hlt Hday Hname.
  destruct (downsample_closed_form _ _ index_utcoffset s sensor d
              Hfreq Hd Hlt Hname) as (_ & _ & _ & _ & _ & Hout).
  eexists. split; [exact Hout|].
  rewrite length_map, grid_length.
  unfold resample_if_needed. rewrite index_map_pairs. split.
  - intros Hrows.
    rewrite infer_freq_grid_intraday; [|lia|exact Hrows|exact Hday].
    cbn [bind to_timedelta]. now rewrite Z.eqb_refl.
  - intros Hrows. rewrite infer_freq_short; [reflexivity|].
    now rewrite grid_length.
Qed.

Lemma downsample_twice_witness :
  exists out,
    resample_if_needed no_rule no_rule 0
      (quarter_hourly [1; 2; 3; 4; 5; 6; 7; 8]%Q) (sensor_with ns_per_hour)
    = Ok out
    /\ resample_if_needed no_rule no_rule 0 out (sensor_with ns_per_hour)
       = Raise (ValueError "Need at least 3 dates to infer frequency").
Proof.
  destruct (downsample_twice no_rule no_rule 0
              (quarter_hourly [1; 2; 3; 4; 5; 6; 7; 8]%Q)
              (sensor_with ns_per_hour) (ns_per_hour / 4))
    as (out & Hout & _ & Hshort).
  - vm_compute. reflexivity.
  - reflexivity.
  - reflexivity.
  - vm_compute. discriminate.
  - reflexivity.
  - exists out. split; [exact Hout|]. apply Hshort.
    assert (E : Ok out
                = Ok [(20089 * ns_per_day, float_of_Q (10 # 4));
                      (20089 * ns_per_day + ns_per_hour,
                       float_of_Q (26 # 4))]).
    { rewrite <- Hout. vm_compute. reflexivity. }
    injection E as ->. cbn. lia.
Defined.

Lemma known_nonempty cells c :
  In c cells -> Forall (fun c => c <> None) cells -> known cells <> [].
Proof.
  intros Hin Hall. rewrite Forall_forall in Hall.
  induction cells as [|c' cells IH]; [destruct Hin|].
  unfold known. cbn [flat_map].
  destruct c' as [v|]; [discriminate|].
  exfalso. apply (Hall None); [now left | reflexivity].
Qed.

(** X16.  For a sensor whose name holds no [%], downsampling a series of
    increasing labels returns at most as many rows as it was given, and no
    window between the first and the last label is left without a sample:
    where the input has no NaN, every row is the mean of at least one
    value. *)
Theorem downsample_has_no_gaps
    (calendar_rule business_rule : list Z -> option string)
    (index_utcoffset : Z) (s : Series) (sensor : Sensor) (d : Timedelta) :
  infer_freq calendar_rule business_rule (index s) = Ok (Some (Tick d)) ->
  0 < d ->
  d < event_resolution sensor ->
  percent_free (name sensor) = true ->
  exists out,
    resample_if_needed calendar_rule business_rule index_utcoffset s sensor
    = Ok out
    /\ (0 < List.length out <= List.length s)%nat
    /\ (forall t c, In (t, c) out ->
          in_window t (event_resolution sensor) s <> []
          /\ c = group_mean
                   (map snd (in_window t (event_resolution sensor) s)))
    /\ (Forall (fun p => snd p <> None) s ->
        forall t c, In (t, c) out ->
          known (map snd (in_window t (event_resolution sensor) s)) <> []).
Proof.
  intros Hfreq Hd Hlt Hname.
  destruct (downsample_closed_form _ _ index_utcoffset s sensor d
              Hfreq Hd Hlt Hname) as (Hidx & Hlen & Hfe & Hw0 & Hw & Hout).
  cbn zeta in *.
  set (target := event_resolution sensor) in *.
  set (first := hd 0 (index s)) in *.
  set (n := List.length s) in *.
  set (last := first + Z.of_nat (n - 1) * d) in *.
  set (first_edge :=
         first - (first - normalize index_utcoffset first) mod target) in *.
  set (windows := Z.to_nat ((last - first_edge) / target + 1)) in *.
  assert (Hf : 0 < target) by lia.
  pose proof (Z.div_mod (last - first_edge) target ltac:(lia)) as Dl.
  pose proof (Z.mod_pos_bound (last - first_edge) target Hf) as Bl.
  set (q := (last - first_edge) / target) in *.
  assert (Hsample : forall i : nat, (i < windows)%nat ->
            exists p, In p s
              /\ first_edge + Z.of_nat i * target <= fst p
                 < first_edge + Z.of_nat i * target + target).
  { intros i Hi.
    assert (Hedge : first_edge + Z.of_nat i * target <= last) by nia.
    set (e := first_edge + Z.of_nat i * target) in *.
    destruct (Z.le_gt_cases e first) as [Hlow|Hhigh].
    - assert (In first (index s)).
      { rewrite Hidx. apply In_grid. exists 0%nat. split; lia. }
      apply in_map_iff in H as (p & Hp & Hin). exists p.
      split; [exact Hin|]. rewrite Hp. subst e. nia.
    - pose proof (Z.div_mod (e - first + d - 1) d ltac:(lia)) as Dj.
      pose proof (Z.mod_pos_bound (e - first + d - 1) d Hd) as Bj.
      assert (Hj0 : 0 <= (e - first + d - 1) / d)
        by (apply Z.div_pos; lia).
      set (j := (e - first + d - 1) / d) in *.
      assert (Hjn : j < Z.of_nat n).
      { assert (d * j < d * Z.of_nat n); [|nia].
        subst last. nia. }
      assert (In (first + Z.of_nat (Z.to_nat j) * d) (index s)).
      { rewrite Hidx. apply In_grid. exists (Z.to_nat j). split; lia. }
      apply in_map_iff in H as (p & Hp & Hin). exists p.
      split; [exact Hin|]. rewrite Hp. nia. }
  eexists. split; [exact Hout|].
  rewrite length_map, grid_length. split; [|split].
  - split; [exact Hw0|].
    assert (q < Z.of_nat n); [|lia].
    apply Z.div_lt_upper_bound; [lia|]. subst last. nia.
  - intros t c Hin. apply in_map_iff in Hin as (t1 & E & Ht1).
    injection E as -> Hc. split; [|now symmetry].
    apply In_grid in Ht1 as (i & Hi & ->).
    destruct (Hsample i Hi) as (p & Hp & Hrange).
    intros Hempty.
    assert (Hpw : In p (in_window (first_edge + Z.of_nat i * target) target s)).
    { unfold in_window. apply filter_In. split; [exact Hp|].
      apply andb_true_intro.
      split; [apply Z.leb_le | apply Z.ltb_lt]; lia. }
    rewrite Hempty in Hpw. destruct Hpw.
  - intros Hknown t c Hin.
    apply in_map_iff in Hin as (t1 & E & Ht1).
    injection E as -> Hc.
    apply In_grid in Ht1 as (i & Hi & ->).
    destruct (Hsample i Hi) as (p & Hp & Hrange).
    apply (known_nonempty _ (snd p)).
    + apply in_map. unfold in_window. apply filter_In. split; [exact Hp|].
      apply andb_true_intro.
      split; [apply Z.leb_le | apply Z.ltb_lt]; lia.
    + apply Forall_map. rewrite Forall_forall in Hknown |- *.
      intros p' Hp'. apply Hknown. unfold in_window in Hp'.
      now apply filter_In in Hp'.
Qed.

Lemma downsample_has_no_gaps_witness :
  exists out,
    resample_if_needed no_rule no_rule 0
      (quarter_hourly [1; 2; 3; 4; 5; 6; 7; 8; 9]%Q) (sensor_with ns_per_hour)
    = Ok out
    /\ (0 < List.length out <= 9)%nat
    /\ forall t c, In (t, c) out ->
         known (map snd (in_window t ns_per_hour
                           (quarter_hourly [1; 2; 3; 4; 5; 6; 7; 8; 9]%Q)))
         <> [].
Proof.
  destruct (downsample_has_no_gaps no_rule no_rule 0
              (quarter_hourly [1; 2; 3; 4; 5; 6; 7; 8; 9]%Q)
              (sensor_with ns_per_hour) (ns_per_hour / 4))
    as (out & Hout & Hrows & _ & Hknown).
  - vm_compute. reflexivity.
  - reflexivity.
  - reflexivity.
  - reflexivity.
  - exists out. split; [exact Hout|]. split; [exact Hrows|].
    apply Hknown. repeat constructor; vm_compute; discriminate.
Defined.

(** ** Belief times *)

Lemma traverse_length {A B} (f : A -> result B) l l' :
  traverse f l = Ok l' -> List.length l' = List.length l.
Proof.
  revert l'. induction l as [|a l IH]; intros l' H; cbn in H.
  - now injection H as <-.
  - destruct (f a) as [b|]; [|discriminate]. cbn [bind] in H.
    destruct (traverse f l) as [bs|]; [|discriminate]. cbn [bind] in H.
    injection H as <-. cbn. now rewrite (IH bs).
Qed.

Lemma traverse_nth_error {A B} (f : A -> result B) l l' :
  traverse f l = Ok l' ->
  forall i x y,
    nth_error l i = Some x -> nth_error l' i = Some y -> f x = Ok y.
Proof.
  revert l'. induction l as [|a l IH]; intros l' H i x y Hx Hy; cbn in H.
  - destruct i; discriminate.
  - destruct (f a) as [b|] eqn:Ea; [|discriminate]. cbn [bind] in H.
    destruct (traverse f l) as [bs|]; [|discriminate]. cbn [bind] in H.
    injection H as <-. destruct i as [|i]; cbn in Hx, Hy.
    + injection Hx as <-. injection Hy as <-. exact Ea.
    + exact (IH bs eq_refl i x y Hx Hy).
Qed.

(** In a zone without transitions the floor is the midnight before the
    label, on the zone's wall clock. *)
Lemma floor_day_fixed_offset tz c t m :
  fixed_offset tz c -> floor_day tz t = Ok m ->
  m <= t < m + ns_per_day /\ (m + ns_per_us * c) mod ns_per_day = 0.
Proof.
  intros [Hat Hloc] H. unfold floor_day in H. rewrite Hat in H.
  set (k := ns_per_us * c) in *. cbv zeta in H. rewrite Hloc in H.
  unfold bind in H. fold k in H. injection H as Hm.
  assert (Hday : 0 < ns_per_day) by reflexivity.
  pose proof (Z.mod_pos_bound (t + k) ns_per_day Hday) as B.
  pose proof (Z.div_mod (t + k) ns_per_day ltac:(lia)) as D.
  set (r := (t + k) mod ns_per_day) in *.
  set (q := (t + k) / ns_per_day) in *.
  split; [lia|].
  replace (m + k) with (q * ns_per_day) by lia.
  apply Z.mod_mul. lia.
Qed.

(** Where the zone has transitions a local day can last 25 hours: on
    2025-10-26 in Amsterdam the label 22:45 UTC is floored to 22:00 UTC of
    the day before, so that its belief time lies 30 hours and 45 minutes
    before it. *)
Example floor_day_on_a_day_of_25_hours :
  floor_day europe_amsterdam
    (ns_per_us * at_hour 20387 22 + 3 * (ns_per_hour / 4))
  = Ok (ns_per_us * at_hour 20386 22).
Proof. reflexivity. Qed.

(** X17.  No belief time handed to [save_to_db] lies after [now].  Where
    the zone of the index has no transitions, each belief time lies at
    least six hours before its event, and one that is earlier than [now] is
    18:00 on the wall clock of the index, on the day before the event. *)
Theorem belief_times_bounds
    {Source : Type} (env : Env) (index_tz : timezone) (series : Series)
    (sensor : Sensor) (entsoe_source : Source) (country_timezone : string)
    (now : option Z) (bdf : BeliefsDataFrame Source) :
  save_entsoe_series env index_tz series sensor entsoe_source
    country_timezone now = Ok bdf ->
  let now_ns := match now with Some t => t | None => ns_per_us * clock env end in
  bdf_series bdf = series
  /\ List.length (bdf_belief_time bdf) = List.length series
  /\ (forall i b, nth_error (bdf_belief_time bdf) i = Some b -> b <= now_ns)
  /\ (forall c, fixed_offset index_tz c ->
      forall i t b,
        nth_error (index series) i = Some t ->
        nth_error (bdf_belief_time bdf) i = Some b ->
        b + Timedelta_hours 6 <= t
        /\ (b < now_ns ->
            (b + Timedelta_hours 6 + ns_per_us * c) mod ns_per_day = 0
            /\ t < b + Timedelta_hours 30)).
Proof.
  intros Hsave now_ns.
  assert (E : exists floored,
            traverse (floor_day index_tz) (index series) = Ok floored
            /\ bdf = {| bdf_series := series; bdf_source := entsoe_source;
                        bdf_sensor := sensor;
                        bdf_belief_time :=
                          map (fun t => Z.min (t - Timedelta_hours 6) now_ns)
                              floored |}).
  { unfold save_entsoe_series, belief_times in Hsave. subst now_ns.
    destruct now as [t|]; cbn [bind] in Hsave.
    - destruct (traverse (floor_day index_tz) (index series)) as [fl|];
        [|discriminate].
      cbn [bind] in Hsave. exists fl. split; [reflexivity|]. now injection Hsave.
    - destruct (pytz_timezone env country_timezone); [|discriminate].
      cbn [bind] in Hsave.
      destruct (traverse (floor_day index_tz) (index series)) as [fl|];
        [|discriminate].
      cbn [bind] in Hsave. exists fl. split; [reflexivity|]. now injection Hsave. }
  destruct E as (floored & Hfloor & ->). cbn [bdf_series bdf_belief_time].
  clearbody now_ns.
  split; [reflexivity|]. split.
  { rewrite length_map, (traverse_length _ _ _ Hfloor). unfold index.
    apply length_map. }
  split.
  { intros i b Hb. rewrite nth_error_map in Hb.
    destruct (nth_error floored i); [|discriminate].
    injection Hb as <-. lia. }
  intros c Hfixed i t b Ht Hb. rewrite nth_error_map in Hb.
  destruct (nth_error floored i) as [m|] eqn:Hm; [|discriminate].
  injection Hb as <-.
  pose proof (traverse_nth_error _ _ _ Hfloor i t m Ht Hm) as Hfl.
  destruct (floor_day_fixed_offset index_tz c t m Hfixed Hfl)
    as [[N1 N2] N3].
  change (Timedelta_hours 6) with (6 * ns_per_hour).
  change (Timedelta_hours 30) with (ns_per_day + 6 * ns_per_hour).
  change 21600000000000 with (6 * ns_per_hour).
  split; [lia|].
  intros Hclip.
  replace (Z.min (m - 6 * ns_per_hour) now_ns)
    with (m - 6 * ns_per_hour) in * by lia.
  split; [|lia].
  replace (m - 6 * ns_per_hour + 6 * ns_per_hour + ns_per_us * c)
    with (m + ns_per_us * c) by lia.
  exact N3.
Qed.

Lemma belief_times_bounds_witness :
  exists bdf t b,
    save_entsoe_series env_2025_05_01 utc
      (hourly [10; 20; 30]%Q) (sensor_with ns_per_hour) tt "UTC"
      (Some (20089 * ns_per_day + ns_per_hour)) = Ok bdf
    /\ nth_error (index (hourly [10; 20; 30]%Q)) 0 = Some t
    /\ nth_error (bdf_belief_time bdf) 0 = Some b
    /\ b <= 20089 * ns_per_day + ns_per_hour
    /\ b + Timedelta_hours 6 <= t.
Proof.
  eexists. eexists. eexists.
  split; [reflexivity|]. split; [reflexivity|]. split; [reflexivity|].
  destruct (belief_times_bounds env_2025_05_01 utc
              (hourly [10; 20; 30]%Q)
              (sensor_with ns_per_hour) tt "UTC"
              (Some (20089 * ns_per_day + ns_per_hour)) _ eq_refl)
    as (_ & _ & Hnow & Hfixed).
  split; [exact (Hnow 0%nat _ eq_refl)|].
  exact (proj1 (Hfixed 0 utc_fixed_offset 0%nat _ _ eq_refl eq_refl)).
Defined.

(** ** The API client *)

(** X18.  The client is made with the token of the server the URL is set
    to: with the test server selected only the test server's token is
    used, never the production token.  Where that token is missing or
    empty the call writes one line and aborts, and the URL has been set all
    the same. *)
Theorem client_token_matches_server (config : Config) :
  let use_test := truthy (config_get config "ENTSOE_USE_TEST_SERVER"
                            (PyBool false)) in
  let key := if use_test then "ENTSOE_AUTH_TOKEN_TEST_SERVER"
             else "ENTSOE_AUTH_TOKEN" in
  fst (create_entsoe_client config)
  = (if use_test then test_server_URL else production_URL)
  /\ match snd (create_entsoe_client config) with
     | (out, Ok client) =>
         out = [] /\ truthy (api_key client) = true
         /\ config key = Some (api_key client)
     | (out, Raise e) =>
         out = ["Setting ENTSOE_AUTH_TOKEN seems empty!"] /\ e = ClickAbort
         /\ truthy (config_get config key PyNone) = false
     end.
Proof.
  intros use_test key. subst use_test key.
  unfold create_entsoe_client, get_auth_token_from_config_and_set_server_url.
  destruct (truthy (config_get config "ENTSOE_USE_TEST_SERVER" (PyBool false))).
  - cbn [fst snd]. split; [reflexivity|].
    destruct (truthy (config_get config "ENTSOE_AUTH_TOKEN_TEST_SERVER" PyNone))
      eqn:Htok; cbn [negb].
    + cbn. split; [reflexivity|]. split; [exact Htok|].
      unfold config_get in *.
      destruct (config "ENTSOE_AUTH_TOKEN_TEST_SERVER");
        [reflexivity | discriminate].
    + cbn. repeat split.
  - cbn [fst snd]. split; [reflexivity|].
    destruct (truthy (config_get config "ENTSOE_AUTH_TOKEN" PyNone))
      eqn:Htok; cbn [negb].
    + cbn. split; [reflexivity|]. split; [exact Htok|].
      unfold config_get in *.
      destruct (config "ENTSOE_AUTH_TOKEN"); [reflexivity | discriminate].
    + cbn. repeat split.
Qed.

Example client_for_test_server_without_token :
  create_entsoe_client config_without_test_token
  = (test_server_URL,
     (["Setting ENTSOE_AUTH_TOKEN seems empty!"], Raise ClickAbort))
  /\ create_entsoe_client config_production
     = (production_URL, ([], Ok {| api_key := PyStr "secret" |})).
Proof. split; reflexivity. Qed.

(** ** The transmission zone asset *)

Lemma one_or_none_NoRow {A} (rows : list A) :
  one_or_none rows = NoRow <-> rows = [].
Proof. destruct rows as [|a [|b l]]; cbn; split; congruence. Qed.

Lemma one_or_none_OneRow {A} (rows : list A) row :
  one_or_none rows = OneRow row <-> rows = [row].
Proof. destruct rows as [|a [|b l]]; cbn; split; congruence. Qed.

Lemma one_or_none_ManyRows {A} (rows : list A) :
  one_or_none rows = ManyRows <-> (2 <= List.length rows)%nat.
Proof.
  destruct rows as [|a [|b l]]; cbn; split; try congruence; try lia.
Qed.

Lemma commit_committed st : committed st = visible st -> commit st = st.
Proof. destruct st as [v c n]. cbn. intros ->. reflexivity. Qed.

(** Where the type and the asset are in the tables once each, the call
    finds them, adds nothing and commits. *)
Lemma ensure_zone_existing country_code st t zone :
  filter is_transmission_zone_type (asset_types (visible st)) = [t] ->
  filter (has_asset_name (zone_name country_code)) (assets (visible st))
  = [zone] ->
  ensure_transmission_zone_asset country_code st = Done zone (commit st).
Proof.
  intros Ht Ha. unfold ensure_transmission_zone_asset.
  rewrite Ht. cbn [one_or_none]. rewrite Ha. reflexivity.
Qed.

(** What a call that returns leaves behind. *)
Lemma ensure_transmission_zone_asset_spec
    (country_code : string) (st st' : Session) (zone : Asset) :
  ensure_transmission_zone_asset country_code st = Done zone st' ->
  asset_name zone = (country_code ++ " transmission zone")%string
  /\ filter (has_asset_name (zone_name country_code)) (assets (visible st'))
     = [zone]
  /\ (exists t, filter is_transmission_zone_type (asset_types (visible st'))
                = [t])
  /\ committed st' = visible st'
  /\ (exists new_types new_assets,
        asset_types (visible st') = asset_types (visible st) ++ new_types
        /\ assets (visible st') = assets (visible st) ++ new_assets
        /\ (List.length new_types <= 1)%nat
        /\ (List.length new_assets <= 1)%nat)
  /\ sensors (visible st') = sensors (visible st).
Proof.
  unfold ensure_transmission_zone_asset.
  destruct (one_or_none (filter is_transmission_zone_type
                           (asset_types (visible st)))) as [|t|] eqn:Ht;
    [| |discriminate].
  - apply one_or_none_NoRow in Ht.
    cbn [add_asset_type visible assets].
    destruct (one_or_none (filter (has_asset_name (zone_name country_code))
                             (assets (visible st)))) as [|a|] eqn:Ha;
      [| |discriminate].
    + apply one_or_none_NoRow in Ha. intros [= <- <-].
      cbn [commit add_asset add_asset_type visible committed assets
           asset_types sensors asset_name].
      rewrite !filter_app, Ha, Ht. cbn [filter].
      unfold has_asset_name at 1, is_transmission_zone_type at 1.
      cbn [asset_name type_name]. rewrite !String.eqb_refl. cbn [app].
      split; [reflexivity|]. split; [reflexivity|].
      split; [eexists; reflexivity|]. split; [reflexivity|].
      split; [|reflexivity].
      eexists. eexists. split; [reflexivity|]. split; [reflexivity|].
      cbn. lia.
    + apply one_or_none_OneRow in Ha. intros [= <- <-].
      cbn [commit add_asset_type visible committed assets asset_types sensors].
      rewrite filter_app, Ht, Ha. cbn [filter].
      unfold is_transmission_zone_type at 1. cbn [type_name].
      rewrite String.eqb_refl. cbn [app].
      assert (Hin : In a (filter (has_asset_name (zone_name country_code))
                            (assets (visible st))))
        by (rewrite Ha; now left).
      apply filter_In in Hin as [_ Hname].
      apply String.eqb_eq in Hname.
      split; [exact Hname|]. split; [reflexivity|].
      split; [eexists; reflexivity|]. split; [reflexivity|].
      split; [|reflexivity].
      exists [{| type_id := next_id st; type_name := "transmission zone";
                 type_description :=
                   "A grid regulated & balanced as a whole, usually a national grid." |}],
             [].
      rewrite app_nil_r. repeat split; cbn; lia.
  - apply one_or_none_OneRow in Ht.
    destruct (one_or_none (filter (has_asset_name (zone_name country_code))
                             (assets (visible st)))) as [|a|] eqn:Ha;
      [| |discriminate].
    + apply one_or_none_NoRow in Ha. intros [= <- <-].
      cbn [commit add_asset visible committed assets asset_types sensors
           asset_name].
      rewrite filter_app, Ha, Ht. cbn [filter].
      unfold has_asset_name at 1. cbn [asset_name].
      rewrite String.eqb_refl. cbn [app].
      split; [reflexivity|]. split; [reflexivity|].
      split; [eexists; reflexivity|]. split; [reflexivity|].
      split; [|reflexivity].
      eexists []. eexists. rewrite app_nil_r.
      split; [reflexivity|]. split; [reflexivity|]. cbn. lia.
    + apply one_or_none_OneRow in Ha. intros [= <- <-].
      cbn [commit visible committed].
      assert (Hin : In a (filter (has_asset_name (zone_name country_code))
                            (assets (visible st))))
        by (rewrite Ha; now left).
      apply filter_In in Hin as [_ Hname].
      apply String.eqb_eq in Hname.
      split; [exact Hname|]. split; [exact Ha|].
      split; [eexists; exact Ht|]. split; [reflexivity|].
      split; [|reflexivity].
      exists [], []. rewrite !app_nil_r. repeat split; cbn; lia.
Qed.

(** X19.  When the call returns, the asset it returns is named
    "<country code> transmission zone" and is the only asset of that name;
    there is exactly one asset type "transmission zone"; all of it is
    committed; and the call has removed or changed no row: at most one
    type and one asset were appended, and no sensor. *)
Theorem ensure_zone_postcondition
    (country_code : string) (st st' : Session) (zone : Asset) :
  ensure_transmission_zone_asset country_code st = Done zone st' ->
  asset_name zone = (country_code ++ " transmission zone")%string
  /\ filter (has_asset_name (zone_name country_code)) (assets (visible st'))
     = [zone]
  /\ (exists t, filter is_transmission_zone_type (asset_types (visible st'))
                = [t])
  /\ committed st' = visible st'
  /\ (exists new_types new_assets,
        asset_types (visible st') = asset_types (visible st) ++ new_types
        /\ assets (visible st') = assets (visible st) ++ new_assets
        /\ (List.length new_types <= 1)%nat
        /\ (List.length new_assets <= 1)%nat)
  /\ sensors (visible st') = sensors (visible st).
Proof. apply ensure_transmission_zone_asset_spec. Qed.

Lemma ensure_zone_postcondition_witness :
  exists zone st',
    ensure_transmission_zone_asset "NL" empty_session = Done zone st'
    /\ asset_name zone = "NL transmission zone"
    /\ committed st' = visible st'.
Proof.
  eexists. eexists. split; [reflexivity|].
  destruct (ensure_zone_postcondition "NL" empty_session _ _ eq_refl)
    as (Hname & _ & _ & Hcommitted & _).
  split; [exact Hname | exact Hcommitted].
Defined.

(** X20.  The call is idempotent: called again on the session it left, it
    returns the same asset and leaves the session as it is. *)
Theorem ensure_zone_idempotent
    (country_code : string) (st st' : Session) (zone : Asset) :
  ensure_transmission_zone_asset country_code st = Done zone st' ->
  ensure_transmission_zone_asset country_code st' = Done zone st'.
Proof.
  intros H.
  destruct (ensure_transmission_zone_asset_spec _ _ _ _ H)
    as (_ & Ha & [t Ht] & Hc & _).
  rewrite (ensure_zone_existing country_code st' t zone Ht Ha).
  now rewrite commit_committed.
Qed.

Lemma ensure_zone_idempotent_witness :
  exists zone st',
    ensure_transmission_zone_asset "NL" empty_session = Done zone st'
    /\ ensure_transmission_zone_asset "NL" st' = Done zone st'.
Proof.
  eexists. eexists. split; [reflexivity|].
  apply (ensure_zone_idempotent "NL" empty_session). reflexivity.
Defined.

(** X21.  The call fails exactly when the tables hold the asset type
    "transmission zone" or the asset of the zone's name more than once; it
    then raises [MultipleResultsFound] and commits nothing. *)
Theorem ensure_zone_fails_on_duplicates (country_code : string) (st : Session) :
  ((exists st', ensure_transmission_zone_asset country_code st
                = MultipleResultsFound st')
   <-> (2 <= List.length (filter is_transmission_zone_type
                            (asset_types (visible st))))%nat
       \/ (2 <= List.length (filter (has_asset_name (zone_name country_code))
                               (assets (visible st))))%nat)
  /\ (forall st', ensure_transmission_zone_asset country_code st
                  = MultipleResultsFound st' ->
                  committed st' = committed st).
Proof.
  unfold ensure_transmission_zone_asset.
  destruct (one_or_none (filter is_transmission_zone_type
                           (asset_types (visible st)))) as [|t|] eqn:Ht.
  - pose proof Ht as Ht'. apply one_or_none_NoRow in Ht'.
    cbn [add_asset_type visible assets].
    destruct (one_or_none (filter (has_asset_name (zone_name country_code))
                             (assets (visible st)))) as [|a|] eqn:Ha.
    + apply one_or_none_NoRow in Ha. rewrite Ht', Ha. cbn.
      split; [split; [intros [? ?]; discriminate | lia] | discriminate].
    + apply one_or_none_OneRow in Ha. rewrite Ht', Ha. cbn.
      split; [split; [intros [? ?]; discriminate | lia] | discriminate].
    + apply one_or_none_ManyRows in Ha. split.
      * split; [intros _; now right | intros _; eexists; reflexivity].
      * intros st' [= <-]. reflexivity.
  - pose proof Ht as Ht'. apply one_or_none_OneRow in Ht'.
    destruct (one_or_none (filter (has_asset_name (zone_name country_code))
                             (assets (visible st)))) as [|a|] eqn:Ha.
    + apply one_or_none_NoRow in Ha. rewrite Ht', Ha. cbn.
      split; [split; [intros [? ?]; discriminate | lia] | discriminate].
    + apply one_or_none_OneRow in Ha. rewrite Ht', Ha. cbn.
      split; [split; [intros [? ?]; discriminate | lia] | discriminate].
    + apply one_or_none_ManyRows in Ha. split.
      * split; [intros _; now right | intros _; eexists; reflexivity].
      * intros st' [= <-]. reflexivity.
  - apply one_or_none_ManyRows in Ht. split.
    + split; [intros _; now left | intros _; eexists; reflexivity].
    + intros st' [= <-]. reflexivity.
Qed.

(** ** Sensors *)

Lemma dict_get_set_same key v d : dict_get key (dict_set key v d) = Some v.
Proof.
  induction d as [|[k w] d IH]; cbn.
  - now rewrite String.eqb_refl.
  - destruct (String.eqb_spec k key) as [->|Hne]; cbn.
    + now rewrite String.eqb_refl.
    + destruct (String.eqb_spec k key); [contradiction | exact IH].
Qed.

Lemma dict_get_set_other key key' v d :
  key <> key' -> dict_get key (dict_set key' v d) = dict_get key d.
Proof.
  intros Hne. induction d as [|[k w] d IH]; cbn.
  - destruct (String.eqb_spec key' key); [congruence | reflexivity].
  - destruct (String.eqb_spec k key') as [->|Hk]; cbn.
    + destruct (String.eqb_spec key' key); [congruence | reflexivity].
    + destruct (String.eqb_spec k key); [reflexivity | exact IH].
Qed.

Lemma matches_true zone n u row :
  matches zone n u row = true ->
  sensor_name row = n /\ unit row = u
  /\ generic_asset_id row = asset_id zone.
Proof.
  unfold matches. intros H.
  apply andb_prop in H as [H H3]. apply andb_prop in H as [H1 H2].
  apply String.eqb_eq in H1, H2. apply Z.eqb_eq in H3. auto.
Qed.

(** What the loop does to the session and to the dict. *)
Lemma ensure_sensors_loop_spec zone timezone specs :
  forall d created st d' created' st',
    ensure_sensors_loop zone timezone specs d created st
    = Done (d', created') st' ->
    exists new,
      sensors (visible st') = sensors (visible st) ++ new
      /\ asset_types (visible st') = asset_types (visible st)
      /\ assets (visible st') = assets (visible st)
      /\ committed st' = committed st
      /\ (List.length new <= List.length specs)%nat
      /\ Forall (made_from zone timezone specs) new
      /\ (well_keyed zone d st -> well_keyed zone d' st')
      /\ (forall k, dict_get k d' <> None
                    <-> dict_get k d <> None \/ In k (map spec_name specs)).
Proof.
  induction specs as [|[[[n u] res] flag] specs IH];
    intros d created st d' created' st' H.
  - cbn in H. injection H as <- <- <-. exists [].
    rewrite app_nil_r. cbn [map In List.length].
    split; [reflexivity|]. split; [reflexivity|]. split; [reflexivity|].
    split; [reflexivity|]. split; [lia|]. split; [constructor|].
    split; [auto | tauto].
  - cbn [ensure_sensors_loop] in H.
    destruct (one_or_none (filter (matches zone n u) (sensors (visible st))))
      as [|sensor|] eqn:Hq; [| |discriminate].
    + apply IH in H as (new & Hs & Ht & Ha & Hc & Hlen & Hmade & Hkeyed & Hkeys).
      cbn [add_sensor visible committed sensors asset_types assets] in *.
      set (r := {| sensor_id := next_id st; sensor_name := n; unit := u;
                   generic_asset_id := asset_id zone;
                   sensor_timezone := timezone;
                   sensor_event_resolution := res |}) in *.
      exists (r :: new). rewrite <- app_assoc in Hs. cbn [app] in Hs.
      split; [exact Hs|]. split; [exact Ht|]. split; [exact Ha|].
      split; [exact Hc|]. split; [cbn; lia|]. split; [|split].
      * constructor.
        -- exists flag. cbn. repeat split. now left.
        -- eapply Forall_impl; [|exact Hmade].
           intros row (fl & Hin & Hz & Htz). exists fl.
           split; [now right | now split].
      * intros Hd. apply Hkeyed. intros k row fl Hget.
        destruct (String.eqb_spec k n) as [->|Hne].
        -- rewrite dict_get_set_same in Hget. injection Hget as <- <-.
           cbn. repeat split. apply in_or_app. right. now left.
        -- rewrite dict_get_set_other in Hget by assumption.
           destruct (Hd k row fl Hget) as (H1 & H2 & H3).
           repeat split; try assumption. apply in_or_app. now left.
      * intros k. rewrite Hkeys. cbn [map spec_name spec_key fst].
        destruct (String.eqb_spec k n) as [->|Hne].
        -- rewrite dict_get_set_same. split; intros _; [right; now left|].
           left. discriminate.
        -- rewrite dict_get_set_other by assumption.
           cbn [In]. intuition congruence.
    + apply one_or_none_OneRow in Hq.
      assert (Hsensor : In sensor (filter (matches zone n u)
                                     (sensors (visible st))))
        by (rewrite Hq; now left).
      apply filter_In in Hsensor as [Hin Hm].
      apply matches_true in Hm as (Hn & Hu & Hz).
      apply IH in H as (new & Hs & Ht & Ha & Hc & Hlen & Hmade & Hkeyed & Hkeys).
      exists new.
      split; [exact Hs|]. split; [exact Ht|]. split; [exact Ha|].
      split; [exact Hc|]. split; [cbn; lia|]. split; [|split].
      * eapply Forall_impl; [|exact Hmade].
        intros row (fl & Hin' & Hz' & Htz). exists fl.
        split; [now right | now split].
      * intros Hd. apply Hkeyed. intros k row fl Hget.
        destruct (String.eqb_spec k n) as [->|Hne].
        -- rewrite dict_get_set_same in Hget. injection Hget as <- <-.
           repeat split; assumption.
        -- rewrite dict_get_set_other in Hget by assumption.
           exact (Hd k row fl Hget).
      * intros k. rewrite Hkeys. cbn [map spec_name spec_key fst].
        destruct (String.eqb_spec k n) as [->|Hne].
        -- rewrite dict_get_set_same. split; intros _; [right; now left|].
           left. discriminate.
        -- rewrite dict_get_set_other by assumption.
           cbn [In]. intuition congruence.
Qed.

(** X22.  When the call returns, the dict has an entry for the name of
    every specification and for no other name; the sensor of an entry
    carries the name it is filed under, belongs to the transmission zone
    asset of the country, and is a row of the session. *)
Theorem ensure_sensors_returns_every_name
    (specs : list SensorSpec) (country_code timezone : string)
    (st st' : Session) (d : SensorDict) :
  ensure_sensors specs country_code timezone st = Done d st' ->
  exists zone,
    filter (has_asset_name (zone_name country_code)) (assets (visible st'))
    = [zone]
    /\ (forall k, dict_get k d <> None <-> In k (map spec_name specs))
    /\ (forall k row flag,
          dict_get k d = Some (row, flag) ->
          sensor_name row = k
          /\ generic_asset_id row = asset_id zone
          /\ In row (sensors (visible st'))).
Proof.
  unfold ensure_sensors.
  destruct (ensure_transmission_zone_asset country_code st)
    as [zone st1|] eqn:Hzone; [|discriminate].
  destruct (ensure_sensors_loop zone timezone specs [] false st1)
    as [[d1 created] st2|] eqn:Hloop; [|discriminate].
  intros [= <- <-].
  destruct (ensure_transmission_zone_asset_spec _ _ _ _ Hzone) as (_ & Ha & _).
  destruct (ensure_sensors_loop_spec _ _ _ _ _ _ _ _ _ Hloop)
    as (new & Hs & _ & Has & _ & _ & _ & Hkeyed & Hkeys).
  exists zone.
  assert (Est : visible (if created then flush st2 else st2) = visible st2)
    by (destruct created; reflexivity).
  rewrite Est, Has. split; [exact Ha|]. split.
  - intros k. rewrite Hkeys. cbn [dict_get]. tauto.
  - apply Hkeyed. intros k row flag Hget. discriminate.
Qed.

Lemma ensure_sensors_returns_every_name_witness :
  exists d st',
    ensure_sensors pricing_sensors "NL" "Europe/Amsterdam" empty_session
    = Done d st'
    /\ dict_get "Day-ahead prices" d <> None.
Proof.
  eexists. eexists. split; [reflexivity|].
  destruct (ensure_sensors_returns_every_name pricing_sensors "NL"
              "Europe/Amsterdam" empty_session _ _ eq_refl)
    as (zone & _ & Hkeys & _).
  apply Hkeys. now left.
Defined.

(** X23.  The call changes and removes no sensor: the rows it was given
    stay as they are, also where their resolution differs from the
    specification, and each row it appends is made from a specification,
    for the zone and in the timezone given.  What it appends is not
    committed: the committed sensors are those the session held before. *)
Theorem ensure_sensors_keeps_existing_rows
    (specs : list SensorSpec) (country_code timezone : string)
    (st st' : Session) (d : SensorDict) :
  ensure_sensors specs country_code timezone st = Done d st' ->
  exists zone new,
    filter (has_asset_name (zone_name country_code)) (assets (visible st'))
    = [zone]
    /\ sensors (visible st') = sensors (visible st) ++ new
    /\ (List.length new <= List.length specs)%nat
    /\ Forall (made_from zone timezone specs) new
    /\ sensors (committed st') = sensors (visible st).
Proof.
  unfold ensure_sensors.
  destruct (ensure_transmission_zone_asset country_code st)
    as [zone st1|] eqn:Hzone; [|discriminate].
  destruct (ensure_sensors_loop zone timezone specs [] false st1)
    as [[d1 created] st2|] eqn:Hloop; [|discriminate].
  intros [= <- <-].
  destruct (ensure_transmission_zone_asset_spec _ _ _ _ Hzone)
    as (_ & Ha & _ & Hc1 & _ & Hs1).
  destruct (ensure_sensors_loop_spec _ _ _ _ _ _ _ _ _ Hloop)
    as (new & Hs & _ & Has & Hc & Hlen & Hmade & _).
  exists zone, new.
  assert (Est : (if created then flush st2 else st2) = st2)
    by (destruct created; reflexivity).
  rewrite Est, Has, Hs, Hs1, Hc, Hc1, Hs1.
  repeat split; assumption.
Qed.

Lemma ensure_sensors_keeps_existing_rows_witness :
  exists d st' new,
    ensure_sensors pricing_sensors "NL" "Europe/Amsterdam" empty_session
    = Done d st'
    /\ sensors (visible st') = [] ++ new
    /\ sensors (committed st') = [].
Proof.
  eexists. eexists.
  destruct (ensure_sensors_keeps_existing_rows pricing_sensors "NL"
              "Europe/Amsterdam" empty_session _ _ eq_refl)
    as (zone & new & _ & Hs & _ & _ & Hc).
  exists new. split; [reflexivity|]. split; [exact Hs | exact Hc].
Defined.

Lemma matches_own_key zone row :
  generic_asset_id row = asset_id zone ->
  matches zone (sensor_name row) (unit row) row = true.
Proof.
  intros H. unfold matches.
  now rewrite !String.eqb_refl, H, Z.eqb_refl.
Qed.

Lemma filter_none {A} (f : A -> bool) (l : list A) :
  Forall (fun x => f x = false) l -> filter f l = [].
Proof.
  induction 1 as [|x l Hx _ IH]; cbn; [reflexivity|]. now rewrite Hx.
Qed.

(** A row the loop appends answers a query that found nothing before. *)
Lemma ensure_sensors_loop_new_rows zone timezone specs :
  forall d created st d' created' st' new,
    ensure_sensors_loop zone timezone specs d created st
    = Done (d', created') st' ->
    sensors (visible st') = sensors (visible st) ++ new ->
    Forall (fun row =>
              filter (matches zone (sensor_name row) (unit row))
                     (sensors (visible st)) = [])
           new.
Proof.
  induction specs as [|[[[n u] res] flag] specs IH];
    intros d created st d' created' st' new H Hnew.
  - cbn in H. injection H as <- <- <-.
    rewrite <- (app_nil_r (sensors (visible st))) in Hnew at 1.
    apply app_inv_head in Hnew. subst new. constructor.
  - cbn [ensure_sensors_loop] in H.
    destruct (one_or_none (filter (matches zone n u) (sensors (visible st))))
      as [|sensor|] eqn:Hq; [| |discriminate].
    + apply one_or_none_NoRow in Hq.
      destruct (ensure_sensors_loop_spec _ _ _ _ _ _ _ _ _ H)
        as (new1 & Hs & _).
      cbn [add_sensor visible sensors] in Hs.
      rewrite <- app_assoc in Hs. cbn [app] in Hs.
      rewrite Hs in Hnew. apply app_inv_head in Hnew. subst new.
      constructor; [exact Hq|].
      assert (Hs1 : sensors (visible st')
                    = sensors (visible (add_sensor
                        {| sensor_id := next_id st; sensor_name := n;
                           unit := u; generic_asset_id := asset_id zone;
                           sensor_timezone := timezone;
                           sensor_event_resolution := res |} st)) ++ new1).
      { cbn [add_sensor visible sensors]. rewrite <- app_assoc. exact Hs. }
      specialize (IH _ _ _ _ _ _ _ H Hs1).
      eapply Forall_impl; [|exact IH].
      intros row Hrow. cbn [add_sensor visible sensors] in Hrow.
      rewrite filter_app in Hrow. now apply app_eq_nil in Hrow.
    + exact (IH _ _ _ _ _ _ _ H Hnew).
Qed.

(** After the loop every specification finds exactly one row, and the
    dict holds what the specifications find. *)
Lemma ensure_sensors_loop_found zone timezone specs :
  forall d created st d' created' st',
    ensure_sensors_loop zone timezone specs d created st
    = Done (d', created') st' ->
    (forall n u res flag,
       In (n, u, res, flag) specs ->
       exists row,
         filter (matches zone n u) (sensors (visible st')) = [row])
    /\ d' = found_sensors zone (sensors (visible st')) specs d.
Proof.
  induction specs as [|[[[n u] res] flag] specs IH];
    intros d created st d' created' st' H.
  - cbn in H. injection H as <- <- <-. split; [intros ? ? ? ? []|reflexivity].
  - cbn [ensure_sensors_loop] in H.
    assert (Hstep : forall row st1 c1,
              filter (matches zone n u) (sensors (visible st1)) = [row] ->
              ensure_sensors_loop zone timezone specs
                (dict_set n (row, flag) d) c1 st1 = Done (d', created') st' ->
              (forall n0 u0 res0 flag0,
                 In (n0, u0, res0, flag0) ((n, u, res, flag) :: specs) ->
                 exists row0,
                   filter (matches zone n0 u0) (sensors (visible st'))
                   = [row0])
              /\ d' = found_sensors zone (sensors (visible st'))
                        ((n, u, res, flag) :: specs) d).
    { intros row st1 c1 Hrow Hloop.
      destruct (IH _ _ _ _ _ _ Hloop) as [Hall Hd].
      destruct (ensure_sensors_loop_spec _ _ _ _ _ _ _ _ _ Hloop)
        as (new & Hs & _).
      pose proof (ensure_sensors_loop_new_rows _ _ _ _ _ _ _ _ _ _ Hloop Hs)
        as Hnew.
      assert (Hfinal : filter (matches zone n u) (sensors (visible st'))
                       = [row]).
      { rewrite Hs, filter_app, Hrow.
        rewrite (filter_none (matches zone n u) new); [reflexivity|].
        eapply Forall_impl; [|exact Hnew].
        intros row0 Hnone. cbv beta in Hnone.
        destruct (matches zone n u row0) eqn:Hm; [|reflexivity].
        apply matches_true in Hm as (Hn & Hu & _).
        rewrite Hn, Hu, Hrow in Hnone. discriminate. }
      split.
      - intros n0 u0 res0 flag0 [Heq|Hin].
        + injection Heq as <- <- <- <-. now exists row.
        + exact (Hall _ _ _ _ Hin).
      - unfold found_sensors. cbn [fold_left]. rewrite Hfinal. exact Hd. }
    destruct (one_or_none (filter (matches zone n u) (sensors (visible st))))
      as [|sensor|] eqn:Hq; [| |discriminate].
    + apply one_or_none_NoRow in Hq.
      eapply Hstep; [|exact H].
      cbn [add_sensor visible sensors].
      rewrite filter_app, Hq. cbn [app filter].
      pose proof (matches_own_key zone
                    {| sensor_id := next_id st; sensor_name := n; unit := u;
                       generic_asset_id := asset_id zone;
                       sensor_timezone := timezone;
                       sensor_event_resolution := res |} eq_refl) as Hown.
      cbn [sensor_name unit] in Hown. rewrite Hown. reflexivity.
    + apply one_or_none_OneRow in Hq. exact (Hstep _ _ _ Hq H).
Qed.

(** Where every specification finds exactly one row the loop adds
    nothing. *)
Lemma ensure_sensors_loop_existing zone timezone specs :
  forall d created st,
    (forall n u res flag,
       In (n, u, res, flag) specs ->
       exists row,
         filter (matches zone n u) (sensors (visible st)) = [row]) ->
    ensure_sensors_loop zone timezone specs d created st
    = Done (found_sensors zone (sensors (visible st)) specs d, created) st.
Proof.
  induction specs as [|[[[n u] res] flag] specs IH]; intros d created st Hall.
  - reflexivity.
  - destruct (Hall n u res flag (or_introl eq_refl)) as [row Hrow].
    cbn [ensure_sensors_loop]. unfold found_sensors. cbn [fold_left].
    rewrite Hrow. cbn [one_or_none].
    apply IH. intros n0 u0 res0 flag0 Hin.
    exact (Hall _ _ _ _ (or_intror Hin)).
Qed.

(** X24.  The call is idempotent: called again on the session it left, it
    returns the same dict, with the same sensors and flags, and adds no
    row; all the second call does is commit what the first one added. *)
Theorem ensure_sensors_idempotent
    (specs : list SensorSpec) (country_code timezone : string)
    (st st' : Session) (d : SensorDict) :
  ensure_sensors specs country_code timezone st = Done d st' ->
  ensure_sensors specs country_code timezone st' = Done d (commit st').
Proof.
  unfold ensure_sensors.
  destruct (ensure_transmission_zone_asset country_code st)
    as [zone st1|] eqn:Hzone; [|discriminate].
  destruct (ensure_sensors_loop zone timezone specs [] false st1)
    as [[d1 created] st2|] eqn:Hloop; [|discriminate].
  intros [= <- <-].
  assert (Est : (if created then flush st2 else st2) = st2)
    by (destruct created; reflexivity).
  rewrite Est.
  destruct (ensure_transmission_zone_asset_spec _ _ _ _ Hzone)
    as (_ & Ha & [t Ht] & _).
  destruct (ensure_sensors_loop_spec _ _ _ _ _ _ _ _ _ Hloop)
    as (_ & _ & Hts & Has & _).
  rewrite <- Hts in Ht. rewrite <- Has in Ha.
  rewrite (ensure_zone_existing country_code st2 t zone Ht Ha).
  destruct (ensure_sensors_loop_found _ _ _ _ _ _ _ _ _ Hloop) as [Hall ->].
  rewrite (ensure_sensors_loop_existing zone timezone specs [] false
             (commit st2) Hall).
  reflexivity.
Qed.

Lemma ensure_sensors_idempotent_witness :
  exists d st',
    ensure_sensors pricing_sensors "NL" "Europe/Amsterdam" empty_session
    = Done d st'
    /\ ensure_sensors pricing_sensors "NL" "Europe/Amsterdam" st'
       = Done d (commit st').
Proof.
  eexists. eexists. split; [reflexivity|].
  apply (ensure_sensors_idempotent pricing_sensors "NL" "Europe/Amsterdam"
           empty_session).
  reflexivity.
Defined.

(** ** Bounds that carry a timezone *)

(** X25.  A bound that carries a timezone is refused: in a known zone and
    with a valid policy, a timezone-aware [from_date] makes the call raise
    [ValueError] whatever the other bound is, and so does a timezone-aware
    [until_date] when [from_date] is omitted or can be localized. *)
Theorem aware_bound_raises
    (env : Env) (from_date until_date : option datetime)
    (country_timezone default_to : string) (tz : timezone) (D : datetime) :
  tzdb env country_timezone = Some tz ->
  valid_policy default_to ->
  dt_tzinfo D <> None ->
  from_date = Some D
  \/ (until_date = Some D
      /\ forall D1, from_date = Some D1 ->
           exists s1, Timestamp_in_zone D1 tz = Ok s1) ->
  parse_from_and_to_dates env from_date until_date country_timezone default_to
  = Raise (ValueError
      "Cannot pass a datetime or Timestamp with tzinfo with the tz parameter. Use tz_convert instead.").
Proof.
  intros Hzone Hpolicy Haware Hgiven.
  destruct (default_range_valid
              (replace_midnight (datetime_now tz (clock env))) default_to Hpolicy)
    as (ds & de & Hr & _).
  rewrite (parse_unfold env from_date until_date country_timezone default_to
             tz ds de Hzone Hr).
  assert (HD : Timestamp_in_zone D tz
               = Raise (ValueError
                   "Cannot pass a datetime or Timestamp with tzinfo with the tz parameter. Use tz_convert instead.")).
  { unfold Timestamp_in_zone. destruct (dt_tzinfo D); [reflexivity|].
    now destruct Haware. }
  destruct Hgiven as [->|[-> Hfrom]].
  - now rewrite HD.
  - destruct from_date as [D1|].
    + destruct (Hfrom D1 eq_refl) as [s1 H1]. rewrite H1. cbn [bind].
      now rewrite HD.
    + cbn [bind]. now rewrite HD.
Qed.

Lemma aware_bound_raises_witness :
  parse_from_and_to_dates env_2025_05_01
    (Some (datetime_now utc (at_hour 20209 0))) None "UTC" "today"
  = Raise (ValueError
      "Cannot pass a datetime or Timestamp with tzinfo with the tz parameter. Use tz_convert instead.").
Proof.
  apply (aware_bound_raises env_2025_05_01 _ None "UTC" "today" utc
           (datetime_now utc (at_hour 20209 0))).
  - reflexivity.
  - left; reflexivity.
  - discriminate.
  - left; reflexivity.
Defined.

(** ** The debug line, continued *)

(** X26.  For a sensor whose name ends in [%], as in "100%", the debug
    line raises [ValueError]: the [%] takes the colon after the name for
    its conversion.  With such a sensor the call returns only a series
    that needs no adapting. *)
Theorem trailing_percent_raises
    (calendar_rule business_rule : list Z -> option string)
    (index_utcoffset : Z) (s : Series) (sensor : Sensor) (stem : string) :
  name sensor = (stem ++ "%")%string ->
  percent_free stem = true ->
  format_with_series (resampled_message sensor)
  = Raise (ValueError
      ("unsupported format character ':' (0x3a) at index "
       ++ str (20 + Z.of_nat (String.length stem)))%string)
  /\ forall out,
       resample_if_needed calendar_rule business_rule index_utcoffset s sensor
       = Ok out ->
       out = s
       /\ exists offset,
            infer_freq calendar_rule business_rule (index s)
            = Ok (Some offset)
            /\ to_timedelta offset = Ok (event_resolution sensor).
Proof.
  intros Hname Hstem.
  assert (Hfmt : format_with_series (resampled_message sensor)
    = Raise (ValueError
        ("unsupported format character ':' (0x3a) at index "
         ++ str (20 + Z.of_nat (String.length stem)))%string)).
  { unfold format_with_series, resampled_message. rewrite Hname.
    rewrite (format_scan_percent_free "Resampled data for ") by reflexivity.
    rewrite append_assoc.
    rewrite (format_scan_percent_free stem) by assumption.
    cbn [append format_scan format_char].
    change (("%" =? "%")%char) with true. cbv iota.
    cbn [format_scan format_char]. unfold flag_or_later, width_or_later,
      dot_or_later, length_or_later, convert.
    change (one_of "-+ #0" ":") with false.
    change (is_digit ":") with false.
    change (one_of "hlL" ":") with false.
    change (one_of "sra" ":") with false.
    change (one_of "diouxXeEfFgGc" ":") with false.
    change ((":" =? "%")%char) with false.
    change ((":" =? "*")%char) with false.
    change ((":" =? ".")%char) with false.
    change ((":" =? "(")%char) with false.
    cbv iota. unfold unsupported_format_message.
    change (String.length "Resampled data for ") with 19%nat.
    replace (0 + Z.of_nat 19 + Z.of_nat (String.length stem) + 1)
      with (20 + Z.of_nat (String.length stem)) by lia.
    reflexivity. }
  split; [exact Hfmt|].
  intros out. unfold resample_if_needed.
  destruct (infer_freq calendar_rule business_rule (index s))
    as [[offset|]|] eqn:Hfreq; cbn [bind]; try discriminate.
  destruct (to_timedelta offset) as [inferred|] eqn:Hres; cbn [bind];
    [|discriminate].
  destruct (Z.eqb_spec inferred (event_resolution sensor)) as [->|Hne].
  - intros [= <-]. split; [reflexivity|]. now exists offset.
  - rewrite Hfmt.
    destruct (event_resolution sensor <? inferred).
    + destruct (date_range _ _ _ _); cbn [bind]; [|discriminate].
      destruct (reindex s _); cbn [bind]; discriminate.
    + destruct (resample_mean _ _ _); cbn [bind]; discriminate.
Qed.

Lemma trailing_percent_raises_witness :
  format_with_series
    (resampled_message {| name := "100%"; event_resolution := ns_per_hour |})
  = Raise (ValueError
      "unsupported format character ':' (0x3a) at index 23").
Proof.
  exact (proj1 (trailing_percent_raises no_rule no_rule 0 []
                  {| name := "100%"; event_resolution := ns_per_hour |}
                  "100" eq_refl eq_refl)).
Defined.
